(** * mfb-ingest: the OFP extractor, the celestial geometry engine and the
      night/day classifier of [src/server.js], embedded in Rocq.

    Conventions of the embedding.
    - A JavaScript string is the list of its UTF-16 code units ([jsstring]).
    - A regular expression is a value of [regex], run by a backtracking
      matcher with the greedy, leftmost-first semantics of ECMAScript.
    - A [Date] is its time value in milliseconds, or [None] for the
      Invalid Date (time value NaN).
    - Integer-valued numbers are [Z]; a number that may be NaN is an
      [option]; decimal quantities of the logbook are [Q].
    - The numbers of the celestial geometry are reals or NaN, with NaN
      handed on by every operation; rounding and overflow are not part of
      that model.  Where rounding decides what the code does (the guard of
      [slerpLatLon]), the function is modelled a second time on binary64,
      in the module [Binary64].
    - An exchange with a remote service is passed in as a value: what the
      service answers is an argument, what is sent to it a result. *)

From Stdlib Require Import String Ascii DecimalString.
From Stdlib Require Import ZArith NArith QArith Qround List Bool Lia.
From Stdlib Require Import Reals Lra.
From Stdlib Require PrimFloat FloatOps SpecFloat.
Import ListNotations.

Local Open Scope Z_scope.

(** ** JavaScript strings *)

Definition jsstring := list N.

Definition str (s : string) : jsstring := map N_of_ascii (list_ascii_of_string s).
Arguments str s%_string.

Definition jsstring_eqb (a b : jsstring) : bool :=
  if list_eq_dec N.eq_dec a b then true else false.

(** [s.slice(a, b)] for [0 <= a <= b]. *)
Definition slice (s : jsstring) (a b : nat) : jsstring := firstn (b - a) (skipn a s).

(** Truthiness of a value that is [null] or a string. *)
Definition truthy_str (o : option jsstring) : bool :=
  match o with
  | Some (_ :: _) => true
  | _ => false
  end.

(** [a || b] on values that are [null] or a string. *)
Definition js_or (a b : option jsstring) : option jsstring :=
  if truthy_str a then a else b.

(** ** Character classes *)

Definition in_range (lo hi c : N) : bool := ((lo <=? c) && (c <=? hi))%N.

Definition is_digit (c : N) : bool := in_range 48 57 c.
Definition is_upper (c : N) : bool := in_range 65 90 c.
Definition is_lower (c : N) : bool := in_range 97 122 c.

(** [\w] *)
Definition is_word (c : N) : bool :=
  is_digit c || is_upper c || is_lower c || (c =? 95)%N.

(** [\s]: WhiteSpace and LineTerminator code units. *)
Definition is_space (c : N) : bool :=
  in_range 9 13 c || (c =? 32)%N || (c =? 160)%N || (c =? 5760)%N
  || in_range 8192 8202 c || (c =? 8232)%N || (c =? 8233)%N
  || (c =? 8239)%N || (c =? 8287)%N || (c =? 12288)%N || (c =? 65279)%N.

Definition chr (a : ascii) (c : N) : bool := (c =? N_of_ascii a)%N.
Arguments chr a%_char c%_N.

Definition to_lower (c : N) : N := if is_upper c then (c + 32)%N else c.
Definition to_upper (c : N) : N := if is_lower c then (c - 32)%N else c.

(** A letter under the [i] flag: the code unit or its other case. *)
Definition chr_i (a : ascii) (c : N) : bool :=
  (to_upper c =? to_upper (N_of_ascii a))%N.
Arguments chr_i a%_char c%_N.

Definition cls_or (p q : N -> bool) (c : N) : bool := p c || q c.

(** ** Regular expressions *)

Inductive regex : Type :=
| Eps
| Chr (p : N -> bool)
| Cat (r1 r2 : regex)
| Rep (lo : nat) (hi : option nat) (p : N -> bool)
| Opt (r : regex)
| Grp (r : regex)
| Wb.

Definition Cats (rs : list regex) : regex := fold_right Cat Eps rs.

(** A literal, and a literal under the [i] flag. *)
Definition Lit (s : string) : regex :=
  Cats (map (fun a => Chr (chr a)) (list_ascii_of_string s)).
Arguments Lit s%_string.
Definition Lit_i (s : jsstring) : regex :=
  Cats (map (fun a => Chr (fun c => (to_upper c =? to_upper a)%N)) s).

(** State of a match: the text before the current position (reversed), the
    text after it, and the captures closed so far, in closing order. *)
Definition mres : Type := (jsstring * jsstring * list jsstring)%type.
Definition cont : Type := jsstring -> jsstring -> list jsstring -> option mres.

Definition hi_room (hi : option nat) : bool :=
  match hi with
  | Some O => false
  | _ => true
  end.

(** Greedy [p{lo,hi}]: one more code unit first, stop on backtracking. *)
Fixpoint rep (p : N -> bool) (lo : nat) (hi : option nat) (k : cont)
    (bef rest : jsstring) (caps : list jsstring) {struct rest} : option mres :=
  let stop := match lo with O => k bef rest caps | S _ => None end in
  match rest with
  | c :: rest' =>
      if hi_room hi && p c then
        match rep p (pred lo) (option_map pred hi) k (c :: bef) rest' caps with
        | Some r => Some r
        | None => stop
        end
      else stop
  | [] => stop
  end.

Definition head_word (s : jsstring) : bool :=
  match s with
  | c :: _ => is_word c
  | [] => false
  end.

(** [\b] between [bef] and [rest]. *)
Definition at_boundary (bef rest : jsstring) : bool :=
  xorb (head_word bef) (head_word rest).

Fixpoint rmatch (r : regex) (k : cont) (bef rest : jsstring)
    (caps : list jsstring) {struct r} : option mres :=
  match r with
  | Eps => k bef rest caps
  | Chr p =>
      match rest with
      | c :: rest' => if p c then k (c :: bef) rest' caps else None
      | [] => None
      end
  | Cat r1 r2 => rmatch r1 (rmatch r2 k) bef rest caps
  | Rep lo hi p => rep p lo hi k bef rest caps
  | Opt r1 =>
      match rmatch r1 k bef rest caps with
      | Some x => Some x
      | None => k bef rest caps
      end
  | Grp r1 =>
      rmatch r1
        (fun bef' rest' caps' =>
           k bef' rest'
             (caps' ++ [rev (firstn (length bef' - length bef) bef')]))
        bef rest caps
  | Wb => if at_boundary bef rest then k bef rest caps else None
  end.

(** The continuation at the end of the pattern. *)
Definition accept : cont := fun bef rest caps => Some (bef, rest, caps).

(** [text.match(re)] without the [g] flag: the first start index, from the
    left, at which the pattern matches. *)
Fixpoint search (re : regex) (bef rest : jsstring) {struct rest} : option mres :=
  match rmatch re accept bef rest [] with
  | Some x => Some x
  | None =>
      match rest with
      | [] => None
      | c :: rest' => search re (c :: bef) rest'
      end
  end.

(** [(text.match(re) || [null, null])[i]] for [i >= 1]. *)
Definition match_group (re : regex) (text : jsstring) (i : nat) : option jsstring :=
  match search re [] text with
  | Some (_, _, caps) => nth_error caps (i - 1)
  | None => None
  end.

(** ** Numbers read from extracted tokens *)

Definition digit_val (c : N) : Z := Z.of_N c - 48.

(** [Number(s)] on a string of decimal digits. *)
Definition Number_digits (s : jsstring) : Z :=
  fold_left (fun acc c => 10 * acc + digit_val c) s 0.

Fixpoint split_dot (s : jsstring) : jsstring * option jsstring :=
  match s with
  | [] => ([], None)
  | c :: s' =>
      if (c =? 46)%N then ([], Some s')
      else let '(a, b) := split_dot s' in (c :: a, b)
  end.

(** [Number(s)] on a decimal token [digits] or [digits.digits]. *)
Definition Number_decimal (s : jsstring) : Q :=
  match split_dot s with
  | (a, None) => inject_Z (Number_digits a)
  | (a, Some b) =>
      inject_Z (Number_digits a)
      + inject_Z (Number_digits b) / inject_Z (10 ^ Z.of_nat (length b))
  end%Q.

(** ** Clock times *)

Record HHMM : Type := mkHHMM { hh : Z; mm : Z }.

Definition re_zulu (label : jsstring) : regex :=
  Cats [ Wb; Lit_i label; Rep 1 None is_space;
         Grp (Cats [Chr (in_range 48 50); Chr is_digit]);
         Grp (Cats [Chr (in_range 48 53); Chr is_digit]);
         Opt (Chr (chr_i "Z")); Wb ].

Definition parseZuluHHMM (text label : jsstring) : option HHMM :=
  match search (re_zulu label) [] text with
  | None => None
  | Some (_, _, caps) =>
      match caps with
      | [m1; m2] => Some (mkHHMM (Number_digits m1) (Number_digits m2))
      | _ => None
      end
  end.

(** ** parseOFP *)

Record Times : Type := mkTimes {
  out : option HHMM;
  inT : option HHMM;
  off : option HHMM;
  on : option HHMM
}.

Record FlightFact : Type := mkFlightFact {
  flightNumber : option jsstring;
  isoDate : option jsstring;
  orig : option jsstring;
  dest : option jsstring;
  route : option jsstring;
  tail : option jsstring;
  block : option Q;
  captain : option jsstring;
  fo : option jsstring;
  times : Times;
  comments : jsstring
}.

(** [/\bCJT\d{3,4}\b/]; the outer group stands for [m[0]]. *)
Definition re_flightNumber : regex :=
  Grp (Cats [Wb; Lit "CJT"; Rep 3 (Some 4%nat) is_digit; Wb]).

(** [/\bDATE[:\s]*([0-3]\d[A-Z]{3}\d{2})\b/] *)
Definition re_date1 : regex :=
  Cats [ Wb; Lit "DATE"; Rep 0 None (cls_or (chr ":") is_space);
         Grp (Cats [Chr (in_range 48 51); Chr is_digit; Rep 3 (Some 3%nat) is_upper;
                    Rep 2 (Some 2%nat) is_digit]);
         Wb ].

(** [/\b(\d{2}[A-Z]{3}\d{2})\/\d{2}\.\d{2}Z\b/] *)
Definition re_date2 : regex :=
  Cats [ Wb;
         Grp (Cats [Rep 2 (Some 2%nat) is_digit; Rep 3 (Some 3%nat) is_upper;
                    Rep 2 (Some 2%nat) is_digit]);
         Lit "/"; Rep 2 (Some 2%nat) is_digit; Lit "."; Rep 2 (Some 2%nat) is_digit;
         Lit "Z"; Wb ].

(** [/\bORIG\s+([A-Z]{4})\b/] and [/\bDEST\s+([A-Z]{4})\b/] *)
Definition re_icao (marker : string) : regex :=
  Cats [ Wb; Lit marker; Rep 1 None is_space;
         Grp (Rep 4 (Some 4%nat) is_upper); Wb ].

(** [/\bC-[A-Z]{4}\b/]; the outer group stands for [m[0]]. *)
Definition re_tail : regex :=
  Grp (Cats [Wb; Lit "C-"; Rep 4 (Some 4%nat) is_upper; Wb]).

(** [/\bBLOCK[:\s]+(\d{1,2}(?:\.\d)?)\b/i] *)
Definition re_block1 : regex :=
  Cats [ Wb; Lit_i (str "BLOCK"); Rep 1 None (cls_or (chr ":") is_space);
         Grp (Cats [Rep 1 (Some 2%nat) is_digit; Opt (Cats [Lit "."; Chr is_digit])]);
         Wb ].

(** [/\bBLOCK\s+(\d{1,2}\.\d)\b/i] *)
Definition re_block2 : regex :=
  Cats [ Wb; Lit_i (str "BLOCK"); Rep 1 None is_space;
         Grp (Cats [Rep 1 (Some 2%nat) is_digit; Lit "."; Chr is_digit]);
         Wb ].

(** [[A-Z\s'-]] *)
Definition is_name_char (c : N) : bool :=
  is_upper c || is_space c || chr "'" c || chr "-" c.

(** [/\bCAPTAIN[:\s]+([A-Z][A-Z\s'-]{2,})\b/] and the same with [FO]. *)
Definition re_name (marker : string) : regex :=
  Cats [ Wb; Lit marker; Rep 1 None (cls_or (chr ":") is_space);
         Grp (Cats [Chr is_upper; Rep 2 None is_name_char]);
         Wb ].

(** [s.trim()] *)
Fixpoint trim_start (s : jsstring) : jsstring :=
  match s with
  | c :: s' => if is_space c then trim_start s' else s
  | [] => []
  end.
Definition trim (s : jsstring) : jsstring := rev (trim_start (rev (trim_start s))).

(** [s.replace(/\b([a-z])/g, (m) => m.toUpperCase())]: [prev_word] tells
    whether the code unit before the current one is a word character. *)
Fixpoint capitalize_words (prev_word : bool) (s : jsstring) : jsstring :=
  match s with
  | [] => []
  | c :: s' =>
      (if is_lower c && negb prev_word then to_upper c else c)
        :: capitalize_words (is_word c) s'
  end.

(** The names it is applied to hold only [A-Z], white space, ['] and [-],
    on which [toLowerCase] is [to_lower]. *)
Definition toTitleCase (name : jsstring) : jsstring :=
  capitalize_words false (map to_lower (trim name)).

(** The [let block = ... || ...] token, before [Number]. *)
Definition blockToken (text : jsstring) : option jsstring :=
  js_or (match_group re_block1 text 1) (match_group re_block2 text 1).

Definition months : list (jsstring * jsstring) :=
  [ (str "JAN", str "01"); (str "FEB", str "02"); (str "MAR", str "03");
    (str "APR", str "04"); (str "MAY", str "05"); (str "JUN", str "06");
    (str "JUL", str "07"); (str "AUG", str "08"); (str "SEP", str "09");
    (str "OCT", str "10"); (str "NOV", str "11"); (str "DEC", str "12") ].

Fixpoint lookup (key : jsstring) (table : list (jsstring * jsstring)) : option jsstring :=
  match table with
  | [] => None
  | (k, v) :: table' => if jsstring_eqb key k then Some v else lookup key table'
  end.

Definition isoDate_of_token (dateToken : option jsstring) : option jsstring :=
  if truthy_str dateToken then
    match dateToken with
    | Some tok =>
        let dd := slice tok 0 2 in
        let mon := slice tok 2 5 in
        let yy := slice tok 5 7 in
        match lookup mon months with
        | Some mm_ =>
            if truthy_str (Some mm_)
            then Some (str "20" ++ yy ++ str "-" ++ mm_ ++ str "-" ++ dd)
            else None
        | None => None
        end
    | None => None
    end
  else None.

Definition join_space (parts : list jsstring) : jsstring :=
  match parts with
  | [] => []
  | p :: ps => p ++ flat_map (fun q => str " " ++ q) ps
  end.

(** [String(raw || "").replace(/\r/g, "\n")] *)
Definition text_of_raw (raw : jsstring) : jsstring :=
  map (fun c => if (c =? 13)%N then 10%N else c) raw.

Definition parseOFP (raw : jsstring) : FlightFact :=
  let text := text_of_raw raw in
  let flightNumber := match_group re_flightNumber text 1 in
  let dateToken := js_or (match_group re_date1 text 1) (match_group re_date2 text 1) in
  let orig := match_group (re_icao "ORIG") text 1 in
  let dest := match_group (re_icao "DEST") text 1 in
  let tail := match_group re_tail text 1 in
  let block := blockToken text in
  let block :=
    if truthy_str block
    then match block with Some tok => Some (Number_decimal tok) | None => None end
    else None in
  let captainRaw := js_or (match_group (re_name "CAPTAIN") text 1) None in
  let foRaw := js_or (match_group (re_name "FO") text 1) None in
  let captain := if truthy_str captainRaw then option_map toTitleCase captainRaw else None in
  let fo := if truthy_str foRaw then option_map toTitleCase foRaw else None in
  let out := parseZuluHHMM text (str "OUT") in
  let inT := parseZuluHHMM text (str "IN") in
  let off := parseZuluHHMM text (str "OFF") in
  let on := parseZuluHHMM text (str "ON") in
  let isoDate := isoDate_of_token dateToken in
  let both := truthy_str orig && truthy_str dest in
  let route :=
    match orig, dest with
    | Some o, Some d => if both then Some (o ++ str " " ++ d) else None
    | _, _ => None
    end in
  let commentsParts :=
    (if truthy_str flightNumber
     then match flightNumber with Some fnum => [fnum] | None => [] end else [])
    ++ match orig, dest with
       | Some o, Some d => if both then [o ++ str "-" ++ d] else []
       | _, _ => []
       end in
  mkFlightFact flightNumber isoDate orig dest route tail block captain fo
    (mkTimes out inT off on) (join_space commentsParts).

(** Scenario A of the specification, with crew names added. *)
Definition scenarioA : jsstring :=
  str "CJT123 DATE 01JAN24 C-ABCD ORIG CYYZ DEST CYOW BLOCK 1.5 OUT 1400Z IN 1530Z CAPTAIN JOHN O'NEIL-SMITH
FO: JANE DOE".

(** ** Date

    The time value of a [Date], in milliseconds since the epoch; [None] is
    the Invalid Date, whose getters return NaN. *)

Definition Date : Type := option Z.

Definition msPerDay : Z := 86400000.

(** Day number of the civil date [y]-[m]-[d] ([m] from 1 to 12); linear in
    [d], so a day past the end of the month runs into the next one. *)
Definition days_from_civil (y m d : Z) : Z :=
  let y' := if m <=? 2 then y - 1 else y in
  let era := y' / 400 in
  let yoe := y' - era * 400 in
  let doy := (153 * (if 2 <? m then m - 3 else m + 9) + 2) / 5 + d - 1 in
  let doe := yoe * 365 + yoe / 4 - yoe / 100 + doy in
  era * 146097 + doe - 719468.

(** Year, month (1 to 12) and day of the month of a day number. *)
Definition civil_from_days (z : Z) : Z * Z * Z :=
  let z' := z + 719468 in
  let era := z' / 146097 in
  let doe := z' - era * 146097 in
  let yoe := (doe - doe / 1460 + doe / 36524 - doe / 146096) / 365 in
  let doy := doe - (365 * yoe + yoe / 4 - yoe / 100) in
  let mp := (5 * doy + 2) / 153 in
  let d := doy - (153 * mp + 2) / 5 + 1 in
  let m := if mp <? 10 then mp + 3 else mp - 9 in
  ((if m <=? 2 then yoe + era * 400 + 1 else yoe + era * 400), m, d).

Definition Day (t : Z) : Z := t / msPerDay.
Definition TimeWithinDay (t : Z) : Z := t mod msPerDay.

Definition YearFromTime (t : Z) : Z := fst (fst (civil_from_days (Day t))).
(** Month index, from 0. *)
Definition MonthFromTime (t : Z) : Z := snd (fst (civil_from_days (Day t))) - 1.
Definition DateFromTime (t : Z) : Z := snd (civil_from_days (Day t)).

(** [month] is an index from 0 and may lie outside 0..11. *)
Definition MakeDay (year month date : Z) : Z :=
  days_from_civil (year + month / 12) (month mod 12 + 1) 1 + date - 1.
Definition MakeTime (hour min sec ms : Z) : Z :=
  hour * 3600000 + min * 60000 + sec * 1000 + ms.
Definition MakeDate (day time : Z) : Z := day * msPerDay + time.

Definition getTime (d : Date) : option Z := d.
Definition getUTCHours (d : Date) : option Z := option_map (fun t => (t / 3600000) mod 24) d.
Definition getUTCMinutes (d : Date) : option Z := option_map (fun t => (t / 60000) mod 60) d.
Definition getUTCSeconds (d : Date) : option Z := option_map (fun t => (t / 1000) mod 60) d.
Definition getUTCDate (d : Date) : option Z := option_map DateFromTime d.

Definition setUTCDate (d : Date) (dt : option Z) : Date :=
  match d, dt with
  | Some t, Some v =>
      Some (MakeDate (MakeDay (YearFromTime t) (MonthFromTime t) v) (TimeWithinDay t))
  | _, _ => None
  end.

(** A decimal digit, and a run of decimal digits, read as a number. *)
Definition digit_of (c : N) : option Z :=
  if is_digit c then Some (digit_val c) else None.

Definition digits_of (cs : list N) : option Z :=
  fold_left
    (fun acc c =>
       match acc, digit_of c with
       | Some a, Some v => Some (10 * a + v)
       | _, _ => None
       end)
    cs (Some 0).

(** The calendar part [YYYY-MM-DD]: the month from 01 to 12 and the day from
    01 to 31, as V8 accepts it (a day past the end of the month runs into the
    next month). *)
Definition parse_date (s : jsstring) : option Z :=
  match s with
  | [y1; y2; y3; y4; c1; m1; m2; c2; d1; d2] =>
      if chr "-" c1 && chr "-" c2 then
        match digits_of [y1; y2; y3; y4], digits_of [m1; m2], digits_of [d1; d2] with
        | Some y, Some m, Some d =>
            if (1 <=? m) && (m <=? 12) && (1 <=? d) && (d <=? 31)
            then Some (MakeDay y (m - 1) d)
            else None
        | _, _, _ => None
        end
      else None
  | _ => None
  end.

(** The time part [THH:mm:ssZ]: hours from 00 to 23, or 24:00:00. *)
Definition parse_time (s : jsstring) : option Z :=
  match s with
  | [cT; h1; h2; c1; m1; m2; c2; s1; s2; cZ] =>
      if chr "T" cT && chr ":" c1 && chr ":" c2 && chr "Z" cZ then
        match digits_of [h1; h2], digits_of [m1; m2], digits_of [s1; s2] with
        | Some h, Some mi, Some sec =>
            if ((h <=? 23) && (mi <=? 59) && (sec <=? 59))
               || ((h =? 24) && (mi =? 0) && (sec =? 0))
            then Some (MakeTime h mi sec 0)
            else None
        | _, _, _ => None
        end
      else None
  | _ => None
  end.

(** [new Date(s)] on a date-time string [YYYY-MM-DDTHH:mm:ssZ], the one
    shape [makeUtcDate] builds from an [isoDate] of [parseOFP]; an hour or a
    minute out of range makes the Date invalid.  Strings of another shape,
    and a month or a day outside 01-12 and 01-31 (where the engine falls
    back to its legacy parser), are not modelled and read as invalid here;
    every statement below about a valid Date assumes [parse_date] succeeds,
    and the invalid Dates it exhibits come from the hour alone. *)
Definition Date_parse (s : jsstring) : Date :=
  match parse_date (firstn 10 s), parse_time (skipn 10 s) with
  | Some day, Some time => Some (MakeDate day time)
  | _, _ => None
  end.

(** [String(n)] for an integer [n]. *)
Definition String_Z (n : Z) : jsstring :=
  str (NilZero.string_of_int (Z.to_int n)).

(** [s.padStart(2, "0")] *)
Definition padStart2 (s : jsstring) : jsstring :=
  repeat 48%N (2 - length s) ++ s.

Definition makeUtcDate (isoDate : jsstring) (hhmm : HHMM) : Date :=
  Date_parse
    (isoDate ++ str "T" ++ padStart2 (String_Z (hh hhmm)) ++ str ":"
       ++ padStart2 (String_Z (mm hhmm)) ++ str ":00Z").

(** [getUTCHours() * 60 + getUTCMinutes()], NaN on the Invalid Date. *)
Definition minutesOfDay (t : Date) : option Z :=
  match getUTCHours t, getUTCMinutes t with
  | Some h, Some m => Some (h * 60 + m)
  | _, _ => None
  end.

Definition diffMinutesWithMidnightWrap (t1 t2 : Date) : option Z :=
  let m1 := minutesOfDay t1 in
  let m2 := minutesOfDay t2 in
  match m1, m2 with
  | Some m1, Some m2 =>
      let d := m2 - m1 in
      Some (if d <? 0 then d + 1440 else d)
  | _, _ => None
  end.

(** ** Numbers of the celestial computations

    A number is a real or NaN, here [None].  The arithmetic, [Math.max],
    [Math.min] and the [Math] functions return NaN as soon as an operand is
    NaN; [Math.asin] and [Math.acos] return NaN outside [-1, 1] and
    [Math.sqrt] below 0; a comparison with NaN is false.  On numbers that
    are not NaN the arithmetic is the exact one of the reals: rounding to
    binary64 and overflow to an infinity are not part of this model, so a
    statement that would depend on them carries a bound on the magnitude of
    its inputs.  A quotient whose divisor is zero is whatever [Rdiv] makes
    of it (the divisors are constants, [totalMin - 1 >= 1], and [sin ω],
    which on doubles is never zero for [1e-10 <= ω <= π]). *)

Definition num : Type := option R.

(** A real literal or variable, read as a number. *)
Definition Num (r : R) : num := Some r.
Coercion Num : R >-> num.

(** An integer or NaN, as a number: the result of a getter of [Date]. *)
Definition numZ (o : option Z) : num := option_map IZR o.

Definition num_op1 (f : R -> R) (x : num) : num :=
  match x with
  | Some a => Some (f a)
  | None => None
  end.

Definition num_op2 (f : R -> R -> R) (x y : num) : num :=
  match x with
  | Some a => match y with Some b => Some (f a b) | None => None end
  | None => None
  end.

Declare Scope num_scope.
Delimit Scope num_scope with num.
Bind Scope num_scope with num.
Notation "x + y" := (num_op2 Rplus x y) : num_scope.
Notation "x - y" := (num_op2 Rminus x y) : num_scope.
Notation "x * y" := (num_op2 Rmult x y) : num_scope.
Notation "x / y" := (num_op2 Rdiv x y) : num_scope.

Local Open Scope R_scope.

Definition Math_PI : num := PI.
Definition Math_sin (x : num) : num := num_op1 sin x.
Definition Math_cos (x : num) : num := num_op1 cos x.
Definition Math_tan (x : num) : num := num_op1 tan x.
Definition Math_max (x y : num) : num := num_op2 Rmax x y.
Definition Math_min (x y : num) : num := num_op2 Rmin x y.

Definition Math_sqrt (x : num) : num :=
  match x with
  | Some a => if Rle_dec 0 a then Some (sqrt a) else None
  | None => None
  end.

Definition Math_asin (x : num) : num :=
  match x with
  | Some a =>
      if Rle_dec (-1) a then if Rle_dec a 1 then Some (asin a) else None else None
  | None => None
  end.

Definition Math_acos (x : num) : num :=
  match x with
  | Some a =>
      if Rle_dec (-1) a then if Rle_dec a 1 then Some (acos a) else None else None
  | None => None
  end.

(** The angle of the point [(x, y)], between -π and π. *)
Definition Ratan2 (y x : R) : R :=
  if Rlt_dec 0 x then atan (y / x)
  else if Rlt_dec x 0 then
    if Rle_dec 0 y then atan (y / x) + PI else atan (y / x) - PI
  else if Rlt_dec 0 y then PI / 2
  else if Rlt_dec y 0 then - PI / 2
  else 0.

Definition Math_atan2 (y x : num) : num := num_op2 Ratan2 y x.

(** Integer part, towards zero. *)
Definition Rtrunc (x : R) : Z :=
  if Rle_dec 0 x then Int_part x else (- Int_part (- x))%Z.

(** The remainder with the sign of the dividend. *)
Definition Rrem (a b : R) : R := a - b * IZR (Rtrunc (a / b)).

(** [a % b] *)
Definition js_rem (a b : num) : num := num_op2 Rrem a b.

(** [a < b] where [a] may be NaN. *)
Definition js_lt (a : option R) (b : R) : bool :=
  match a with
  | Some x => if Rlt_dec x b then true else false
  | None => false
  end.

(** ** Celestial geometry *)

Local Open Scope num_scope.

Definition clamp (x a b : num) : num := Math_max a (Math_min b x).

Definition deg2rad (d : num) : num := (d * Math_PI) / 180.
Definition rad2deg (r : num) : num := (r * 180) / Math_PI.

(** An entry of the airport table, or a point of the route; a field that is
    missing from the entry reads as NaN in the arithmetic. *)
Record Coord : Type := mkCoord { lat : num; lon : num }.

Definition slerpLatLon (lat1 lon1 lat2 lon2 f : num) : Coord :=
  let φ1 := deg2rad lat1 in let λ1 := deg2rad lon1 in
  let φ2 := deg2rad lat2 in let λ2 := deg2rad lon2 in
  let x1 := Math_cos φ1 * Math_cos λ1 in
  let y1 := Math_cos φ1 * Math_sin λ1 in
  let z1 := Math_sin φ1 in
  let x2 := Math_cos φ2 * Math_cos λ2 in
  let y2 := Math_cos φ2 * Math_sin λ2 in
  let z2 := Math_sin φ2 in
  let dot := clamp (x1 * x2 + y1 * y2 + z1 * z2) (-1) 1 in
  let ω := Math_acos dot in
  if js_lt ω (1 / 10 ^ 10) then mkCoord lat1 lon1
  else
    let sinω := Math_sin ω in
    let a := Math_sin ((1 - f) * ω) / sinω in
    let b := Math_sin (f * ω) / sinω in
    let x := a * x1 + b * x2 in
    let y := a * y1 + b * y2 in
    let z := a * z1 + b * z2 in
    let φ := Math_atan2 z (Math_sqrt (x * x + y * y)) in
    let λ := Math_atan2 y x in
    mkCoord (rad2deg φ) (rad2deg λ).

Definition solarAltitudeDeg (dateUTC : Date) (latDeg lonDeg : num) : num :=
  let ms := numZ (getTime dateUTC) in
  let jd := ms / 86400000 + 2440587.5 in
  let T := (jd - 2451545.0) / 36525.0 in
  let L0 := 280.46646 + T * (36000.76983 + 0.0003032 * T) in
  let L0 := js_rem (js_rem L0 360 + 360) 360 in
  let M := 357.52911 + T * (35999.05029 - 0.0001537 * T) in
  let e := 0.016708634 - T * (0.000042037 + 0.0000001267 * T) in
  let Mrad := deg2rad M in
  let C :=
    Math_sin Mrad * (1.914602 - T * (0.004817 + 0.000014 * T))
    + Math_sin (2 * Mrad) * (0.019993 - 0.000101 * T)
    + Math_sin (3 * Mrad) * 0.000289 in
  let trueLong := L0 + C in
  let Ω := 125.04 - 1934.136 * T in
  let λ := trueLong - 0.00569 - 0.00478 * Math_sin (deg2rad Ω) in
  let ε0 :=
    23 + (26 + (21.448 - T * (46.815 + T * (0.00059 - T * 0.001813))) / 60) / 60 in
  let ε := ε0 + 0.00256 * Math_cos (deg2rad Ω) in
  let δ := rad2deg (Math_asin (Math_sin (deg2rad ε) * Math_sin (deg2rad λ))) in
  let y := Math_tan (deg2rad ε / 2) in
  let y2 := y * y in
  let L0rad := deg2rad L0 in
  let sin2L0 := Math_sin (2 * L0rad) in
  let sinM := Math_sin Mrad in
  let cos2L0 := Math_cos (2 * L0rad) in
  let sin4L0 := Math_sin (4 * L0rad) in
  let sin2M := Math_sin (2 * Mrad) in
  let Etime :=
    4 * rad2deg
          (y2 * sin2L0 - 2 * e * sinM + 4 * e * y2 * sinM * cos2L0
           - 0.5 * y2 * y2 * sin4L0 - 1.25 * e * e * sin2M) in
  let utcMinutes :=
    numZ (getUTCHours dateUTC) * 60 + numZ (getUTCMinutes dateUTC)
    + numZ (getUTCSeconds dateUTC) / 60 in
  let trueSolarTime := js_rem (utcMinutes + Etime + 4 * lonDeg) 1440 in
  let ha :=
    if js_lt (trueSolarTime / 4) 0
    then trueSolarTime / 4 + 180 else trueSolarTime / 4 - 180 in
  let latRad := deg2rad latDeg in
  let δRad := deg2rad δ in
  let haRad := deg2rad ha in
  let cosZenith :=
    Math_sin latRad * Math_sin δRad
    + Math_cos latRad * Math_cos δRad * Math_cos haRad in
  let zenith := rad2deg (Math_acos (clamp cosZenith (-1) 1)) in
  let altitude := 90 - zenith in
  altitude.

Local Close Scope num_scope.
Local Close Scope R_scope.

(** ** The interpolation on binary64

    The same [slerpLatLon], with the numbers of the engine: IEEE-754
    doubles, here Rocq's primitive floats, whose arithmetic and square root
    are the correctly rounded ones.  [Math.sin], [Math.cos], [Math.acos]
    and [Math.atan2] are left to the engine by the language; the model
    takes the algorithms of fdlibm, from which those of V8 derive, with
    [Math.sin] and [Math.cos] on the arguments whose high word is at most
    0x413921fb, about 1.6e6 in magnitude (the reduction of larger arguments
    is not modelled: [None]).  The
    classifier keeps the model over the reals: what is proved of it uses
    the order of the altitudes and the NaN, not their digits. *)

Set Warnings "-inexact-float".

Module Binary64.

Import PrimFloat.
Import SpecFloat.

(** The 64 bits of a double, as an integer: sign, biased exponent, fraction. *)
Definition bits (x : float) : Z :=
  match FloatOps.Prim2SF x with
  | S754_zero s => if s then 2 ^ 63 else 0
  | S754_infinity s => (if s then 2 ^ 63 else 0) + 2047 * 2 ^ 52
  | S754_nan => 2047 * 2 ^ 52 + 2 ^ 51
  | S754_finite s m e =>
      (if s then 2 ^ 63 else 0)
      + (if 2 ^ 52 <=? Z.pos m then (e + 1075) * 2 ^ 52 + (Z.pos m - 2 ^ 52) else Z.pos m)
  end.

(** [__HI(x)], a signed 32-bit integer, and [__LO(x)], an unsigned one. *)
Definition HI (x : float) : Z :=
  let h := bits x / 2 ^ 32 in if 2 ^ 31 <=? h then h - 2 ^ 32 else h.

Definition LO (x : float) : Z := bits x mod 2 ^ 32.

(** The double of high word [hi], signed or unsigned, and low word [lo]. *)
Definition from_words (hi lo : Z) : float :=
  let hi := hi mod 2 ^ 32 in
  let s := 2 ^ 31 <=? hi in
  let ix := hi mod 2 ^ 31 in
  let E := ix / 2 ^ 20 in
  let frac := (ix mod 2 ^ 20) * 2 ^ 32 + lo in
  if E =? 0 then
    if frac =? 0 then FloatOps.SF2Prim (S754_zero s)
    else FloatOps.SF2Prim (S754_finite s (Z.to_pos frac) (-1074))
  else if E =? 2047 then
    if frac =? 0 then FloatOps.SF2Prim (S754_infinity s) else nan
  else FloatOps.SF2Prim (S754_finite s (Z.to_pos (frac + 2 ^ 52)) (E - 1075)).

(** [ix = __HI(x) & 0x7fffffff] *)
Definition IX (x : float) : Z := Z.land (HI x) 0x7fffffff.

Local Open Scope float_scope.

(** k_sin.c *)
Definition kernel_sin (x y : float) (iy : Z) : float :=
  let S1 := -0x1.5555555555549p-3 in
  let S2 := 0x1.111111110f8a6p-7 in
  let S3 := -0x1.a01a019c161d5p-13 in
  let S4 := 0x1.71de357b1fe7dp-19 in
  let S5 := -0x1.ae5e68a2b9cebp-26 in
  let S6 := 0x1.5d93a5acfd57cp-33 in
  if (IX x <? 0x3e400000)%Z then x
  else
    let z := x * x in
    let v := z * x in
    let r := S2 + z * (S3 + z * (S4 + z * (S5 + z * S6))) in
    if (iy =? 0)%Z then x + v * (S1 + z * r)
    else x - ((z * (0.5 * y - v * r) - y) - v * S1).

(** k_cos.c *)
Definition kernel_cos (x y : float) : float :=
  let C1 := 0x1.555555555554cp-5 in
  let C2 := -0x1.6c16c16c15177p-10 in
  let C3 := 0x1.a01a019cb159p-16 in
  let C4 := -0x1.27e4f809c52adp-22 in
  let C5 := 0x1.1ee9ebdb4b1c4p-29 in
  let C6 := -0x1.8fae9be8838d4p-37 in
  let ix := IX x in
  if (ix <? 0x3e400000)%Z then 1
  else
    let z := x * x in
    let r := z * (C1 + z * (C2 + z * (C3 + z * (C4 + z * (C5 + z * C6))))) in
    if (ix <? 0x3FD33333)%Z then 1 - (0.5 * z - (z * r - x * y))
    else
      let qx := if (0x3fe90000 <? ix)%Z then 0.28125 else from_words (ix - 0x00200000) 0 in
      let hz := 0.5 * z - qx in
      let a := 1 - qx in
      a - (hz - (z * r - x * y)).

(** [(int) t] for a double [t >= 0] below 2^31, and [(double) n]. *)
Definition to_int (t : float) : Z :=
  match FloatOps.Prim2SF t with
  | S754_finite false m e => if (0 <=? e)%Z then Z.shiftl (Z.pos m) e else Z.shiftr (Z.pos m) (- e)
  | _ => 0%Z
  end.

Definition of_int (n : Z) : float :=
  if (n =? 0)%Z then 0 else FloatOps.SF2Prim (S754_finite false (Z.to_pos n) 0).

(** The high words of the multiples of π/2, up to 32. *)
Definition npio2_hw : list Z :=
  [0x3FF921FB; 0x400921FB; 0x4012D97C; 0x401921FB; 0x401F6A7A; 0x4022D97C;
   0x4025FDBB; 0x402921FB; 0x402C463A; 0x402F6A7A; 0x4031475C; 0x4032D97C;
   0x40346B9C; 0x4035FDBB; 0x40378FDB; 0x403921FB; 0x403AB41B; 0x403C463A;
   0x403DD85A; 0x403F6A7A; 0x40407E4C; 0x4041475C; 0x4042106C; 0x4042D97C;
   0x4043A28C; 0x40446B9C; 0x404534AC; 0x4045FDBB; 0x4046C6CB; 0x40478FDB;
   0x404858EB; 0x404921FB]%Z.

(** The biased exponent of a double. *)
Definition exponent (x : float) : Z := Z.land (Z.shiftr (HI x) 20) 0x7ff.

(** e_rem_pio2.c, without its last case, the arguments of high word above
    0x413921fb: the quadrant and the reduced argument in two parts. *)
Definition rem_pio2 (x : float) : option (Z * float * float) :=
  let invpio2 := 0x1.45f306dc9c883p-1 in
  let pio2_1 := 0x1.921fb544p+0 in
  let pio2_1t := 0x1.0b4611a626331p-34 in
  let pio2_2 := 0x1.0b4611a6p-34 in
  let pio2_2t := 0x1.3198a2e037073p-69 in
  let pio2_3 := 0x1.3198a2ep-69 in
  let pio2_3t := 0x1.b839a252049c1p-104 in
  let hx := HI x in
  let ix := IX x in
  if (ix <=? 0x3fe921fb)%Z then Some (0%Z, x, 0)
  else if (ix <? 0x4002d97c)%Z then
    if (0 <? hx)%Z then
      let z := x - pio2_1 in
      if negb (ix =? 0x3ff921fb)%Z then
        let y0 := z - pio2_1t in
        Some (1%Z, y0, (z - y0) - pio2_1t)
      else
        let z := z - pio2_2 in
        let y0 := z - pio2_2t in
        Some (1%Z, y0, (z - y0) - pio2_2t)
    else
      let z := x + pio2_1 in
      if negb (ix =? 0x3ff921fb)%Z then
        let y0 := z + pio2_1t in
        Some ((-1)%Z, y0, (z - y0) + pio2_1t)
      else
        let z := z + pio2_2 in
        let y0 := z + pio2_2t in
        Some ((-1)%Z, y0, (z - y0) + pio2_2t)
  else if (ix <=? 0x413921fb)%Z then
    let t := abs x in
    let n := to_int (t * invpio2 + 0.5) in
    let fn := of_int n in
    let r := t - fn * pio2_1 in
    let w := fn * pio2_1t in
    let '(y0, r, w) :=
      if ((n <? 32) && negb (ix =? nth (Z.to_nat (n - 1)) npio2_hw 0))%Z then (r - w, r, w)
      else
        let j := Z.shiftr ix 20 in
        let y0 := r - w in
        if (16 <? j - exponent y0)%Z then
          let t := r in
          let w := fn * pio2_2 in
          let r := t - w in
          let w := fn * pio2_2t - ((t - r) - w) in
          let y0 := r - w in
          if (49 <? j - exponent y0)%Z then
            let t := r in
            let w := fn * pio2_3 in
            let r := t - w in
            let w := fn * pio2_3t - ((t - r) - w) in
            (r - w, r, w)
          else (y0, r, w)
        else (y0, r, w) in
    let y1 := (r - y0) - w in
    if (hx <? 0)%Z then Some ((- n)%Z, - y0, - y1) else Some (n, y0, y1)
  else None.

(** s_sin.c *)
Definition Math_sin (x : float) : option float :=
  if (IX x <=? 0x3fe921fb)%Z then Some (kernel_sin x 0 0)
  else
    match rem_pio2 x with
    | Some (n, y0, y1) =>
        Some (match Z.land n 3 with
              | 0%Z => kernel_sin y0 y1 1
              | 1%Z => kernel_cos y0 y1
              | 2%Z => - kernel_sin y0 y1 1
              | _ => - kernel_cos y0 y1
              end)
    | None => None
    end.

(** s_cos.c *)
Definition Math_cos (x : float) : option float :=
  if (IX x <=? 0x3fe921fb)%Z then Some (kernel_cos x 0)
  else
    match rem_pio2 x with
    | Some (n, y0, y1) =>
        Some (match Z.land n 3 with
              | 0%Z => kernel_cos y0 y1
              | 1%Z => - kernel_sin y0 y1 1
              | 2%Z => - kernel_cos y0 y1
              | _ => kernel_sin y0 y1 1
              end)
    | None => None
    end.

(** The rational approximation [p/q] of e_acos.c. *)
Definition acos_r (z : float) : float :=
  let pS0 := 0x1.5555555555555p-3 in
  let pS1 := -0x1.4d61203eb6f7dp-2 in
  let pS2 := 0x1.9c1550e884455p-3 in
  let pS3 := -0x1.48228b5688f3bp-5 in
  let pS4 := 0x1.9efe07501b288p-11 in
  let pS5 := 0x1.23de10dfdf709p-15 in
  let qS1 := -0x1.33a271c8a2d4bp+1 in
  let qS2 := 0x1.02ae59c598ac8p+1 in
  let qS3 := -0x1.6066c1b8d0159p-1 in
  let qS4 := 0x1.3b8c5b12e9282p-4 in
  let p := z * (pS0 + z * (pS1 + z * (pS2 + z * (pS3 + z * (pS4 + z * pS5))))) in
  let q := 1 + z * (qS1 + z * (qS2 + z * (qS3 + z * qS4))) in
  p / q.

(** e_acos.c *)
Definition Math_acos (x : float) : float :=
  let pi := 0x1.921fb54442d18p+1 in
  let pio2_hi := 0x1.921fb54442d18p+0 in
  let pio2_lo := 0x1.1a62633145c07p-54 in
  let hx := HI x in
  let ix := IX x in
  if (0x3ff00000 <=? ix)%Z then
    if (Z.lor (ix - 0x3ff00000) (LO x) =? 0)%Z then
      if (0 <? hx)%Z then 0 else pi + 2 * pio2_lo
    else (x - x) / (x - x)
  else if (ix <? 0x3fe00000)%Z then
    if (ix <=? 0x3c600000)%Z then pio2_hi + pio2_lo
    else
      let z := x * x in
      let r := acos_r z in
      pio2_hi - (x - (pio2_lo - r * x))
  else if (hx <? 0)%Z then
    let z := (1 + x) * 0.5 in
    let s := sqrt z in
    let r := acos_r z in
    let w := r * s - pio2_lo in
    pi - 2 * (s + w)
  else
    let z := (1 - x) * 0.5 in
    let s := sqrt z in
    let df := from_words (HI s) 0 in
    let c := (z - df * df) / (s + df) in
    let r := acos_r z in
    let w := r * s + c in
    2 * (df + w).

(** s_atan.c *)
Definition atan (x : float) : float :=
  let atanhi0 := 0x1.dac670561bb4fp-2 in
  let atanhi1 := 0x1.921fb54442d18p-1 in
  let atanhi2 := 0x1.f730bd281f69bp-1 in
  let atanhi3 := 0x1.921fb54442d18p+0 in
  let atanlo0 := 0x1.a2b7f222f65e2p-56 in
  let atanlo1 := 0x1.1a62633145c07p-55 in
  let atanlo2 := 0x1.007887af0cbbdp-56 in
  let atanlo3 := 0x1.1a62633145c07p-54 in
  let aT0 := 0x1.555555555550dp-2 in
  let aT1 := -0x1.999999998ebc4p-3 in
  let aT2 := 0x1.24924920083ffp-3 in
  let aT3 := -0x1.c71c6fe231671p-4 in
  let aT4 := 0x1.745cdc54c206ep-4 in
  let aT5 := -0x1.3b0f2af749a6dp-4 in
  let aT6 := 0x1.10d66a0d03d51p-4 in
  let aT7 := -0x1.dde2d52defd9ap-5 in
  let aT8 := 0x1.97b4b24760debp-5 in
  let aT9 := -0x1.2b4442c6a6c2fp-5 in
  let aT10 := 0x1.0ad3ae322da11p-6 in
  let hx := HI x in
  let ix := IX x in
  let poly (x : float) : float :=
    let z := x * x in
    let w := z * z in
    let s1 := z * (aT0 + w * (aT2 + w * (aT4 + w * (aT6 + w * (aT8 + w * aT10))))) in
    let s2 := w * (aT1 + w * (aT3 + w * (aT5 + w * (aT7 + w * aT9)))) in
    x * (s1 + s2) in
  let reduced (hi lo x : float) : float :=
    let z := hi - ((poly x - lo) - x) in
    if (hx <? 0)%Z then - z else z in
  if (0x44100000 <=? ix)%Z then
    if ((0x7ff00000 <? ix) || ((ix =? 0x7ff00000) && negb (LO x =? 0)))%Z then x + x
    else if (0 <? hx)%Z then atanhi3 + atanlo3
    else - atanhi3 - atanlo3
  else if (ix <? 0x3fdc0000)%Z then
    if (ix <? 0x3e200000)%Z then x
    else x - poly x
  else
    let x := abs x in
    if (ix <? 0x3ff30000)%Z then
      if (ix <? 0x3fe60000)%Z then reduced atanhi0 atanlo0 ((2 * x - 1) / (2 + x))
      else reduced atanhi1 atanlo1 ((x - 1) / (x + 1))
    else
      if (ix <? 0x40038000)%Z then reduced atanhi2 atanlo2 ((x - 1.5) / (1 + 1.5 * x))
      else reduced atanhi3 atanlo3 (-1 / x).

(** e_atan2.c *)
Definition Math_atan2 (y x : float) : float :=
  let tiny := 1.0e-300 in
  let pi_o_4 := 0x1.921fb54442d18p-1 in
  let pi_o_2 := 0x1.921fb54442d18p+0 in
  let pi := 0x1.921fb54442d18p+1 in
  let pi_lo := 0x1.1a62633145c07p-53 in
  let hx := HI x in let ix := IX x in let lx := LO x in
  let hy := HI y in let iy := IX y in let ly := LO y in
  if ((0x7ff00000 <? Z.lor ix (if lx =? 0 then 0 else 1))
      || (0x7ff00000 <? Z.lor iy (if ly =? 0 then 0 else 1)))%Z then x + y
  else if (Z.lor (hx - 0x3ff00000) lx =? 0)%Z then atan y
  else
    let m := ((if hy <? 0 then 1 else 0) + (if hx <? 0 then 2 else 0))%Z in
    if (Z.lor iy ly =? 0)%Z then
      match m with
      | 0%Z | 1%Z => y
      | 2%Z => pi + tiny
      | _ => - pi - tiny
      end
    else if (Z.lor ix lx =? 0)%Z then
      if (hy <? 0)%Z then - pi_o_2 - tiny else pi_o_2 + tiny
    else if (ix =? 0x7ff00000)%Z then
      if (iy =? 0x7ff00000)%Z then
        match m with
        | 0%Z => pi_o_4 + tiny
        | 1%Z => - pi_o_4 - tiny
        | 2%Z => 3 * pi_o_4 + tiny
        | _ => -3 * pi_o_4 - tiny
        end
      else
        match m with
        | 0%Z => 0
        | 1%Z => -0
        | 2%Z => pi + tiny
        | _ => - pi - tiny
        end
    else if (iy =? 0x7ff00000)%Z then
      if (hy <? 0)%Z then - pi_o_2 - tiny else pi_o_2 + tiny
    else
      let k := Z.shiftr (iy - ix) 20 in
      let z :=
        if (60 <? k)%Z then pi_o_2 + 0.5 * pi_lo
        else if ((hx <? 0) && (k <? -60))%Z then 0
        else atan (abs (y / x)) in
      match m with
      | 0%Z => z
      | 1%Z => - z
      | 2%Z => pi - (z - pi_lo)
      | _ => (z - pi_lo) - pi
      end.

(** [Math.max] and [Math.min] of two numbers: NaN when one is NaN, and +0
    above -0. *)
Definition Math_max (a b : float) : float :=
  if is_nan a || is_nan b then nan
  else if a <? b then b
  else if b <? a then a
  else match classify a with FloatClass.NZero => b | _ => a end.

Definition Math_min (a b : float) : float :=
  if is_nan a || is_nan b then nan
  else if a <? b then a
  else if b <? a then b
  else match classify a with FloatClass.PZero => b | _ => a end.

Definition Math_PI : float := 0x1.921fb54442d18p+1.

Definition clamp (x a b : float) : float := Math_max a (Math_min b x).

Definition deg2rad (d : float) : float := (d * Math_PI) / 180.
Definition rad2deg (r : float) : float := (r * 180) / Math_PI.

Notation "'let*' x ':=' e 'in' k" :=
  (match e with Some x => k | None => None end)
  (at level 10, x name, e at level 200, k at level 200).

(** The returned object, [{ lat, lon }]. *)
Definition slerpLatLon (lat1 lon1 lat2 lon2 f : float) : option (float * float) :=
  let φ1 := deg2rad lat1 in let λ1 := deg2rad lon1 in
  let φ2 := deg2rad lat2 in let λ2 := deg2rad lon2 in
  let* cosφ1 := Math_cos φ1 in let* cosλ1 := Math_cos λ1 in
  let* sinφ1 := Math_sin φ1 in let* sinλ1 := Math_sin λ1 in
  let* cosφ2 := Math_cos φ2 in let* cosλ2 := Math_cos λ2 in
  let* sinφ2 := Math_sin φ2 in let* sinλ2 := Math_sin λ2 in
  let x1 := cosφ1 * cosλ1 in
  let y1 := cosφ1 * sinλ1 in
  let z1 := sinφ1 in
  let x2 := cosφ2 * cosλ2 in
  let y2 := cosφ2 * sinλ2 in
  let z2 := sinφ2 in
  let dot := clamp (x1 * x2 + y1 * y2 + z1 * z2) (-1) 1 in
  let ω := Math_acos dot in
  if ω <? 1e-10 then Some (lat1, lon1)
  else
    let* sinω := Math_sin ω in
    let* sin_a := Math_sin ((1 - f) * ω) in
    let* sin_b := Math_sin (f * ω) in
    let a := sin_a / sinω in
    let b := sin_b / sinω in
    let x := a * x1 + b * x2 in
    let y := a * y1 + b * y2 in
    let z := a * z1 + b * z2 in
    let φ := Math_atan2 z (sqrt (x * x + y * y)) in
    let λ := Math_atan2 y x in
    Some (rad2deg φ, rad2deg λ).

(** The coordinates of CYOW, and the latitude that comes back for them. *)
Definition lat_CYOW : float := 45.3225.
Definition lon_CYOW : float := -75.6692.
Definition lat_returned : float := 45.32249999999999.

(** The largest double below 1 and its arccos, 2^-26; the threshold of the
    guard. *)
Definition below_one : float := 0x1.fffffffffffffp-1.
Definition acos_below_one : float := 0x1p-26.
Definition threshold : float := 1e-10.

End Binary64.

(** ** Night/day classifier and logbook values *)

(** [Math.round] on an exact decimal: the nearest integer, a half upwards. *)
Definition Math_round (x : Q) : Q := inject_Z (Qfloor (x + (1 # 2))).

(** [Math.max] *)
Definition Qmax (a b : Q) : Q := if Qle_bool a b then b else a.

Record NightResult : Type := mkNightResult {
  nightHours : option Q;
  nightReason : jsstring
}.

Record LandingResult : Type := mkLandingResult {
  isNightLanding : option bool;
  landingReason : jsstring;
  sunAltDeg : option R
}.

(** The body of [for (let i = 0; i < totalMin; i++)], [n] iterations from
    the state [(i, nightMin)]. *)
Fixpoint nightLoop (a b : Coord) (tOut : Date) (totalMin : Z) (twilightAltDeg : R)
    (n : nat) (i : Z) (nightMin : Z) {struct n} : Z :=
  match n with
  | O => nightMin
  | S n' =>
      let f : num := if totalMin =? 1 then 0%R else (IZR i / IZR (totalMin - 1))%R in
      let p := slerpLatLon (lat a) (lon a) (lat b) (lon b) f in
      let ti : Date := option_map (fun t => t + i * 60000) (getTime tOut) in
      let alt := solarAltitudeDeg ti (lat p) (lon p) in
      nightLoop a b tOut totalMin twilightAltDeg n' (i + 1)
        (if js_lt alt twilightAltDeg then nightMin + 1 else nightMin)
  end.

(** [Math.round((nightMin / 60) * 10) / 10] *)
Definition nightHours_of (nightMin : Z) : Q :=
  (Math_round ((inject_Z nightMin / 60) * 10) / 10)%Q.

Section Classifier.

(** The airport table, ICAO code to coordinates. *)
Variable AIRPORTS : jsstring -> option Coord.

Definition computeNightHours_BlockInterval (parsed : FlightFact)
    (twilightAltDeg : R) : NightResult :=
  match isoDate parsed, orig parsed, dest parsed,
        out (times parsed), inT (times parsed) with
  | Some isoDate_, Some orig_, Some dest_, Some out_, Some in_ =>
      if negb (truthy_str (isoDate parsed)) || negb (truthy_str (orig parsed))
         || negb (truthy_str (dest parsed))
      then mkNightResult None (str "Missing OUT/IN or route/date")
      else
        match AIRPORTS orig_, AIRPORTS dest_ with
        | Some a, Some b =>
            let tOut := makeUtcDate isoDate_ out_ in
            let tIn := makeUtcDate isoDate_ in_ in
            let totalMin := diffMinutesWithMidnightWrap tOut tIn in
            match totalMin with
            | Some d =>
                if d <=? 0
                then mkNightResult (Some 0%Q) (str "Non-positive block minutes")
                else
                  let nightMin :=
                    nightLoop a b tOut d twilightAltDeg (Z.to_nat d) 0 0 in
                  mkNightResult (Some (nightHours_of nightMin)) (str "ok")
            | None =>
                (* NaN: [totalMin <= 0] and [i < totalMin] are both false *)
                mkNightResult (Some (nightHours_of 0)) (str "ok")
            end
        | None, _ =>
            mkNightResult None (str "Missing airport coords for " ++ orig_)
        | Some _, None =>
            mkNightResult None (str "Missing airport coords for " ++ dest_)
        end
  | _, _, _, _, _ => mkNightResult None (str "Missing OUT/IN or route/date")
  end.

(** The instant [tLand] handed to [solarAltitudeDeg]. *)
Definition landingInstant (isoDate_ : jsstring) (landingHHMM : HHMM)
    (out_ : option HHMM) : Date :=
  let tLand := makeUtcDate isoDate_ landingHHMM in
  match out_ with
  | Some o =>
      let tOut := makeUtcDate isoDate_ o in
      let outMin := minutesOfDay tOut in
      let landMin := minutesOfDay tLand in
      match landMin, outMin with
      | Some l, Some m =>
          if l <? m
          then setUTCDate tLand (option_map (fun d => d + 1) (getUTCDate tLand))
          else tLand
      | _, _ => tLand
      end
  | None => tLand
  end.

Definition computeLandingDayNight (parsed : FlightFact)
    (twilightAltDeg : R) : LandingResult :=
  match isoDate parsed, dest parsed with
  | Some isoDate_, Some dest_ =>
      if negb (truthy_str (isoDate parsed)) || negb (truthy_str (dest parsed))
      then mkLandingResult None (str "Missing date/dest") None
      else
        match AIRPORTS dest_ with
        | None =>
            mkLandingResult None (str "Missing airport coords for " ++ dest_) None
        | Some destCoord =>
            let landingHHMM :=
              match on (times parsed) with
              | Some t => Some t
              | None => inT (times parsed)
              end in
            match landingHHMM with
            | None => mkLandingResult None (str "Missing ON/IN time") None
            | Some landingHHMM =>
                let tLand := landingInstant isoDate_ landingHHMM (out (times parsed)) in
                let alt := solarAltitudeDeg tLand (lat destCoord) (lon destCoord) in
                mkLandingResult (Some (js_lt alt twilightAltDeg)) (str "ok") alt
            end
        end
  | _, _ => mkLandingResult None (str "Missing date/dest") None
  end.

End Classifier.

(** Truthiness of a value that is [null] or a number. *)
Definition truthy_num (o : option Q) : bool :=
  match o with
  | Some q => negb (Qeq_bool q 0)
  | None => false
  end.

(** Truthiness of a value that is [null], [undefined] or an object. *)
Definition truthy_obj {A : Type} (o : option A) : bool :=
  match o with
  | Some _ => true
  | None => false
  end.

Inductive PfMode : Type := PF | PM.

(** [pfMode === "PM" ? "PM" : "PF"] *)
Definition mode_of (pfMode : option jsstring) : PfMode :=
  match pfMode with
  | Some s => if jsstring_eqb s (str "PM") then PM else PF
  | None => PF
  end.

(** ** Escaping *)

(** [s.replaceAll(c, r)] for a pattern [c] of one code unit. *)
Definition replaceAll1 (c : N) (r : jsstring) (s : jsstring) : jsstring :=
  flat_map (fun x => if (x =? c)%N then r else [x]) s.

(** [s] is [null], [undefined] or a string. *)
Definition escapeXml (s : option jsstring) : jsstring :=
  let s0 := match s with Some v => v | None => [] end in
  replaceAll1 39 (str "&apos;")
    (replaceAll1 34 (str "&quot;")
       (replaceAll1 62 (str "&gt;")
          (replaceAll1 60 (str "&lt;")
             (replaceAll1 38 (str "&amp;") s0)))).

(** ** The pending flight and the [/ingest] handler *)

(** The [computed] object in the result of [createPendingFlight]. *)
Record Computed : Type := mkComputed {
  approaches : Z;
  landings : Z;
  fullStopDay : Z;
  fullStopNight : Z;
  xc : Q;
  night : Q;
  imc : Q;
  computed_nightReason : jsstring;
  computed_landingReason : jsstring;
  landingSunAltDeg : option R
}.

(** The SOAP envelope sent to the logbook service, as the values written
    into its elements, in the order of the template; the numbers stand for
    their decimal text. *)
Record SoapEnvelope : Type := mkSoapEnvelope {
  szAuthUserToken : jsstring;
  le_Date : jsstring;
  TailNumDisplay : jsstring;
  Route : jsstring;
  TotalTime : Q;
  SIC : Q;
  PIC : Q;
  Comments : jsstring;
  CrossCountry : Q;
  Night : Q;
  IMC : Q;
  Landings : Z;
  FullStopLandings : Z;
  FullStopNightLandings : Z;
  Approaches : Z;
  Property183 : jsstring;
  Property184 : jsstring;
  Property529 : Q;
  Property530 : Q
}.

(** What [await fetch(...)] followed by [await res.text()] gives: a
    rejection, with the text [String(e.message || e)] that the handler
    reports, or a response with [res.ok], [res.status] and its body. *)
Inductive FetchResult : Type :=
| FetchRejected (message : jsstring)
| FetchResponse (ok : bool) (status : Z) (body : jsstring).

(** What [createPendingFlight] returns. *)
Record Created : Type := mkCreated {
  soapSnippet : jsstring;
  computed : Computed
}.

Inductive IngestResponse : Type :=
| MissingRawText
| ParserMissingFields (missing : list string) (parsed : FlightFact)
| MissingAirportCoords (missing_airports : list (option jsstring)) (parsed : FlightFact)
| PendingFlightCreated (pf_mode : PfMode) (parsed : FlightFact) (computed : Computed)
    (soapSnippet : jsstring)
| InternalError (error : jsstring).

(** The [missing] list of the [/ingest] handler. *)
Definition missingFields (parsed : FlightFact) : list string :=
  (if negb (truthy_str (isoDate parsed)) then ["date"%string] else [])
  ++ (if negb (truthy_str (tail parsed)) then ["tail"%string] else [])
  ++ (if negb (truthy_str (route parsed)) then ["route"%string] else [])
  ++ (if negb (truthy_num (block parsed)) then ["block"%string] else [])
  ++ (if negb (truthy_str (orig parsed)) then ["orig"%string] else [])
  ++ (if negb (truthy_str (dest parsed)) then ["dest"%string] else [])
  ++ (if negb (truthy_obj (out (times parsed))) then ["OUT"%string] else [])
  ++ (if negb (truthy_obj (inT (times parsed))) then ["IN"%string] else []).

(** The message of the error thrown when the service does not answer ok. *)
Definition httpError (status : Z) (body : jsstring) : jsstring :=
  str "MyFlightbook HTTP " ++ String_Z status ++ str ": " ++ slice body 0 800.

Section Ingest.

Variable AIRPORTS : jsstring -> option Coord.

(** [process.env.MFB_AUTH_TOKEN]; the server does not start without it. *)
Variable MFB_AUTH_TOKEN : jsstring.

(** [AIRPORTS[c]] for [c] a code or [null]. *)
Definition airport (c : option jsstring) : option Coord :=
  match c with
  | Some code => AIRPORTS code
  | None => None
  end.

(** [res] is the outcome of the one request the function makes; the result
    is what the function returns or the message of what it throws, with the
    envelopes it has sent. *)
Definition createPendingFlight (parsed : FlightFact) (pfMode : option jsstring)
    (res : FetchResult) : (jsstring + Created) * list SoapEnvelope :=
  if negb (truthy_str (isoDate parsed)) then (inl (str "Missing date"), [])
  else if negb (truthy_str (tail parsed)) then (inl (str "Missing tail (aircraft)"), [])
  else if negb (truthy_str (route parsed)) then (inl (str "Missing route"), [])
  else if negb (truthy_num (block parsed)) then (inl (str "Missing block time"), [])
  else
    let block := match block parsed with Some b => b | None => 0%Q end in
    let total := block in
    let sic := block in
    let pic := 0%Q in
    let xc := block in
    let imc := Qmax (Math_round ((block - 0.1) * 10) / 10) 0 in
    let approaches := 1 in
    let landings := 1 in
    let nightRes := computeNightHours_BlockInterval AIRPORTS parsed (-6) in
    let night :=
      match nightHours nightRes with
      | Some h => h
      | None => 0%Q
      end in
    let landRes := computeLandingDayNight AIRPORTS parsed (-6) in
    let fullStopNight :=
      match isNightLanding landRes with
      | Some true => 1
      | _ => 0
      end in
    let fullStopDay :=
      match isNightLanding landRes with
      | Some false => 1
      | _ => 0
      end in
    let mode := mode_of pfMode in
    let pfTime := match mode with PF => block | PM => 0%Q end in
    let pmTime := match mode with PM => block | PF => 0%Q end in
    let picName := match captain parsed with Some n => n | None => [] end in
    let sicName := match fo parsed with Some n => n | None => [] end in
    let soapEnvelope :=
      mkSoapEnvelope (escapeXml (Some MFB_AUTH_TOKEN))
        (match isoDate parsed with Some d => d | None => str "null" end)
        (escapeXml (tail parsed)) (escapeXml (route parsed))
        total sic pic (escapeXml (Some (comments parsed)))
        xc night imc
        landings fullStopDay fullStopNight approaches
        (escapeXml (Some picName)) (escapeXml (Some sicName)) pfTime pmTime in
    match res with
    | FetchRejected message => (inl message, [soapEnvelope])
    | FetchResponse ok status body =>
        if negb ok then (inl (httpError status body), [soapEnvelope])
        else
          (inr (mkCreated (slice body 0 300)
                  (mkComputed approaches landings fullStopDay fullStopNight
                     xc night imc (nightReason nightRes) (landingReason landRes)
                     (sunAltDeg landRes))),
           [soapEnvelope])
    end.

(** The [/ingest] handler from the parsed record on: its answer and the
    envelopes sent to the logbook service. *)
Definition ingestParsed (parsed : FlightFact) (pfMode : option jsstring)
    (res : FetchResult) : IngestResponse * list SoapEnvelope :=
  let missing := missingFields parsed in
  match missing with
  | _ :: _ => (ParserMissingFields missing parsed, [])
  | [] =>
      if negb (truthy_obj (airport (orig parsed)))
         || negb (truthy_obj (airport (dest parsed)))
      then
        (MissingAirportCoords
           (filter (fun c => negb (truthy_obj (airport c))) [orig parsed; dest parsed])
           parsed,
         [])
      else
        match createPendingFlight parsed pfMode res with
        | (inr result, sent) =>
            (PendingFlightCreated (mode_of pfMode) parsed (computed result)
               (soapSnippet result),
             sent)
        | (inl e, sent) => (InternalError e, sent)
        end
  end.

(** [app.post("/ingest")]: [raw] is [req.body?.raw_text]. *)
Definition ingest (raw pfMode : option jsstring) (res : FetchResult)
    : IngestResponse * list SoapEnvelope :=
  if negb (truthy_str raw) then (MissingRawText, [])
  else
    match raw with
    | Some raw => ingestParsed (parseOFP raw) pfMode res
    | None => (MissingRawText, [])
    end.

End Ingest.

(** ** Redaction and the access token *)

(** [s.slice(-4)] *)
Definition slice_last4 (s : jsstring) : jsstring := skipn (length s - 4) s.

Definition redact (s : option jsstring) : jsstring :=
  if negb (truthy_str s) then []
  else
    match s with
    | Some s =>
        if (length s <=? 10)%nat then str "****"
        else slice s 0 4 ++ [8230%N] ++ slice_last4 s
    | None => []
    end.

(** What a call of [getAccessToken] can throw. *)
Inductive TokenError : Type :=
| MissingEnvVar (name : string)
| TokenRefreshFailed (status : Z) (text : jsstring)
| JsonParseError
| NoAccessToken (text : jsstring).

Definition must (name : string) (v : option jsstring) : TokenError + option jsstring :=
  if negb (truthy_str v) then inl (MissingEnvVar name) else inr v.

Record Env : Type := mkEnv {
  MFB_CLIENT_ID : option jsstring;
  MFB_CLIENT_SECRET : option jsstring;
  MFB_REFRESH_TOKEN : option jsstring;
  MFB_TOKEN_URL : option jsstring
}.

(** The module-level [cached] object. *)
Record Cache : Type := mkCache {
  token : option jsstring;
  expMs : Z
}.

(** The POST sent to the token URL, with [grant_type=refresh_token]. *)
Record TokenRequest : Type := mkTokenRequest {
  req_url : option jsstring;
  req_refresh_token : option jsstring;
  req_client_id : option jsstring;
  req_client_secret : option jsstring
}.

(** The fields [getAccessToken] reads off the parsed body; [expires_in] is
    absent or an integer number of seconds. *)
Record TokenData : Type := mkTokenData {
  access_token : option jsstring;
  authtoken : option jsstring;
  expires_in : option Z
}.

(** The answer of the token endpoint: [json] is [JSON.parse(text)], [None]
    when parsing throws. *)
Record TokenResponse : Type := mkTokenResponse {
  resp_ok : bool;
  resp_status : Z;
  resp_text : jsstring;
  resp_json : option TokenData
}.

(** [getAccessToken], with its effects passed explicitly: the cache before
    and after, the two readings of [Date.now()], the answer the endpoint
    would give, and the list of requests actually sent. *)
Definition getAccessToken (env : Env) (cached : Cache) (now : Z)
    (resp : TokenResponse) (now2 : Z)
    : (TokenError + jsstring) * Cache * list TokenRequest :=
  match must "MFB_CLIENT_ID" (MFB_CLIENT_ID env) with
  | inl e => (inl e, cached, [])
  | inr _ =>
  match must "MFB_CLIENT_SECRET" (MFB_CLIENT_SECRET env) with
  | inl e => (inl e, cached, [])
  | inr _ =>
  match must "MFB_REFRESH_TOKEN" (MFB_REFRESH_TOKEN env) with
  | inl e => (inl e, cached, [])
  | inr _ =>
  match must "MFB_TOKEN_URL" (MFB_TOKEN_URL env) with
  | inl e => (inl e, cached, [])
  | inr _ =>
      let hit :=
        match token cached with
        | Some t => if truthy_str (token cached) && (now <? expMs cached - 60000)
                    then Some t else None
        | None => None
        end in
      match hit with
      | Some t => (inr t, cached, [])
      | None =>
          let body :=
            mkTokenRequest (MFB_TOKEN_URL env) (MFB_REFRESH_TOKEN env)
              (MFB_CLIENT_ID env) (MFB_CLIENT_SECRET env) in
          if negb (resp_ok resp)
          then (inl (TokenRefreshFailed (resp_status resp) (resp_text resp)),
                cached, [body])
          else
            match resp_json resp with
            | None => (inl JsonParseError, cached, [body])
            | Some data =>
                let access := js_or (access_token data) (authtoken data) in
                let expiresIn :=
                  match expires_in data with
                  | Some e => if e =? 0 then 3600 else e
                  | None => 3600
                  end in
                match access with
                | Some a =>
                    if negb (truthy_str access)
                    then (inl (NoAccessToken (resp_text resp)), cached, [body])
                    else (inr a, mkCache (Some a) (now2 + expiresIn * 1000), [body])
                | None => (inl (NoAccessToken (resp_text resp)), cached, [body])
                end
            end
      end
  end end end end.

(** ** Vocabulary of the statements *)

(** [sem r bef caps l rest' caps']: [r] matches the code units [l], with
    [bef] (reversed) before them and [rest'] after them, and takes the
    captures from [caps] to [caps']. *)
Fixpoint sem (r : regex) (bef : jsstring) (caps : list jsstring)
    (l rest' : jsstring) (caps' : list jsstring) {struct r} : Prop :=
  match r with
  | Eps => l = [] /\ caps' = caps
  | Chr p => exists c, l = [c] /\ p c = true /\ caps' = caps
  | Cat r1 r2 =>
      exists l1 l2 cm,
        l = l1 ++ l2
        /\ sem r1 bef caps l1 (l2 ++ rest') cm
        /\ sem r2 (rev l1 ++ bef) cm l2 rest' caps'
  | Rep lo hi p =>
      forallb p l = true
      /\ (lo <= length l)%nat
      /\ match hi with Some h => (length l <= h)%nat | None => True end
      /\ caps' = caps
  | Opt r1 => (l = [] /\ caps' = caps) \/ sem r1 bef caps l rest' caps'
  | Grp r1 => exists cm, sem r1 bef caps l rest' cm /\ caps' = cm ++ [l]
  | Wb => l = [] /\ caps' = caps /\ at_boundary bef rest' = true
  end.

(** A pattern without groups leaves the captures alone. *)
Fixpoint groupless (r : regex) : bool :=
  match r with
  | Eps | Chr _ | Rep _ _ _ | Wb => true
  | Cat r1 r2 => groupless r1 && groupless r2
  | Opt r1 => groupless r1
  | Grp _ => false
  end.

(** The labels [parseOFP] passes to [parseZuluHHMM]. *)
Definition zulu_labels : list jsstring := [str "OUT"; str "OFF"; str "ON"; str "IN"].

(** The text [LABEL HHMMZ] for an hour and a minute of two digits. *)
Definition zulu_text (label : jsstring) (h m : Z) : jsstring :=
  label ++ str " " ++ padStart2 (String_Z h) ++ padStart2 (String_Z m) ++ str "Z".

(** [parseZuluHHMM] reads hour [h] and minute [m] back from [zulu_text]. *)
Definition zulu_accepts (label : jsstring) (h m : Z) : bool :=
  match parseZuluHHMM (zulu_text label h m) label with
  | Some t => (hh t =? h) && (mm t =? m)
  | None => false
  end.

(** [f] holds on the [n] integers from [lo] on. *)
Fixpoint forall_from (f : Z -> bool) (n : nat) (lo : Z) {struct n} : bool :=
  match n with
  | O => true
  | S n' => f lo && forall_from f n' (lo + 1)
  end.

(** What [makeUtcDate] appends to the date: [THH:mm:00Z]. *)
Definition timeSuffix (hhmm : HHMM) : jsstring :=
  str "T" ++ padStart2 (String_Z (hh hhmm)) ++ str ":"
    ++ padStart2 (String_Z (mm hhmm)) ++ str ":00Z".

(** [parse_time] reads [h] hours and [m] minutes back from [timeSuffix]. *)
Definition time_ok (h m : Z) : bool :=
  match parse_time (timeSuffix (mkHHMM h m)) with
  | Some t => t =? MakeTime h m 0 0
  | None => false
  end.

(** Within one 400-year era: the day [doe] of the era, taken to a civil date
    by [civil_from_days] and back by [days_from_civil], is [doe] again. *)
Definition doe_roundtrip (doe : Z) : bool :=
  let yoe := (doe - doe / 1460 + doe / 36524 - doe / 146096) / 365 in
  let doy := doe - (365 * yoe + yoe / 4 - yoe / 100) in
  let mp := (5 * doy + 2) / 153 in
  let d := doy - (153 * mp + 2) / 5 + 1 in
  let m := if mp <? 10 then mp + 3 else mp - 9 in
  (0 <=? yoe) && (yoe <=? 399) && (1 <=? m) && (m <=? 12)
  && (let doy' := (153 * (if 2 <? m then m - 3 else m + 9) + 2) / 5 + d - 1 in
      yoe * 365 + yoe / 4 - yoe / 100 + doy' =? doe).

(** A clock time of day: hour up to 23, minute up to 59. *)
Definition valid_clock (t : HHMM) : Prop := 0 <= hh t <= 23 /\ 0 <= mm t <= 59.

(** Minutes since midnight of a clock reading. *)
Definition clock_minutes (t : HHMM) : Z := hh t * 60 + mm t.

(** A flight across midnight. *)
Definition text_wrap : jsstring :=
  str "CJT123 DATE 01JAN24 C-ABCD ORIG CYYZ DEST CYOW BLOCK 0.3 OUT 2350Z IN 0010Z".

(** The same flight with an OUT hour of 29, which the extractor accepts. *)
Definition text_hour29 : jsstring :=
  str "CJT123 DATE 01JAN24 C-ABCD ORIG CYYZ DEST CYOW BLOCK 0.3 OUT 2930Z IN 0010Z".

(** The inputs [computeNightHours_BlockInterval] asks for: date, origin and
    destination with their coordinates, OUT and IN. *)
Definition hasNightInputs (AIRPORTS : jsstring -> option Coord) (parsed : FlightFact)
    (iso : jsstring) (a b : Coord) (o i : HHMM) : Prop :=
  isoDate parsed = Some iso /\ iso <> []
  /\ (exists code, orig parsed = Some code /\ code <> [] /\ AIRPORTS code = Some a)
  /\ (exists code, dest parsed = Some code /\ code <> [] /\ AIRPORTS code = Some b)
  /\ out (times parsed) = Some o
  /\ inT (times parsed) = Some i.

(** Order on night hours that may be [null]. *)
Definition opt_Qle (x y : option Q) : Prop :=
  match x, y with
  | Some p, Some q => (p <= q)%Q
  | None, None => True
  | _, _ => False
  end.

(** Two airports for the worked examples. *)
Definition CYYZ : Coord := mkCoord 43.6777%R (-79.6248)%R.
Definition CYOW : Coord := mkCoord 45.3225%R (-75.6692)%R.

(** An airport table holding just these two. *)
Definition exampleAirports (code : jsstring) : option Coord :=
  if jsstring_eqb code (str "CYYZ") then Some CYYZ
  else if jsstring_eqb code (str "CYOW") then Some CYOW
  else None.

(** OUT and IN at the same clock time. *)
Definition text_same_clock : jsstring :=
  str "CJT123 DATE 01JAN24 C-ABCD ORIG CYYZ DEST CYOW BLOCK 0.3 OUT 1400Z IN 1400Z".

(** The inputs [computeLandingDayNight] asks for: date, destination with its
    coordinates, and a landing clock time, ON or else IN. *)
Definition hasLandingInputs (AIRPORTS : jsstring -> option Coord) (parsed : FlightFact)
    (iso : jsstring) (destCoord : Coord) (landing : HHMM) : Prop :=
  isoDate parsed = Some iso /\ iso <> []
  /\ (exists code, dest parsed = Some code /\ code <> [] /\ AIRPORTS code = Some destCoord)
  /\ (on (times parsed) = Some landing
      \/ (on (times parsed) = None /\ inT (times parsed) = Some landing)).

(** Scenario C of the specification: no BLOCK token. *)
Definition text_no_block : jsstring :=
  str "CJT123 DATE 01JAN24 C-ABCD ORIG CYYZ DEST CYOW OUT 1400Z IN 1530Z".

(** A complete text whose block time is zero. *)
Definition text_block_zero : jsstring :=
  str "CJT123 DATE 01JAN24 C-ABCD ORIG CYYZ DEST CYOW BLOCK 0 OUT 1400Z IN 1530Z".

(** Reading the five entities back; not in the source, it states that
    [escapeXml] loses nothing. *)
Fixpoint unescapeXml (s : jsstring) : jsstring :=
  match s with
  | [] => []
  | c :: r =>
      if (c =? 38)%N then
        match r with
        | 97%N :: 109%N :: 112%N :: 59%N :: r' => 38%N :: unescapeXml r'
        | 108%N :: 116%N :: 59%N :: r' => 60%N :: unescapeXml r'
        | 103%N :: 116%N :: 59%N :: r' => 62%N :: unescapeXml r'
        | 113%N :: 117%N :: 111%N :: 116%N :: 59%N :: r' => 34%N :: unescapeXml r'
        | 97%N :: 112%N :: 111%N :: 115%N :: 59%N :: r' => 39%N :: unescapeXml r'
        | _ => c :: unescapeXml r
        end
      else c :: unescapeXml r
  end.

(** The replacement of one code unit by [escapeXml]. *)
Definition escapeXml_unit (c : N) : jsstring :=
  if (c =? 38)%N then str "&amp;"
  else if (c =? 60)%N then str "&lt;"
  else if (c =? 62)%N then str "&gt;"
  else if (c =? 34)%N then str "&quot;"
  else if (c =? 39)%N then str "&apos;"
  else [c].

(** The code units XML markup is made of: [<], [>], the two quotes. *)
Definition is_markup (c : N) : bool :=
  (c =? 60)%N || (c =? 62)%N || (c =? 34)%N || (c =? 39)%N.

(** All four variables of the token refresh are set. *)
Definition env_complete (env : Env) : Prop :=
  truthy_str (MFB_CLIENT_ID env) = true
  /\ truthy_str (MFB_CLIENT_SECRET env) = true
  /\ truthy_str (MFB_REFRESH_TOKEN env) = true
  /\ truthy_str (MFB_TOKEN_URL env) = true.

Definition exampleEnv : Env :=
  mkEnv (Some (str "id")) (Some (str "secret")) (Some (str "refresh"))
    (Some (str "https://example.org/token")).

(** The lifetime [Number(data.expires_in || 3600)] in seconds. *)
Definition lifetime (data : TokenData) : Z :=
  match expires_in data with
  | Some e => if e =? 0 then 3600 else e
  | None => 3600
  end.

(** There is no cached token to serve at time [now]. *)
Definition cache_miss (cached : Cache) (now : Z) : Prop :=
  truthy_str (token cached) = false \/ expMs cached - 60000 <= now.

Definition exampleData : TokenData := mkTokenData (Some (str "tok")) None None.
Definition exampleResponse : TokenResponse := mkTokenResponse true 200 [] (Some exampleData).

(** [parse_time] accepts the suffix of [h]:[m] exactly when it is a time of
    day or 24:00. *)
Definition time_validity_ok (h m : Z) : bool :=
  Bool.eqb (match parse_time (timeSuffix (mkHHMM h m)) with Some _ => true | None => false end)
    ((h <=? 23) || ((h =? 24) && (m =? 0))).

(** A landing at 25:10. *)
Definition text_landing25 : jsstring :=
  str "CJT123 DATE 01JAN24 C-ABCD ORIG CYYZ DEST CYOW BLOCK 0.3 OUT 2350Z IN 2510Z".

(** The shape [\d{1,2}] or [\d{1,2}\.\d] of a BLOCK token. *)
Definition block_shape (tok : jsstring) : Prop :=
  exists ds frac,
    tok = ds ++ frac /\ (1 <= length ds <= 2)%nat /\ forallb is_digit ds = true
    /\ (frac = [] \/ exists d, frac = [46%N; d] /\ is_digit d = true).

(** The shape of a date token: two digits, three letters, two digits. *)
Definition date_shape (tok : jsstring) : Prop :=
  exists d1 d2 m1 m2 m3 y1 y2,
    tok = [d1; d2; m1; m2; m3; y1; y2]
    /\ is_digit d1 = true /\ is_digit d2 = true
    /\ is_digit y1 = true /\ is_digit y2 = true.


(** No white space at either end. *)
Definition trimmed (s : jsstring) : Prop :=
  match s with [] => True | c :: _ => is_space c = false end
  /\ match rev s with [] => True | c :: _ => is_space c = false end.

(** A number that is not NaN. *)
Definition is_number (x : num) : Prop := exists r, x = Some r.

(** A coordinate in degrees that is a number of magnitude at most 1e300, so
    that no intermediate value of the computation overflows. *)
Definition finite_degrees (x : num) : Prop :=
  exists r, x = Some r /\ (Rabs r <= 10 ^ 300)%R.

Definition finite_coord (c : Coord) : Prop :=
  finite_degrees (lat c) /\ finite_degrees (lon c).

(** The time values of the valid Dates. *)
Definition time_value (ms : Z) : Prop :=
  -8640000000000000 <= ms <= 8640000000000000.

(** The entry of CYOW without its latitude. *)
Definition CYOW_without_lat : Coord := mkCoord None (-75.6692)%R.

(** The example table with CYOW lacking its latitude. *)
Definition airports_without_lat (code : jsstring) : option Coord :=
  if jsstring_eqb code (str "CYOW") then Some CYOW_without_lat
  else exampleAirports code.

(** The required field called [name] does not pass the validation of the
    handler: it is absent or an empty string or, for the block time, zero. *)
Definition field_missing (parsed : FlightFact) (name : string) : Prop :=
  (name = "date"%string /\ (isoDate parsed = None \/ isoDate parsed = Some []))
  \/ (name = "tail"%string /\ (tail parsed = None \/ tail parsed = Some []))
  \/ (name = "route"%string /\ (route parsed = None \/ route parsed = Some []))
  \/ (name = "block"%string
      /\ (block parsed = None \/ exists q, block parsed = Some q /\ (q == 0)%Q))
  \/ (name = "orig"%string /\ (orig parsed = None \/ orig parsed = Some []))
  \/ (name = "dest"%string /\ (dest parsed = None \/ dest parsed = Some []))
  \/ (name = "OUT"%string /\ out (times parsed) = None)
  \/ (name = "IN"%string /\ inT (times parsed) = None).

(** A token and two answers of the logbook service for the worked examples. *)
Definition exampleToken : jsstring := str "secret<token>".
Definition answerOk : FetchResult := FetchResponse true 200 (str "<soap:Envelope/>").
Definition answerDenied : FetchResult := FetchResponse false 401 (str "Unauthorized").

(** What the handler reports when the exchange with the service fails. *)
Definition exchangeError (res : FetchResult) : option jsstring :=
  match res with
  | FetchRejected message => Some message
  | FetchResponse ok status body => if ok then None else Some (httpError status body)
  end.

(** A text with no tail number and a block time of zero. *)
Definition text_no_tail_block_zero : jsstring :=
  str "CJT123 DATE 01JAN24 ORIG CYYZ DEST CYOW BLOCK 0 OUT 1400Z IN 1530Z".

(** The field whose absence is [H] is named in [missingFields]. *)
Ltac in_missing H :=
  unfold missingFields; rewrite H; cbn [truthy_str truthy_num truthy_obj negb];
  rewrite !in_app_iff; cbn [In]; intuition auto.

(** * Properties *)

(** ** The matcher is sound for a declarative reading of [regex] *)

Lemma rep_sound p k x : forall rest lo hi bef caps,
  rep p lo hi k bef rest caps = Some x ->
  exists l rest',
    rest = l ++ rest'
    /\ sem (Rep lo hi p) bef caps l rest' caps
    /\ k (rev l ++ bef) rest' caps = Some x.
Proof.
  induction rest as [|c rest IH]; intros lo hi bef caps H; simpl in H.
  - destruct lo; [|discriminate].
    exists [], []. cbn. repeat split; auto. destruct hi; auto with arith.
  - assert (Hstop : match lo with O => k bef (c :: rest) caps | S _ => None end = Some x ->
                    exists l rest', c :: rest = l ++ rest'
                      /\ sem (Rep lo hi p) bef caps l rest' caps
                      /\ k (rev l ++ bef) rest' caps = Some x).
    { intros Hs. destruct lo; [|discriminate].
      exists [], (c :: rest). cbn. repeat split; auto. destruct hi; auto with arith. }
    destruct (hi_room hi && p c) eqn:Hc; [|auto].
    apply andb_true_iff in Hc. destruct Hc as [Hroom Hp].
    destruct (rep p (Nat.pred lo) (option_map Nat.pred hi) k (c :: bef) rest caps)
      as [y|] eqn:Hr; [|auto].
    injection H as ->.
    apply IH in Hr. destruct Hr as (l & rest' & -> & (Hall & Hlo & Hhi & _) & Hk).
    exists (c :: l), rest'. cbn. rewrite Hp, Hall. repeat split; auto.
    + lia.
    + destruct hi as [[|h]|]; cbn in *; try discriminate; auto. lia.
    + rewrite <- app_assoc. exact Hk.
Qed.

Lemma rmatch_sound : forall r k bef rest caps x,
  rmatch r k bef rest caps = Some x ->
  exists l rest' caps',
    rest = l ++ rest'
    /\ sem r bef caps l rest' caps'
    /\ k (rev l ++ bef) rest' caps' = Some x.
Proof.
  induction r as [|p|r1 IH1 r2 IH2|lo hi p|r1 IH1|r1 IH1|];
    intros k bef rest caps x H; cbn [rmatch] in H.
  - exists [], rest, caps. cbn. auto.
  - destruct rest as [|c rest]; [discriminate|].
    destruct (p c) eqn:Hp; [|discriminate].
    exists [c], rest, caps. cbn. eauto 6.
  - apply IH1 in H. destruct H as (l1 & rm & cm & -> & H1 & H).
    apply IH2 in H. destruct H as (l2 & rest' & caps' & -> & H2 & H).
    exists (l1 ++ l2), rest', caps'. rewrite <- app_assoc. split; [reflexivity|]. split.
    + cbn. exists l1, l2, cm. auto.
    + rewrite rev_app_distr, <- app_assoc. exact H.
  - apply rep_sound in H. destruct H as (l & rest' & -> & Hs & Hk).
    exists l, rest', caps. auto.
  - destruct (rmatch r1 k bef rest caps) as [y|] eqn:Hr.
    + injection H as ->. apply IH1 in Hr.
      destruct Hr as (l & rest' & caps' & -> & Hs & Hk).
      exists l, rest', caps'. cbn. auto.
    + exists [], rest, caps. cbn. auto.
  - apply IH1 in H. destruct H as (l & rest' & cm & -> & Hs & Hk).
    exists l, rest', (cm ++ [l]). split; [reflexivity|]. split.
    + cbn. exists cm. auto.
    + rewrite length_app, length_rev, Nat.add_sub in Hk.
      rewrite <- (length_rev l) in Hk at 1.
      rewrite firstn_app, Nat.sub_diag, firstn_all, firstn_O, app_nil_r, rev_involutive in Hk.
      exact Hk.
  - destruct (at_boundary bef rest) eqn:Hb; [|discriminate].
    exists [], rest, caps. cbn. auto.
Qed.

Lemma search_sound re : forall rest bef b r caps,
  search re bef rest = Some (b, r, caps) ->
  exists pre l,
    rest = pre ++ l ++ r /\ sem re (rev pre ++ bef) [] l r caps.
Proof.
  induction rest as [|c rest IH]; intros bef b r caps H; simpl in H.
  - destruct (rmatch re accept bef [] []) as [y|] eqn:Hm; [|discriminate].
    injection H as ->. apply rmatch_sound in Hm.
    destruct Hm as (l & rest' & caps' & E & Hs & Hk). injection Hk as _ <- <-.
    exists [], l. auto.
  - destruct (rmatch re accept bef (c :: rest) []) as [y|] eqn:Hm.
    + injection H as ->. apply rmatch_sound in Hm.
      destruct Hm as (l & rest' & caps' & E & Hs & Hk). injection Hk as _ <- <-.
      exists [], l. auto.
    + apply IH in H. destruct H as (pre & l & -> & Hs).
      exists (c :: pre), l. split; [reflexivity|].
      cbn [rev]. rewrite <- app_assoc. exact Hs.
Qed.

Lemma sem_groupless : forall r bef caps l rest' caps',
  groupless r = true -> sem r bef caps l rest' caps' -> caps' = caps.
Proof.
  induction r as [|p|r1 IH1 r2 IH2|lo hi p|r1 IH1|r1 IH1|];
    intros bef caps l rest' caps' G H; cbn in G, H.
  - tauto.
  - destruct H as (c & _ & _ & ->). reflexivity.
  - apply andb_true_iff in G. destruct G as [G1 G2].
    destruct H as (l1 & l2 & cm & _ & H1 & H2).
    apply IH1 in H1; [|exact G1]. apply IH2 in H2; [|exact G2]. congruence.
  - tauto.
  - destruct H as [[_ ->]|H]; [reflexivity|]. eapply IH1; eauto.
  - discriminate.
  - tauto.
Qed.

Lemma Lit_i_groupless (s : jsstring) : groupless (Lit_i s) = true.
Proof. induction s as [|a s IH]; cbn; auto. Qed.

Lemma Lit_groupless (s : string) : groupless (Lit s) = true.
Proof.
  unfold Lit. induction (list_ascii_of_string s) as [|a l IH]; cbn; auto.
Qed.

(** ** parseZuluHHMM *)

Lemma re_zulu_captures label text b r caps :
  search (re_zulu label) [] text = Some (b, r, caps) ->
  exists h1 h2 m1 m2,
    caps = [[h1; h2]; [m1; m2]]
    /\ in_range 48 50 h1 = true /\ is_digit h2 = true
    /\ in_range 48 53 m1 = true /\ is_digit m2 = true.
Proof.
  intros H. apply search_sound in H. destruct H as (pre & l & _ & H).
  unfold re_zulu in H. cbn [Cats fold_right sem] in H.
  destruct H as (l1 & l2 & c1 & _ & (_ & -> & _) & H).
  destruct H as (l3 & l4 & c2 & _ & Hlab & H).
  apply sem_groupless in Hlab; [|apply Lit_i_groupless]. subst c2.
  destruct H as (l5 & l6 & c3 & _ & (_ & _ & _ & ->) & H).
  destruct H as (l7 & l8 & c4 & _ & Hg1 & H).
  destruct Hg1 as (cm & (g1 & g2 & cg & -> & (h1 & -> & Hh1 & ->) & Hg1) & ->).
  destruct Hg1 as (g3 & g4 & cg & -> & (h2 & -> & Hh2 & ->) & (-> & ->)).
  destruct H as (l9 & l10 & c5 & _ & Hg2 & H).
  destruct Hg2 as (cm & (g1 & g2 & cg & -> & (m1 & -> & Hm1 & ->) & Hg2) & ->).
  destruct Hg2 as (g3 & g4 & cg & -> & (m2 & -> & Hm2 & ->) & (-> & ->)).
  destruct H as (l11 & l12 & c6 & _ & Hopt & H).
  assert (c6 = [[h1; h2]; [m1; m2]]) as ->.
  { destruct Hopt as [[_ ->]|(c & _ & _ & ->)]; reflexivity. }
  destruct H as (l13 & l14 & c7 & _ & (_ & -> & _) & (_ & ->)).
  exists h1, h2, m1, m2. auto.
Qed.

Lemma Number_digits_two (a b : N) (hi : N) :
  in_range 48 hi a = true -> is_digit b = true ->
  0 <= Number_digits [a; b] <= 10 * (Z.of_N hi - 48) + 9.
Proof.
  unfold is_digit, in_range, Number_digits, digit_val. cbn [fold_left].
  intros Ha Hb.
  apply andb_true_iff in Ha, Hb. destruct Ha as [Ha1 Ha2], Hb as [Hb1 Hb2].
  apply N.leb_le in Ha1, Ha2, Hb1, Hb2. lia.
Qed.

Lemma forall_from_spec f : forall n lo,
  forall_from f n lo = true -> forall z, lo <= z < lo + Z.of_nat n -> f z = true.
Proof.
  induction n as [|n IH]; intros lo H z Hz; [lia|].
  cbn [forall_from] in H. apply andb_true_iff in H. destruct H as [H0 H1].
  destruct (Z.eq_dec z lo) as [->|Hne]; [exact H0|].
  apply (IH (lo + 1) H1). lia.
Qed.

(** C10: whenever the clock-time extractor returns a value for one of the
    labels OUT, OFF, ON, IN, its minute is in [0, 59] and its hour is in
    [0, 29]; and the hours 24 to 29 are indeed accepted: the text
    "OUT 2930Z" yields hour 29, and for every label every hour up to 29
    with every minute up to 59 is extracted from some text. *)
Theorem parseZuluHHMM_hour_up_to_29 :
  (forall text label t,
      In label zulu_labels ->
      parseZuluHHMM text label = Some t ->
      0 <= hh t <= 29 /\ 0 <= mm t <= 59)
  /\ parseZuluHHMM (str "OUT 2930Z") (str "OUT") = Some (mkHHMM 29 30)
  /\ (forall label h m,
        In label zulu_labels -> 0 <= h <= 29 -> 0 <= m <= 59 ->
        parseZuluHHMM (zulu_text label h m) label = Some (mkHHMM h m)).
Proof.
  split; [|split].
  - intros text label t _ H. unfold parseZuluHHMM in H.
    destruct (search (re_zulu label) [] text) as [[[b r] caps]|] eqn:Hs; [|discriminate].
    apply re_zulu_captures in Hs.
    destruct Hs as (h1 & h2 & m1 & m2 & -> & Hh1 & Hh2 & Hm1 & Hm2).
    injection H as <-. cbn [hh mm].
    pose proof (Number_digits_two h1 h2 50 Hh1 Hh2).
    pose proof (Number_digits_two m1 m2 53 Hm1 Hm2).
    lia.
  - vm_compute. reflexivity.
  - intros label h m Hl Hh Hm.
    assert (Hall : forallb (fun lab => forall_from (fun h =>
                     forall_from (zulu_accepts lab h) 60 0) 30 0) zulu_labels = true)
      by (vm_compute; reflexivity).
    rewrite forallb_forall in Hall. specialize (Hall label Hl).
    apply forall_from_spec with (z := h) in Hall; [|lia].
    apply forall_from_spec with (z := m) in Hall; [|lia].
    unfold zulu_accepts in Hall.
    destruct (parseZuluHHMM (zulu_text label h m) label) as [[h' m']|]; [|discriminate].
    apply andb_true_iff in Hall. cbn [hh mm] in Hall. destruct Hall as [E1 E2].
    apply Z.eqb_eq in E1, E2. subst. reflexivity.
Qed.

Lemma parseZuluHHMM_hour_up_to_29_witness :
  In (str "OUT") zulu_labels
  /\ parseZuluHHMM (str "xx OUT 2459 yy") (str "OUT") = Some (mkHHMM 24 59)
  /\ 0 <= 24 <= 29 /\ 0 <= 59 <= 59.
Proof.
  assert (Hin : In (str "OUT") zulu_labels) by (left; reflexivity).
  assert (Hp : parseZuluHHMM (str "xx OUT 2459 yy") (str "OUT") = Some (mkHHMM 24 59))
    by (vm_compute; reflexivity).
  split; [exact Hin|]. split; [exact Hp|].
  exact (proj1 parseZuluHHMM_hour_up_to_29 _ _ _ Hin Hp).
Defined.

(** ** Dates *)

Lemma parse_date_length s day : parse_date s = Some day -> length s = 10%nat.
Proof.
  unfold parse_date.
  do 10 (destruct s as [|? s]; [discriminate|]).
  destruct s; [reflexivity|discriminate].
Qed.

Lemma parse_time_valid h m :
  0 <= h <= 23 -> 0 <= m <= 59 ->
  parse_time (timeSuffix (mkHHMM h m)) = Some (MakeTime h m 0 0).
Proof.
  intros Hh Hm.
  assert (Hall : forall_from (fun h => forall_from (time_ok h) 60 0) 24 0 = true)
    by (vm_compute; reflexivity).
  apply forall_from_spec with (z := h) in Hall; [|lia].
  apply forall_from_spec with (z := m) in Hall; [|lia].
  unfold time_ok in Hall.
  destruct (parse_time (timeSuffix (mkHHMM h m))) as [t|]; [|discriminate].
  apply Z.eqb_eq in Hall. congruence.
Qed.

Lemma makeUtcDate_valid iso day t :
  parse_date iso = Some day ->
  0 <= hh t <= 23 -> 0 <= mm t <= 59 ->
  makeUtcDate iso t = Some (MakeDate day (MakeTime (hh t) (mm t) 0 0)).
Proof.
  intros Hd Hh Hm. pose proof (parse_date_length _ _ Hd) as Hl.
  change (makeUtcDate iso t) with (Date_parse (iso ++ timeSuffix t)).
  unfold Date_parse.
  rewrite <- Hl at 1. rewrite firstn_app, Nat.sub_diag, firstn_all, firstn_O, app_nil_r.
  rewrite <- Hl. rewrite skipn_app, Nat.sub_diag, skipn_all, skipn_O, app_nil_l.
  rewrite Hd. destruct t as [h m]. cbn [hh mm] in *.
  rewrite (parse_time_valid h m Hh Hm). reflexivity.
Qed.

Lemma minutesOfDay_valid day h m :
  0 <= h <= 23 -> 0 <= m <= 59 ->
  minutesOfDay (Some (MakeDate day (MakeTime h m 0 0))) = Some (h * 60 + m).
Proof.
  intros Hh Hm. unfold minutesOfDay, getUTCHours, getUTCMinutes, MakeDate, MakeTime, msPerDay.
  cbn [option_map]. f_equal.
  assert (E1 : (day * 86400000 + (h * 3600000 + m * 60000 + 0 * 1000 + 0)) / 3600000
               = day * 24 + h).
  { symmetry. apply Z.div_unique with (r := m * 60000); lia. }
  assert (E2 : (day * 86400000 + (h * 3600000 + m * 60000 + 0 * 1000 + 0)) / 60000
               = (day * 24 + h) * 60 + m).
  { symmetry. apply Z.div_unique with (r := 0); lia. }
  rewrite E1, E2.
  assert (E3 : (day * 24 + h) mod 24 = h).
  { symmetry. apply Z.mod_unique with (q := day); lia. }
  assert (E4 : ((day * 24 + h) * 60 + m) mod 60 = m).
  { symmetry. apply Z.mod_unique with (q := day * 24 + h); lia. }
  rewrite E3, E4. reflexivity.
Qed.

(** The calendar: a day number is recovered from its civil date. *)

Lemma doe_roundtrip_all doe : 0 <= doe < 146097 -> doe_roundtrip doe = true.
Proof.
  intros H.
  assert (Hall : forall_from doe_roundtrip (Z.to_nat 146097) 0 = true)
    by (vm_compute; reflexivity).
  apply forall_from_spec with (z := doe) in Hall; [exact Hall|lia].
Qed.

Lemma civil_from_days_inv z y m d :
  civil_from_days z = (y, m, d) ->
  1 <= m <= 12 /\ days_from_civil y m d = z.
Proof.
  unfold civil_from_days. cbv zeta.
  set (z' := z + 719468).
  set (era := z' / 146097).
  set (doe := z' - era * 146097).
  assert (Hdoe : 0 <= doe < 146097).
  { subst doe era. pose proof (Z.mod_pos_bound z' 146097 ltac:(lia)).
    rewrite Z.mod_eq in H by lia. lia. }
  pose proof (doe_roundtrip_all doe Hdoe) as R. unfold doe_roundtrip in R. cbv zeta in R.
  set (yoe := (doe - doe / 1460 + doe / 36524 - doe / 146096) / 365) in *.
  set (doy := doe - (365 * yoe + yoe / 4 - yoe / 100)) in *.
  set (mp := (5 * doy + 2) / 153) in *.
  set (d0 := doy - (153 * mp + 2) / 5 + 1) in *.
  set (m0 := if mp <? 10 then mp + 3 else mp - 9) in *.
  repeat (apply andb_true_iff in R; destruct R as [R ?]).
  repeat match goal with
         | H : (_ <=? _) = true |- _ => apply Z.leb_le in H
         | H : (_ =? _) = true |- _ => apply Z.eqb_eq in H
         end.
  intros E. injection E as <- <- <-. split; [lia|].
  unfold days_from_civil. cbv zeta.
  assert (Ey : (if m0 <=? 2
                then (if m0 <=? 2 then yoe + era * 400 + 1 else yoe + era * 400) - 1
                else (if m0 <=? 2 then yoe + era * 400 + 1 else yoe + era * 400))
               = yoe + era * 400) by (destruct (m0 <=? 2); lia).
  rewrite Ey.
  assert (Ee : (yoe + era * 400) / 400 = era)
    by (symmetry; apply Z.div_unique with (r := yoe); lia).
  rewrite Ee.
  replace (yoe + era * 400 - era * 400) with yoe by lia.
  subst doe z'. lia.
Qed.

Lemma days_from_civil_shift y m d k :
  days_from_civil y m (d + k) = days_from_civil y m d + k.
Proof. unfold days_from_civil. cbv zeta. lia. Qed.

Lemma setUTCDate_next_day t :
  setUTCDate (Some t) (option_map (fun d => d + 1) (getUTCDate (Some t)))
  = Some (t + msPerDay).
Proof.
  unfold setUTCDate, getUTCDate, option_map, MakeDay, YearFromTime, MonthFromTime,
    DateFromTime.
  destruct (civil_from_days (Day t)) as [[y m] d] eqn:E. cbn [fst snd].
  apply civil_from_days_inv in E. destruct E as [Hm E].
  assert (E1 : (m - 1) / 12 = 0) by (apply Z.div_small; lia).
  assert (E2 : (m - 1) mod 12 = m - 1) by (apply Z.mod_small; lia).
  rewrite E1, E2, Z.add_0_r.
  replace (m - 1 + 1) with m by lia.
  replace (days_from_civil y m 1 + (d + 1) - 1) with (days_from_civil y m (1 + d))
    by (rewrite days_from_civil_shift; lia).
  replace (1 + d) with (d + 1) by lia.
  rewrite days_from_civil_shift, E.
  unfold MakeDate, TimeWithinDay, Day, msPerDay. f_equal.
  pose proof (Z.div_mod t 86400000 ltac:(lia)). lia.
Qed.

(** ** Block duration *)

Lemma minutesOfDay_makeUtcDate iso day t :
  parse_date iso = Some day -> valid_clock t ->
  minutesOfDay (makeUtcDate iso t) = Some (clock_minutes t).
Proof.
  intros Hd [Hh Hm]. rewrite (makeUtcDate_valid iso day t Hd Hh Hm).
  apply minutesOfDay_valid; assumption.
Qed.

Lemma diffMinutes_valid iso day o i :
  parse_date iso = Some day -> valid_clock o -> valid_clock i ->
  diffMinutesWithMidnightWrap (makeUtcDate iso o) (makeUtcDate iso i)
  = Some ((clock_minutes i - clock_minutes o) mod 1440).
Proof.
  intros Hd Ho Hi. unfold diffMinutesWithMidnightWrap.
  rewrite (minutesOfDay_makeUtcDate iso day o Hd Ho).
  rewrite (minutesOfDay_makeUtcDate iso day i Hd Hi).
  f_equal. unfold valid_clock, clock_minutes in *.
  destruct (Z.ltb_spec (hh i * 60 + mm i - (hh o * 60 + mm o)) 0).
  - apply Z.mod_unique with (q := -1); lia.
  - apply Z.mod_unique with (q := 0); lia.
Qed.

(** C1, amended: for OUT and IN clock times with hour at most 23 and minute
    at most 59, on a date that parses, the block duration is (IN - OUT)
    modulo 1440, between 0 and 1439; for OUT=2350 and IN=0010 it is 20. *)
Theorem diffMinutes_is_difference_mod_1440 :
  (forall iso day o i,
      parse_date iso = Some day -> valid_clock o -> valid_clock i ->
      diffMinutesWithMidnightWrap (makeUtcDate iso o) (makeUtcDate iso i)
      = Some ((clock_minutes i - clock_minutes o) mod 1440)
      /\ 0 <= (clock_minutes i - clock_minutes o) mod 1440 < 1440)
  /\ (forall iso day,
        parse_date iso = Some day ->
        diffMinutesWithMidnightWrap (makeUtcDate iso (mkHHMM 23 50))
          (makeUtcDate iso (mkHHMM 0 10)) = Some 20).
Proof.
  split.
  - intros iso day o i Hd Ho Hi. split.
    + exact (diffMinutes_valid iso day o i Hd Ho Hi).
    + apply Z.mod_pos_bound. lia.
  - intros iso day Hd.
    rewrite (diffMinutes_valid iso day (mkHHMM 23 50) (mkHHMM 0 10) Hd);
      [reflexivity | cbv; intuition discriminate | cbv; intuition discriminate].
Qed.

Lemma diffMinutes_is_difference_mod_1440_witness :
  let p := parseOFP text_wrap in
  isoDate p = Some (str "2024-01-01")
  /\ out (times p) = Some (mkHHMM 23 50)
  /\ inT (times p) = Some (mkHHMM 0 10)
  /\ diffMinutesWithMidnightWrap (makeUtcDate (str "2024-01-01") (mkHHMM 23 50))
       (makeUtcDate (str "2024-01-01") (mkHHMM 0 10)) = Some 20.
Proof.
  cbv zeta. split; [vm_compute; reflexivity|].
  split; [vm_compute; reflexivity|]. split; [vm_compute; reflexivity|].
  apply (proj2 diffMinutes_is_difference_mod_1440 (str "2024-01-01") 19723).
  vm_compute. reflexivity.
Defined.

(** C1 as stated fails: the extractor accepts OUT 2930Z, the Date built from
    hour 29 is invalid, and the duration is NaN rather than
    (IN - OUT) modulo 1440. *)
Lemma diffMinutes_nan_for_hour_29 :
  let p := parseOFP text_hour29 in
  isoDate p = Some (str "2024-01-01")
  /\ out (times p) = Some (mkHHMM 29 30)
  /\ inT (times p) = Some (mkHHMM 0 10)
  /\ diffMinutesWithMidnightWrap (makeUtcDate (str "2024-01-01") (mkHHMM 29 30))
       (makeUtcDate (str "2024-01-01") (mkHHMM 0 10)) = None
  /\ diffMinutesWithMidnightWrap (makeUtcDate (str "2024-01-01") (mkHHMM 29 30))
       (makeUtcDate (str "2024-01-01") (mkHHMM 0 10))
     <> Some ((clock_minutes (mkHHMM 0 10) - clock_minutes (mkHHMM 29 30)) mod 1440).
Proof.
  cbv zeta. repeat split; try (vm_compute; reflexivity).
  vm_compute. discriminate.
Qed.

(** ** Solar altitude *)

Create HintDb numbers.

Lemma Num_number (r : R) : is_number r.
Proof. exists r. reflexivity. Qed.

Lemma numZ_number z : is_number (numZ (Some z)).
Proof. eexists. reflexivity. Qed.

Lemma num_op1_number f x : is_number x -> is_number (num_op1 f x).
Proof. intros [a ->]. eexists. reflexivity. Qed.

Lemma num_op2_number f x y : is_number x -> is_number y -> is_number (num_op2 f x y).
Proof. intros [a ->] [b ->]. eexists. reflexivity. Qed.

Lemma if_number (c : bool) (x y : num) :
  is_number x -> is_number y -> is_number (if c then x else y).
Proof. destruct c; auto. Qed.

Lemma Math_sin_number x : is_number x -> is_number (Math_sin x).
Proof. apply num_op1_number. Qed.

Lemma Math_cos_number x : is_number x -> is_number (Math_cos x).
Proof. apply num_op1_number. Qed.

Lemma Math_tan_number x : is_number x -> is_number (Math_tan x).
Proof. apply num_op1_number. Qed.

Lemma Math_atan2_number y x : is_number y -> is_number x -> is_number (Math_atan2 y x).
Proof. apply num_op2_number. Qed.

Lemma js_rem_number a b : is_number a -> is_number b -> is_number (js_rem a b).
Proof. apply num_op2_number. Qed.

Lemma deg2rad_number d : is_number d -> is_number (deg2rad d).
Proof. intros [a ->]. eexists. reflexivity. Qed.

Lemma rad2deg_number r : is_number r -> is_number (rad2deg r).
Proof. intros [a ->]. eexists. reflexivity. Qed.

Lemma finite_degrees_number x : finite_degrees x -> is_number x.
Proof. intros (r & -> & _). eexists. reflexivity. Qed.

Lemma Math_asin_sin_sin x y :
  is_number x -> is_number y -> is_number (Math_asin (Math_sin x * Math_sin y)%num).
Proof.
  intros [a ->] [b ->]. cbn [Math_sin num_op1 num_op2 Math_asin].
  pose proof (SIN_bound a) as [A1 A2]. pose proof (SIN_bound b) as [B1 B2].
  destruct (Rle_dec (-1) (sin a * sin b)) as [_|N]; [|exfalso; apply N; nra].
  destruct (Rle_dec (sin a * sin b) 1) as [_|N]; [|exfalso; apply N; nra].
  eexists. reflexivity.
Qed.

Lemma Math_sqrt_sum_squares x y :
  is_number x -> is_number y -> is_number (Math_sqrt (x * x + y * y)%num).
Proof.
  intros [a ->] [b ->]. cbn [num_op2 Math_sqrt].
  destruct (Rle_dec 0 (a * a + b * b)) as [_|N]; [|exfalso; apply N; nra].
  eexists. reflexivity.
Qed.

#[local] Hint Resolve Num_number numZ_number num_op1_number num_op2_number if_number
  Math_sin_number Math_cos_number Math_tan_number Math_atan2_number js_rem_number
  deg2rad_number rad2deg_number Math_asin_sin_sin Math_sqrt_sum_squares : numbers.

Lemma clamp_number (x a b : R) :
  (a <= b)%R ->
  exists c, clamp x a b = Some c /\ (a <= c <= b)%R
            /\ ((a <= x <= b)%R -> c = x) /\ ((x <= a)%R -> c = a) /\ ((b <= x)%R -> c = b).
Proof.
  intros Hab. exists (Rmax a (Rmin b x)). split; [reflexivity|].
  split; [|split; [|split]].
  - split; [apply Rbasic_fun.Rmax_l|].
    apply Rmax_lub; [exact Hab | apply Rbasic_fun.Rmin_l].
  - intros [H1 H2]. rewrite Rmin_right by exact H2. apply Rmax_right. exact H1.
  - intros H. rewrite Rmin_right by lra. apply Rmax_left. exact H.
  - intros H. rewrite Rmin_left by exact H. apply Rmax_right. exact Hab.
Qed.

Lemma clamp_nan (a b : num) : clamp None a b = None.
Proof. destruct a as [a|], b as [b|]; reflexivity. Qed.

Lemma Math_acos_clamp x :
  is_number x ->
  exists a, Math_acos (clamp x (-1)%R 1%R) = Some a /\ (0 <= a <= PI)%R.
Proof.
  intros [r ->].
  destruct (clamp_number r (-1) 1 ltac:(lra)) as (c & E & [H1 H2] & _).
  change (Some r) with (Num r). rewrite E. cbn [Math_acos].
  destruct (Rle_dec (-1) c) as [_|N]; [|contradiction].
  destruct (Rle_dec c 1) as [_|N]; [|contradiction].
  eexists. split; [reflexivity | apply acos_bound].
Qed.

Lemma rad2deg_bounds a :
  (0 <= a <= PI)%R -> exists d, rad2deg (Some a) = Some d /\ (0 <= d <= 180)%R.
Proof.
  intros [H0 H1]. eexists. split; [reflexivity|]. unfold Rdiv.
  pose proof PI_RGT_0 as Hpi.
  assert (Hi : (0 < / PI)%R) by (apply Rinv_0_lt_compat; lra).
  split.
  - apply Rmult_le_pos; [lra | lra].
  - replace 180%R with (PI * 180 * / PI)%R at 2 by (field; lra).
    apply Rmult_le_compat_r; [lra | lra].
Qed.

Lemma solarAltitudeDeg_number ms la lo :
  is_number la -> is_number lo ->
  exists altitude,
    solarAltitudeDeg (Some ms) la lo = Some altitude /\ (-90 <= altitude <= 90)%R.
Proof.
  intros Hla Hlo. unfold solarAltitudeDeg.
  unfold getTime, getUTCHours, getUTCMinutes, getUTCSeconds; cbn [option_map].
  cbv zeta.
  match goal with
  | |- context [Math_acos (clamp ?c _ _)] =>
      assert (Hc : is_number c) by auto 100 with numbers;
      destruct (Math_acos_clamp c Hc) as (z & E & Hz)
  end.
  rewrite E. destruct (rad2deg_bounds z Hz) as (d & Ed & Hd). rewrite Ed.
  eexists. split; [reflexivity|]. lra.
Qed.

Lemma solarAltitudeDeg_nan d la lo :
  d = None \/ la = None \/ lo = None -> solarAltitudeDeg d la lo = None.
Proof.
  intros [->|[->| ->]].
  - destruct la, lo; reflexivity.
  - reflexivity.
  - destruct d as [ms|], la as [la|]; try reflexivity.
    unfold solarAltitudeDeg.
    unfold getTime, getUTCHours, getUTCMinutes, getUTCSeconds; cbn [option_map]. cbv zeta.
    match goal with
    | |- context [Math_asin ?t] =>
        assert (H : is_number (Math_asin t)) by auto 100 with numbers;
        destruct H as [v ->]
    end.
    reflexivity.
Qed.

Lemma solarAltitudeDeg_range d la lo alt :
  solarAltitudeDeg d la lo = Some alt -> (-90 <= alt <= 90)%R.
Proof.
  intros E.
  destruct d as [ms|]; [|rewrite solarAltitudeDeg_nan in E by auto; discriminate].
  destruct la as [la|]; [|rewrite solarAltitudeDeg_nan in E by auto; discriminate].
  destruct lo as [lo|]; [|rewrite solarAltitudeDeg_nan in E by auto; discriminate].
  destruct (solarAltitudeDeg_number ms (Some la) (Some lo)) as (a & Ea & Ha);
    [eexists; reflexivity | eexists; reflexivity |].
  rewrite Ea in E. injection E as <-. exact Ha.
Qed.

Lemma degrees_finite (r : R) : (Rabs r <= 180)%R -> finite_degrees r.
Proof.
  intros H. exists r. split; [reflexivity|].
  apply Rle_trans with (1 := H). apply Rle_trans with (10 ^ 3)%R; [simpl; lra|].
  apply Rle_pow; [lra | lia].
Qed.

(** C9, amended: for every valid UTC instant and every latitude and
    longitude that are numbers of magnitude at most 1e300, the
    solar-altitude function returns an altitude between -90 and 90 degrees:
    whatever the cosine of the zenith angle, the clamp brings it into
    [-1, 1], where arccos is defined.  On an Invalid Date, a NaN latitude or
    a NaN longitude the result is NaN. *)
Theorem solarAltitudeDeg_total_and_bounded (ms : Z) (latDeg lonDeg : R) :
  time_value ms ->
  (Rabs latDeg <= 10 ^ 300)%R -> (Rabs lonDeg <= 10 ^ 300)%R ->
  (exists altitude,
     solarAltitudeDeg (Some ms) latDeg lonDeg = Some altitude
     /\ (-90 <= altitude <= 90)%R)
  /\ (forall cosZenith : R,
        exists c a,
          clamp cosZenith (-1)%R 1%R = Some c /\ (-1 <= c <= 1)%R
          /\ Math_acos (clamp cosZenith (-1)%R 1%R) = Some a /\ (0 <= a <= PI)%R)
  /\ (forall d la lo,
        d = None \/ la = None \/ lo = None -> solarAltitudeDeg d la lo = None).
Proof.
  intros _ _ _. split; [|split].
  - apply solarAltitudeDeg_number; apply Num_number.
  - intros cz.
    destruct (clamp_number cz (-1) 1 ltac:(lra)) as (c & E & Hc & _).
    destruct (Math_acos_clamp cz (Num_number cz)) as (a & Ea & Ha).
    exists c, a. repeat split; try assumption; apply Hc || apply Ha.
  - exact solarAltitudeDeg_nan.
Qed.

Lemma solarAltitudeDeg_total_and_bounded_witness :
  time_value 1704123000000
  /\ (Rabs 45.3225 <= 10 ^ 300)%R /\ (Rabs (-75.6692) <= 10 ^ 300)%R
  /\ exists altitude,
       solarAltitudeDeg (Some 1704123000000) (lat CYOW) (lon CYOW) = Some altitude
       /\ (-90 <= altitude <= 90)%R.
Proof.
  assert (Ht : time_value 1704123000000) by (unfold time_value; lia).
  assert (Hla : (Rabs 45.3225 <= 10 ^ 300)%R).
  { destruct (degrees_finite 45.3225) as (r & E & H).
    - unfold Rabs. destruct (Rcase_abs 45.3225); lra.
    - injection E as <-. exact H. }
  assert (Hlo : (Rabs (-75.6692) <= 10 ^ 300)%R).
  { destruct (degrees_finite (-75.6692)) as (r & E & H).
    - unfold Rabs. destruct (Rcase_abs (-75.6692)); lra.
    - injection E as <-. exact H. }
  split; [exact Ht|]. split; [exact Hla|]. split; [exact Hlo|].
  exact (proj1 (solarAltitudeDeg_total_and_bounded 1704123000000 45.3225 (-75.6692)
                  Ht Hla Hlo)).
Defined.

(** ** Night minutes *)

Lemma truthy_str_nonempty s : s <> [] -> truthy_str (Some s) = true.
Proof. destruct s; [contradiction | reflexivity]. Qed.

Lemma night_unfold AIRPORTS parsed iso a b o i tw :
  hasNightInputs AIRPORTS parsed iso a b o i ->
  computeNightHours_BlockInterval AIRPORTS parsed tw
  = match diffMinutesWithMidnightWrap (makeUtcDate iso o) (makeUtcDate iso i) with
    | Some d =>
        if d <=? 0
        then mkNightResult (Some 0%Q) (str "Non-positive block minutes")
        else mkNightResult
               (Some (nightHours_of
                        (nightLoop a b (makeUtcDate iso o) d tw (Z.to_nat d) 0 0)))
               (str "ok")
    | None => mkNightResult (Some (nightHours_of 0)) (str "ok")
    end.
Proof.
  intros (Hiso & Hne & (oc & Ho & Hone & Ha) & (dc & Hd & Hdne & Hb) & Hout & Hin).
  unfold computeNightHours_BlockInterval.
  rewrite Hiso, Ho, Hd, Hout, Hin.
  rewrite !truthy_str_nonempty by assumption. cbn [negb orb].
  rewrite Ha, Hb. reflexivity.
Qed.

Lemma js_lt_mono alt (t1 t2 : R) :
  (t1 <= t2)%R -> js_lt alt t1 = true -> js_lt alt t2 = true.
Proof.
  intros Ht. destruct alt as [x|]; cbn; [|discriminate].
  destruct (Rlt_dec x t1) as [L|]; [|discriminate]. intros _.
  destruct (Rlt_dec x t2) as [|N]; [reflexivity|]. exfalso. apply N. lra.
Qed.

Lemma nightLoop_bounds a b tOut d tw : forall n i nm,
  nm <= nightLoop a b tOut d tw n i nm <= nm + Z.of_nat n.
Proof.
  induction n as [|n IH]; intros i nm; cbn [nightLoop]; [lia|].
  cbv zeta.
  match goal with |- context [if ?c then _ else _] => destruct c end;
    match goal with |- context [nightLoop a b tOut d tw n ?j ?m] =>
      specialize (IH j m) end; lia.
Qed.

Lemma nightLoop_mono a b tOut d (t1 t2 : R) :
  (t1 <= t2)%R ->
  forall n i nm1 nm2,
    nm1 <= nm2 ->
    nightLoop a b tOut d t1 n i nm1 <= nightLoop a b tOut d t2 n i nm2.
Proof.
  intros Ht. induction n as [|n IH]; intros i nm1 nm2 Hnm; cbn [nightLoop]; [exact Hnm|].
  cbv zeta. apply IH.
  match goal with |- context [js_lt ?alt t1] =>
    pose proof (js_lt_mono alt t1 t2 Ht) as M;
    destruct (js_lt alt t1); [rewrite (M eq_refl)|destruct (js_lt alt t2)]
  end; lia.
Qed.

Lemma Math_round_tenths n :
  Qfloor (inject_Z n / 60 * 10 + (1 # 2)) = (n + 3) / 6.
Proof.
  unfold Qfloor, Qplus, Qmult, Qdiv, Qinv, inject_Z. cbn.
  replace (n * 1 * 10 * 2 + 60) with (20 * (n + 3)) by lia.
  change 120 with (20 * 6). apply Z.div_mul_cancel_l; lia.
Qed.

Lemma nightHours_of_tenths n : nightHours_of n = (inject_Z ((n + 3) / 6) / 10)%Q.
Proof. unfold nightHours_of, Math_round. rewrite Math_round_tenths. reflexivity. Qed.

Lemma nightHours_of_mono n1 n2 : n1 <= n2 -> (nightHours_of n1 <= nightHours_of n2)%Q.
Proof.
  intros H. rewrite !nightHours_of_tenths.
  assert (Hk : (n1 + 3) / 6 <= (n2 + 3) / 6) by (apply Z.div_le_mono; lia).
  unfold Qle, Qdiv, Qmult, Qinv, inject_Z. cbn. lia.
Qed.

Lemma exampleAirports_CYYZ : exampleAirports (str "CYYZ") = Some CYYZ.
Proof.
  unfold exampleAirports.
  assert (E : jsstring_eqb (str "CYYZ") (str "CYYZ") = true) by (vm_compute; reflexivity).
  rewrite E. reflexivity.
Qed.

Lemma exampleAirports_CYOW : exampleAirports (str "CYOW") = Some CYOW.
Proof.
  unfold exampleAirports.
  assert (E1 : jsstring_eqb (str "CYOW") (str "CYYZ") = false) by (vm_compute; reflexivity).
  assert (E2 : jsstring_eqb (str "CYOW") (str "CYOW") = true) by (vm_compute; reflexivity).
  rewrite E1, E2. reflexivity.
Qed.

Lemma hasNightInputs_example text o i :
  isoDate (parseOFP text) = Some (str "2024-01-01") ->
  orig (parseOFP text) = Some (str "CYYZ") ->
  dest (parseOFP text) = Some (str "CYOW") ->
  out (times (parseOFP text)) = Some o ->
  inT (times (parseOFP text)) = Some i ->
  hasNightInputs exampleAirports (parseOFP text) (str "2024-01-01") CYYZ CYOW o i.
Proof.
  intros H1 H2 H3 H4 H5. unfold hasNightInputs.
  split; [exact H1|]. split; [discriminate|].
  split; [exists (str "CYYZ"); split; [exact H2|]; split;
            [discriminate | exact exampleAirports_CYYZ]|].
  split; [exists (str "CYOW"); split; [exact H3|]; split;
            [discriminate | exact exampleAirports_CYOW]|].
  split; assumption.
Qed.

(** C7: with the flight, the coordinates and the times fixed, the count of
    sampled minutes whose solar altitude is below the threshold does not
    decrease when the threshold rises, and neither do the night hours
    reported from it. *)
Theorem night_minutes_monotone_in_threshold
    (AIRPORTS : jsstring -> option Coord) (parsed : FlightFact) (t1 t2 : R) :
  (t1 <= t2)%R ->
  (forall a b tOut totalMin,
      nightLoop a b tOut totalMin t1 (Z.to_nat totalMin) 0 0
      <= nightLoop a b tOut totalMin t2 (Z.to_nat totalMin) 0 0)
  /\ opt_Qle (nightHours (computeNightHours_BlockInterval AIRPORTS parsed t1))
       (nightHours (computeNightHours_BlockInterval AIRPORTS parsed t2)).
Proof.
  intros Ht. split.
  - intros a b tOut d. apply nightLoop_mono; [exact Ht | lia].
  - unfold computeNightHours_BlockInterval.
    destruct (isoDate parsed) as [iso|]; [|exact I].
    destruct (orig parsed) as [oc|]; [|exact I].
    destruct (dest parsed) as [dc|]; [|exact I].
    destruct (out (times parsed)) as [o|]; [|exact I].
    destruct (inT (times parsed)) as [i|]; [|exact I].
    destruct (negb (truthy_str (Some iso)) || negb (truthy_str (Some oc))
              || negb (truthy_str (Some dc))); [exact I|].
    destruct (AIRPORTS oc) as [a|]; [|exact I].
    destruct (AIRPORTS dc) as [b|]; [|exact I].
    destruct (diffMinutesWithMidnightWrap (makeUtcDate iso o) (makeUtcDate iso i)) as [d|].
    + destruct (d <=? 0); cbn [nightHours opt_Qle]; [apply Qle_refl|].
      apply nightHours_of_mono, nightLoop_mono; [exact Ht | lia].
    + cbn [nightHours opt_Qle]. apply Qle_refl.
Qed.

Lemma night_minutes_monotone_in_threshold_witness :
  (-6 <= 0)%R
  /\ opt_Qle
       (nightHours (computeNightHours_BlockInterval exampleAirports (parseOFP scenarioA) (-6)))
       (nightHours (computeNightHours_BlockInterval exampleAirports (parseOFP scenarioA) 0)).
Proof.
  assert (H : (-6 <= 0)%R) by lra.
  split; [exact H|].
  exact (proj2 (night_minutes_monotone_in_threshold exampleAirports
                  (parseOFP scenarioA) (-6) 0 H)).
Defined.

(** C8: for every night computation that runs with a block duration d > 0,
    the tallied night minutes are an integer n with 0 <= n <= d, the result
    is reported with reason "ok", and the night hours are n/60 rounded to
    one decimal place with a half rounded up: a number of tenths k/10 with
    k/10 - 1/20 <= n/60 < k/10 + 1/20. *)
Theorem night_minutes_bounded_and_rounded
    (AIRPORTS : jsstring -> option Coord) (parsed : FlightFact) (tw : R)
    (iso : jsstring) (a b : Coord) (o i : HHMM) (d : Z) :
  hasNightInputs AIRPORTS parsed iso a b o i ->
  diffMinutesWithMidnightWrap (makeUtcDate iso o) (makeUtcDate iso i) = Some d ->
  0 < d ->
  let n := nightLoop a b (makeUtcDate iso o) d tw (Z.to_nat d) 0 0 in
  0 <= n <= d
  /\ computeNightHours_BlockInterval AIRPORTS parsed tw
     = mkNightResult (Some (nightHours_of n)) (str "ok")
  /\ exists k : Z,
       nightHours_of n = (inject_Z k / 10)%Q
       /\ (inject_Z k / 10 - (1 # 20) <= inject_Z n / 60)%Q
       /\ (inject_Z n / 60 < inject_Z k / 10 + (1 # 20))%Q.
Proof.
  intros Hin Hd Hpos n. split; [|split].
  - subst n. pose proof (nightLoop_bounds a b (makeUtcDate iso o) d tw (Z.to_nat d) 0 0). lia.
  - rewrite (night_unfold AIRPORTS parsed iso a b o i tw Hin), Hd.
    destruct (Z.leb_spec d 0); [lia | reflexivity].
  - exists ((n + 3) / 6). split; [apply nightHours_of_tenths|].
    pose proof (Z.div_mod (n + 3) 6 ltac:(lia)) as E.
    pose proof (Z.mod_pos_bound (n + 3) 6 ltac:(lia)) as B.
    set (k := (n + 3) / 6) in *.
    unfold Qle, Qlt, Qminus, Qplus, Qopp, Qdiv, Qmult, Qinv, inject_Z. cbn. lia.
Qed.

Lemma night_minutes_bounded_and_rounded_witness :
  hasNightInputs exampleAirports (parseOFP scenarioA) (str "2024-01-01") CYYZ CYOW
    (mkHHMM 14 0) (mkHHMM 15 30)
  /\ 0 < 90
  /\ let n := nightLoop CYYZ CYOW (makeUtcDate (str "2024-01-01") (mkHHMM 14 0)) 90 (-6)
                (Z.to_nat 90) 0 0 in
     0 <= n <= 90
     /\ computeNightHours_BlockInterval exampleAirports (parseOFP scenarioA) (-6)
        = mkNightResult (Some (nightHours_of n)) (str "ok").
Proof.
  assert (Hin : hasNightInputs exampleAirports (parseOFP scenarioA) (str "2024-01-01")
                  CYYZ CYOW (mkHHMM 14 0) (mkHHMM 15 30))
    by (apply hasNightInputs_example; vm_compute; reflexivity).
  assert (Hd : diffMinutesWithMidnightWrap (makeUtcDate (str "2024-01-01") (mkHHMM 14 0))
                 (makeUtcDate (str "2024-01-01") (mkHHMM 15 30)) = Some 90)
    by (vm_compute; reflexivity).
  assert (Hpos : 0 < 90) by lia.
  split; [exact Hin|]. split; [exact Hpos|].
  pose proof (night_minutes_bounded_and_rounded exampleAirports (parseOFP scenarioA) (-6)
                (str "2024-01-01") CYYZ CYOW (mkHHMM 14 0) (mkHHMM 15 30) 90 Hin Hd Hpos)
    as (Hn & Hres & _).
  split; [exact Hn | exact Hres].
Defined.

Lemma night_zero_duration AIRPORTS parsed iso day a b o i tw :
  hasNightInputs AIRPORTS parsed iso a b o i ->
  parse_date iso = Some day -> valid_clock o -> valid_clock i ->
  clock_minutes o = clock_minutes i ->
  computeNightHours_BlockInterval AIRPORTS parsed tw
  = mkNightResult (Some 0%Q) (str "Non-positive block minutes").
Proof.
  intros Hin Hd Ho Hi E.
  rewrite (night_unfold AIRPORTS parsed iso a b o i tw Hin).
  rewrite (diffMinutes_valid iso day o i Hd Ho Hi).
  rewrite E, Z.sub_diag. reflexivity.
Qed.

(** C4, amended: when date, origin, destination, OUT and IN are present, the
    coordinates exist, and the OUT clock equals the IN clock (duration 0),
    the night computation returns night hours 0, not null, with the reason
    "Non-positive block minutes"; only the reason tells it from a computed
    zero, whose reason is "ok". *)
Theorem night_zero_duration_returns_zero
    (AIRPORTS : jsstring -> option Coord) (parsed : FlightFact) (tw : R)
    (iso : jsstring) (day : Z) (a b : Coord) (o i : HHMM) :
  hasNightInputs AIRPORTS parsed iso a b o i ->
  parse_date iso = Some day -> valid_clock o -> valid_clock i ->
  clock_minutes o = clock_minutes i ->
  diffMinutesWithMidnightWrap (makeUtcDate iso o) (makeUtcDate iso i) = Some 0
  /\ computeNightHours_BlockInterval AIRPORTS parsed tw
     = mkNightResult (Some 0%Q) (str "Non-positive block minutes")
  /\ nightReason (computeNightHours_BlockInterval AIRPORTS parsed tw) <> str "ok".
Proof.
  intros Hin Hd Ho Hi E.
  pose proof (night_zero_duration AIRPORTS parsed iso day a b o i tw Hin Hd Ho Hi E) as R.
  split; [|split].
  - rewrite (diffMinutes_valid iso day o i Hd Ho Hi), E, Z.sub_diag. reflexivity.
  - exact R.
  - rewrite R. cbn [nightReason]. intros C. vm_compute in C. discriminate.
Qed.

Lemma text_same_clock_inputs :
  hasNightInputs exampleAirports (parseOFP text_same_clock) (str "2024-01-01")
    CYYZ CYOW (mkHHMM 14 0) (mkHHMM 14 0).
Proof. apply hasNightInputs_example; vm_compute; reflexivity. Qed.

Lemma night_zero_duration_returns_zero_witness :
  hasNightInputs exampleAirports (parseOFP text_same_clock) (str "2024-01-01")
    CYYZ CYOW (mkHHMM 14 0) (mkHHMM 14 0)
  /\ parse_date (str "2024-01-01") = Some 19723
  /\ valid_clock (mkHHMM 14 0)
  /\ computeNightHours_BlockInterval exampleAirports (parseOFP text_same_clock) (-6)
     = mkNightResult (Some 0%Q) (str "Non-positive block minutes").
Proof.
  assert (Hd : parse_date (str "2024-01-01") = Some 19723) by (vm_compute; reflexivity).
  assert (Hv : valid_clock (mkHHMM 14 0)) by (unfold valid_clock; cbn; lia).
  split; [exact text_same_clock_inputs|]. split; [exact Hd|]. split; [exact Hv|].
  exact (proj1 (proj2 (night_zero_duration_returns_zero exampleAirports
                         (parseOFP text_same_clock) (-6) (str "2024-01-01") 19723
                         CYYZ CYOW (mkHHMM 14 0) (mkHHMM 14 0)
                         text_same_clock_inputs Hd Hv Hv eq_refl))).
Defined.

(** C4 as stated fails: with OUT 1400Z and IN 1400Z and both airports known,
    the duration is 0 and the night hours returned are 0, not null. *)
Lemma night_zero_duration_is_not_null :
  let p := parseOFP text_same_clock in
  out (times p) = Some (mkHHMM 14 0)
  /\ inT (times p) = Some (mkHHMM 14 0)
  /\ diffMinutesWithMidnightWrap (makeUtcDate (str "2024-01-01") (mkHHMM 14 0))
       (makeUtcDate (str "2024-01-01") (mkHHMM 14 0)) = Some 0
  /\ nightHours (computeNightHours_BlockInterval exampleAirports p (-6)) = Some 0%Q
  /\ nightHours (computeNightHours_BlockInterval exampleAirports p (-6)) <> None.
Proof.
  cbv zeta.
  assert (R : computeNightHours_BlockInterval exampleAirports (parseOFP text_same_clock) (-6)
              = mkNightResult (Some 0%Q) (str "Non-positive block minutes")).
  { apply (night_zero_duration exampleAirports _ (str "2024-01-01") 19723
             CYYZ CYOW (mkHHMM 14 0) (mkHHMM 14 0)).
    - exact text_same_clock_inputs.
    - vm_compute. reflexivity.
    - unfold valid_clock. cbn. lia.
    - unfold valid_clock. cbn. lia.
    - reflexivity. }
  split; [vm_compute; reflexivity|]. split; [vm_compute; reflexivity|].
  split; [vm_compute; reflexivity|]. rewrite R. cbn [nightHours].
  split; [reflexivity | discriminate].
Qed.

(** ** Landing day/night *)

Lemma landing_unfold AIRPORTS parsed iso c l tw :
  hasLandingInputs AIRPORTS parsed iso c l ->
  computeLandingDayNight AIRPORTS parsed tw
  = mkLandingResult
      (Some (js_lt (solarAltitudeDeg (landingInstant iso l (out (times parsed)))
                      (lat c) (lon c)) tw))
      (str "ok")
      (solarAltitudeDeg (landingInstant iso l (out (times parsed))) (lat c) (lon c)).
Proof.
  intros (Hiso & Hne & (dc & Hd & Hdne & Hc) & Hl).
  unfold computeLandingDayNight. rewrite Hiso, Hd.
  rewrite !truthy_str_nonempty by assumption. cbn [negb orb]. rewrite Hc.
  destruct Hl as [Hon|[Hon Hin]]; rewrite Hon; [reflexivity|].
  rewrite Hin. reflexivity.
Qed.

Lemma landingInstant_next_day iso day l o :
  parse_date iso = Some day -> valid_clock l -> valid_clock o ->
  clock_minutes l < clock_minutes o ->
  landingInstant iso l (Some o)
  = Some (MakeDate (day + 1) (MakeTime (hh l) (mm l) 0 0)).
Proof.
  intros Hd Hl Ho Hlt. unfold landingInstant.
  rewrite (minutesOfDay_makeUtcDate iso day l Hd Hl).
  rewrite (minutesOfDay_makeUtcDate iso day o Hd Ho).
  destruct (Z.ltb_spec (clock_minutes l) (clock_minutes o)); [|lia].
  destruct Hl as [Hh Hm]. rewrite (makeUtcDate_valid iso day l Hd Hh Hm).
  rewrite setUTCDate_next_day. unfold MakeDate. f_equal. lia.
Qed.

(** C5, amended: for a flight with a date that parses, destination
    coordinates, a landing clock time (ON, or IN when ON is absent) and an
    OUT time, both clock times with hour at most 23 and minute at most 59:
    if the landing clock value is earlier than the OUT clock value, the
    instant classified is the landing clock time on the day after the
    nominal date; so OUT=2350 with landing clock 0010 is classified at the
    next day's 00:10. *)
Theorem landing_instant_on_next_day
    (AIRPORTS : jsstring -> option Coord) (parsed : FlightFact) (tw : R)
    (iso : jsstring) (day : Z) (c : Coord) (l o : HHMM) :
  hasLandingInputs AIRPORTS parsed iso c l ->
  out (times parsed) = Some o ->
  parse_date iso = Some day -> valid_clock l -> valid_clock o ->
  clock_minutes l < clock_minutes o ->
  let nominal := MakeDate day (MakeTime (hh l) (mm l) 0 0) in
  let tLand := MakeDate (day + 1) (MakeTime (hh l) (mm l) 0 0) in
  makeUtcDate iso l = Some nominal
  /\ landingInstant iso l (Some o) = Some tLand
  /\ Day tLand = Day nominal + 1
  /\ TimeWithinDay tLand = TimeWithinDay nominal
  /\ computeLandingDayNight AIRPORTS parsed tw
     = mkLandingResult
         (Some (js_lt (solarAltitudeDeg (Some tLand) (lat c) (lon c)) tw))
         (str "ok")
         (solarAltitudeDeg (Some tLand) (lat c) (lon c)).
Proof.
  intros Hin Hout Hd Hl Ho Hlt nominal tLand.
  pose proof (landingInstant_next_day iso day l o Hd Hl Ho Hlt) as Hi.
  split; [destruct Hl as [Hh Hm]; exact (makeUtcDate_valid iso day l Hd Hh Hm)|].
  split; [exact Hi|].
  assert (Ht : tLand = nominal + 1 * msPerDay) by (subst tLand nominal; unfold MakeDate; lia).
  split; [|split].
  - unfold Day. rewrite Ht. apply Z.div_add. unfold msPerDay. lia.
  - unfold TimeWithinDay. rewrite Ht. apply Z.mod_add. unfold msPerDay. lia.
  - rewrite (landing_unfold AIRPORTS parsed iso c l tw Hin), Hout, Hi. reflexivity.
Qed.

Lemma text_wrap_landing_inputs :
  hasLandingInputs exampleAirports (parseOFP text_wrap) (str "2024-01-01") CYOW (mkHHMM 0 10).
Proof.
  unfold hasLandingInputs.
  split; [vm_compute; reflexivity|]. split; [discriminate|].
  split; [exists (str "CYOW"); split; [vm_compute; reflexivity|]; split;
            [discriminate | exact exampleAirports_CYOW]|].
  right. split; vm_compute; reflexivity.
Qed.

Lemma landing_instant_on_next_day_witness :
  hasLandingInputs exampleAirports (parseOFP text_wrap) (str "2024-01-01") CYOW (mkHHMM 0 10)
  /\ out (times (parseOFP text_wrap)) = Some (mkHHMM 23 50)
  /\ clock_minutes (mkHHMM 0 10) < clock_minutes (mkHHMM 23 50)
  /\ makeUtcDate (str "2024-01-01") (mkHHMM 0 10) = Some 1704067800000
  /\ landingInstant (str "2024-01-01") (mkHHMM 0 10) (Some (mkHHMM 23 50))
     = Some (1704067800000 + 86400000).
Proof.
  assert (Hout : out (times (parseOFP text_wrap)) = Some (mkHHMM 23 50))
    by (vm_compute; reflexivity).
  assert (Hd : parse_date (str "2024-01-01") = Some 19723) by (vm_compute; reflexivity).
  assert (Hl : valid_clock (mkHHMM 0 10)) by (unfold valid_clock; cbn; lia).
  assert (Ho : valid_clock (mkHHMM 23 50)) by (unfold valid_clock; cbn; lia).
  assert (Hlt : clock_minutes (mkHHMM 0 10) < clock_minutes (mkHHMM 23 50))
    by (vm_compute; reflexivity).
  pose proof (landing_instant_on_next_day exampleAirports (parseOFP text_wrap) (-6)
                (str "2024-01-01") 19723 CYOW (mkHHMM 0 10) (mkHHMM 23 50)
                text_wrap_landing_inputs Hout Hd Hl Ho Hlt) as (Hn & Hi & _).
  split; [exact text_wrap_landing_inputs|]. split; [exact Hout|]. split; [exact Hlt|].
  split; [exact Hn | exact Hi].
Defined.

Lemma text_hour29_landing_inputs :
  hasLandingInputs exampleAirports (parseOFP text_hour29) (str "2024-01-01") CYOW (mkHHMM 0 10).
Proof.
  unfold hasLandingInputs.
  split; [vm_compute; reflexivity|]. split; [discriminate|].
  split; [exists (str "CYOW"); split; [vm_compute; reflexivity|]; split;
            [discriminate | exact exampleAirports_CYOW]|].
  right. split; vm_compute; reflexivity.
Qed.

(** C5 as stated fails: with OUT 2930Z (accepted by the extractor) and
    landing clock 0010, the landing clock value is earlier than the OUT
    clock value, yet the OUT Date is invalid, the comparison with NaN is
    false, and the instant classified stays on the nominal date. *)
Lemma landing_not_advanced_for_hour_29 :
  let p := parseOFP text_hour29 in
  out (times p) = Some (mkHHMM 29 30)
  /\ clock_minutes (mkHHMM 0 10) < clock_minutes (mkHHMM 29 30)
  /\ makeUtcDate (str "2024-01-01") (mkHHMM 0 10) = Some 1704067800000
  /\ landingInstant (str "2024-01-01") (mkHHMM 0 10) (out (times p)) = Some 1704067800000
  /\ sunAltDeg (computeLandingDayNight exampleAirports p (-6))
     = solarAltitudeDeg (Some 1704067800000) (lat CYOW) (lon CYOW).
Proof.
  cbv zeta.
  assert (Hout : out (times (parseOFP text_hour29)) = Some (mkHHMM 29 30))
    by (vm_compute; reflexivity).
  assert (Hi : landingInstant (str "2024-01-01") (mkHHMM 0 10) (Some (mkHHMM 29 30))
               = Some 1704067800000) by (vm_compute; reflexivity).
  split; [exact Hout|]. split; [vm_compute; reflexivity|].
  split; [vm_compute; reflexivity|]. rewrite Hout. split; [exact Hi|].
  rewrite (landing_unfold exampleAirports _ (str "2024-01-01") CYOW (mkHHMM 0 10) (-6)
             text_hour29_landing_inputs).
  rewrite Hout, Hi. reflexivity.
Qed.

Lemma scenarioA_without_lat_inputs :
  hasLandingInputs airports_without_lat (parseOFP scenarioA) (str "2024-01-01")
    CYOW_without_lat (mkHHMM 15 30).
Proof.
  unfold hasLandingInputs.
  split; [vm_compute; reflexivity|]. split; [discriminate|].
  split.
  - exists (str "CYOW"). split; [vm_compute; reflexivity|]. split; [discriminate|].
    unfold airports_without_lat.
    assert (E : jsstring_eqb (str "CYOW") (str "CYOW") = true) by (vm_compute; reflexivity).
    rewrite E. reflexivity.
  - right. split; vm_compute; reflexivity.
Qed.

(** C9 as stated fails: a latitude that is NaN (the entry of the airport
    lacks the field) makes the altitude NaN, whatever the instant: the
    clamp and the arccos hand the NaN on.  For scenario A with such an
    entry for CYOW the landing is classified at a valid instant, its sun
    altitude is NaN, and it counts as a day landing. *)
Lemma solarAltitudeDeg_nan_without_latitude :
  landingInstant (str "2024-01-01") (mkHHMM 15 30) (Some (mkHHMM 14 0))
  = Some 1704123000000
  /\ solarAltitudeDeg (Some 1704123000000) (lat CYOW_without_lat) (lon CYOW_without_lat)
     = None
  /\ ~ (exists altitude,
          solarAltitudeDeg (Some 1704123000000) (lat CYOW_without_lat)
            (lon CYOW_without_lat) = Some altitude
          /\ (-90 <= altitude <= 90)%R)
  /\ computeLandingDayNight airports_without_lat (parseOFP scenarioA) (-6)
     = mkLandingResult (Some false) (str "ok") None.
Proof.
  assert (Hi : landingInstant (str "2024-01-01") (mkHHMM 15 30) (Some (mkHHMM 14 0))
               = Some 1704123000000) by (vm_compute; reflexivity).
  assert (Hn : solarAltitudeDeg (Some 1704123000000) (lat CYOW_without_lat)
                 (lon CYOW_without_lat) = None)
    by (apply solarAltitudeDeg_nan; right; left; reflexivity).
  split; [exact Hi|]. split; [exact Hn|]. split.
  - intros (altitude & E & _). rewrite Hn in E. discriminate.
  - rewrite (landing_unfold airports_without_lat _ (str "2024-01-01") CYOW_without_lat
               (mkHHMM 15 30) (-6) scenarioA_without_lat_inputs).
    assert (Hout : out (times (parseOFP scenarioA)) = Some (mkHHMM 14 0))
      by (vm_compute; reflexivity).
    rewrite Hout, Hi, Hn. reflexivity.
Qed.

(** ** Validation before derivation *)

Lemma ingestParsed_missing AIRPORTS token parsed pfMode res name :
  In name (missingFields parsed) ->
  ingestParsed AIRPORTS token parsed pfMode res
  = (ParserMissingFields (missingFields parsed) parsed, []).
Proof.
  intros H. unfold ingestParsed. cbv zeta.
  destruct (missingFields parsed); [contradiction | reflexivity].
Qed.

Lemma In_if_negb (name : string) (b : bool) (n : string) :
  In name (if negb b then [n] else []) <-> name = n /\ b = false.
Proof.
  destruct b; cbn; split; try tauto.
  - intros [_ H]. discriminate H.
  - intros [H|[]]. auto.
  - intros [H _]. auto.
Qed.

Lemma truthy_str_false o : truthy_str o = false <-> o = None \/ o = Some [].
Proof.
  destruct o as [[|c s]|]; cbn; split; intros H; auto; try discriminate.
  destruct H as [H|H]; discriminate H.
Qed.

Lemma truthy_num_false o :
  truthy_num o = false <-> o = None \/ exists q, o = Some q /\ (q == 0)%Q.
Proof.
  destruct o as [q|]; cbn; split; intros H; auto.
  - right. exists q. split; [reflexivity|]. apply Qeq_bool_iff.
    destruct (Qeq_bool q 0); [reflexivity | discriminate H].
  - destruct H as [H|(q' & E & H)]; [discriminate H|]. injection E as <-.
    apply Qeq_bool_iff in H. rewrite H. reflexivity.
Qed.

Lemma truthy_obj_false {A} (o : option A) : truthy_obj o = false <-> o = None.
Proof. destruct o; cbn; split; intros H; auto; discriminate. Qed.

Lemma missingFields_iff parsed name :
  In name (missingFields parsed) <-> field_missing parsed name.
Proof.
  unfold missingFields, field_missing. rewrite !in_app_iff, !In_if_negb.
  rewrite !truthy_str_false, truthy_num_false, !truthy_obj_false. tauto.
Qed.

Lemma missingFields_NoDup parsed : NoDup (missingFields parsed).
Proof.
  unfold missingFields.
  destruct (negb (truthy_str (isoDate parsed))), (negb (truthy_str (tail parsed))),
    (negb (truthy_str (route parsed))), (negb (truthy_num (block parsed))),
    (negb (truthy_str (orig parsed))), (negb (truthy_str (dest parsed))),
    (negb (truthy_obj (out (times parsed)))), (negb (truthy_obj (inT (times parsed))));
    cbn [app];
    repeat (apply NoDup_cons; [cbn [In]; intuition discriminate|]); apply NoDup_nil.
Qed.

(** C2, amended: when any of date, tail number, route, block time, origin,
    destination, OUT or IN is absent from the parsed record, the [/ingest]
    handler answers ParserMissingFields, whatever the logbook service would
    answer: no envelope is built or sent and no pending flight is reported.
    The list it carries names every absent field; each name in it is the
    name of a required field that did not pass the validation (absent, or
    empty, or a block time of zero), and no name comes twice.
    [createPendingFlight] itself throws, before sending anything, when
    date, tail, route or block is absent. *)
Theorem ingest_rejects_absent_fields
    (AIRPORTS : jsstring -> option Coord) (MFB_AUTH_TOKEN : jsstring)
    (parsed : FlightFact) (pfMode : option jsstring) (res : FetchResult) :
  isoDate parsed = None \/ tail parsed = None \/ route parsed = None
  \/ block parsed = None \/ orig parsed = None \/ dest parsed = None
  \/ out (times parsed) = None \/ inT (times parsed) = None ->
  ingestParsed AIRPORTS MFB_AUTH_TOKEN parsed pfMode res
  = (ParserMissingFields (missingFields parsed) parsed, [])
  /\ (forall mode values snippet sent,
         ingestParsed AIRPORTS MFB_AUTH_TOKEN parsed pfMode res
         <> (PendingFlightCreated mode parsed values snippet, sent))
  /\ (forall name, In name (missingFields parsed) <-> field_missing parsed name)
  /\ NoDup (missingFields parsed)
  /\ (isoDate parsed = None -> In "date"%string (missingFields parsed))
  /\ (tail parsed = None -> In "tail"%string (missingFields parsed))
  /\ (route parsed = None -> In "route"%string (missingFields parsed))
  /\ (block parsed = None -> In "block"%string (missingFields parsed))
  /\ (orig parsed = None -> In "orig"%string (missingFields parsed))
  /\ (dest parsed = None -> In "dest"%string (missingFields parsed))
  /\ (out (times parsed) = None -> In "OUT"%string (missingFields parsed))
  /\ (inT (times parsed) = None -> In "IN"%string (missingFields parsed))
  /\ (isoDate parsed = None \/ tail parsed = None \/ route parsed = None
      \/ block parsed = None ->
      exists e,
        createPendingFlight AIRPORTS MFB_AUTH_TOKEN parsed pfMode res = (inl e, [])).
Proof.
  intros H.
  assert (H1 : isoDate parsed = None -> In "date"%string (missingFields parsed))
    by (intros E; in_missing E).
  assert (H2 : tail parsed = None -> In "tail"%string (missingFields parsed))
    by (intros E; in_missing E).
  assert (H3 : route parsed = None -> In "route"%string (missingFields parsed))
    by (intros E; in_missing E).
  assert (H4 : block parsed = None -> In "block"%string (missingFields parsed))
    by (intros E; in_missing E).
  assert (H5 : orig parsed = None -> In "orig"%string (missingFields parsed))
    by (intros E; in_missing E).
  assert (H6 : dest parsed = None -> In "dest"%string (missingFields parsed))
    by (intros E; in_missing E).
  assert (H7 : out (times parsed) = None -> In "OUT"%string (missingFields parsed))
    by (intros E; in_missing E).
  assert (H8 : inT (times parsed) = None -> In "IN"%string (missingFields parsed))
    by (intros E; in_missing E).
  assert (R : ingestParsed AIRPORTS MFB_AUTH_TOKEN parsed pfMode res
              = (ParserMissingFields (missingFields parsed) parsed, [])).
  { destruct H as [E|[E|[E|[E|[E|[E|[E|E]]]]]]];
      eapply ingestParsed_missing; eauto. }
  split; [exact R|].
  split; [intros mode values snippet sent; rewrite R; discriminate|].
  split; [exact (missingFields_iff parsed)|].
  split; [exact (missingFields_NoDup parsed)|].
  repeat (split; [assumption|]).
  intros [E|[E|[E|E]]]; unfold createPendingFlight.
  - rewrite E. cbn. eauto.
  - rewrite E. destruct (negb (truthy_str (isoDate parsed))); cbn; eauto.
  - rewrite E. destruct (negb (truthy_str (isoDate parsed))),
      (negb (truthy_str (tail parsed))); cbn; eauto.
  - rewrite E. destruct (negb (truthy_str (isoDate parsed))),
      (negb (truthy_str (tail parsed))), (negb (truthy_str (route parsed))); cbn; eauto.
Qed.

Lemma ingest_rejects_absent_fields_witness :
  block (parseOFP text_no_block) = None
  /\ ingest exampleAirports exampleToken (Some text_no_block) None answerOk
     = (ParserMissingFields ["block"%string] (parseOFP text_no_block), []).
Proof.
  assert (Hb : block (parseOFP text_no_block) = None) by (vm_compute; reflexivity).
  split; [exact Hb|].
  assert (Hm : missingFields (parseOFP text_no_block) = ["block"%string])
    by (vm_compute; reflexivity).
  rewrite <- Hm.
  exact (proj1 (ingest_rejects_absent_fields exampleAirports exampleToken
                  (parseOFP text_no_block) None answerOk
                  (or_intror (or_intror (or_intror (or_introl Hb)))))).
Defined.

(** C2 as stated fails: in a text without a tail number and with "BLOCK 0"
    the tail number is absent and the block time is present, yet the list
    carried by the error names both: it is not the list of the missing
    fields. *)
Lemma missing_list_names_present_block :
  let p := parseOFP text_no_tail_block_zero in
  tail p = None
  /\ block p = Some 0%Q
  /\ block p <> None
  /\ missingFields p = ["tail"%string; "block"%string]
  /\ ingest exampleAirports exampleToken (Some text_no_tail_block_zero) None answerOk
     = (ParserMissingFields ["tail"%string; "block"%string] p, []).
Proof.
  cbv zeta.
  assert (Hb : block (parseOFP text_no_tail_block_zero) = Some 0%Q)
    by (vm_compute; reflexivity).
  assert (Hm : missingFields (parseOFP text_no_tail_block_zero)
               = ["tail"%string; "block"%string]) by (vm_compute; reflexivity).
  split; [vm_compute; reflexivity|]. split; [exact Hb|].
  split; [rewrite Hb; discriminate|]. split; [exact Hm|].
  rewrite <- Hm.
  apply (ingestParsed_missing exampleAirports exampleToken
           (parseOFP text_no_tail_block_zero) None answerOk "tail"%string).
  rewrite Hm. left. reflexivity.
Qed.

(** ** Block time *)

Lemma re_block2_capture text b r caps :
  search re_block2 [] text = Some (b, r, caps) ->
  exists tok, caps = [tok] /\ tok <> [].
Proof.
  intros H. apply search_sound in H. destruct H as (pre & l & _ & H).
  unfold re_block2 in H. cbn [Cats fold_right sem] in H.
  destruct H as (l1 & l2 & c1 & _ & (_ & -> & _) & H).
  destruct H as (l3 & l4 & c2 & _ & Hlab & H).
  apply sem_groupless in Hlab; [|apply Lit_i_groupless]. subst c2.
  destruct H as (l5 & l6 & c3 & _ & (_ & _ & _ & ->) & H).
  destruct H as (l7 & l8 & c4 & _ & Hg & H).
  destruct Hg as (cm & (g1 & g2 & cg & -> & (_ & Hlen & _ & ->) & Hg) & ->).
  destruct Hg as (g3 & g4 & cg & _ & Hdot & Hg).
  apply sem_groupless in Hdot; [|apply Lit_groupless]. subst cg.
  destruct Hg as (g5 & g6 & cg & _ & (c & _ & _ & ->) & (_ & ->)).
  destruct H as (l9 & l10 & c5 & _ & (_ & -> & _) & (_ & ->)).
  eexists. split; [reflexivity|].
  destruct g1; [cbn in Hlen; lia | discriminate].
Qed.

Lemma blockToken_nonempty text tok : blockToken text = Some tok -> tok <> [].
Proof.
  unfold blockToken, js_or.
  destruct (truthy_str (match_group re_block1 text 1)) eqn:T.
  - intros E. rewrite E in T. destruct tok; [discriminate T | discriminate].
  - unfold match_group.
    destruct (search re_block2 [] text) as [[[b r] caps]|] eqn:S; [|discriminate].
    apply re_block2_capture in S. destruct S as (t & -> & Hne).
    cbn. intros E. injection E as <-. exact Hne.
Qed.

Lemma block_of_token raw tok :
  blockToken (text_of_raw raw) = Some tok ->
  block (parseOFP raw) = Some (Number_decimal tok).
Proof.
  intros H. pose proof (blockToken_nonempty _ _ H) as Hne.
  unfold parseOFP. cbv zeta. cbn [block]. rewrite H.
  destruct tok; [contradiction | reflexivity].
Qed.

Lemma block_zero_missing parsed q :
  block parsed = Some q -> (q == 0)%Q -> In "block"%string (missingFields parsed).
Proof.
  intros H Hq. unfold missingFields. rewrite H. cbn [truthy_num].
  apply Qeq_bool_iff in Hq. rewrite Hq. cbn [negb].
  rewrite !in_app_iff. cbn [In]. intuition auto.
Qed.

(** C3, amended: for every input text in which the BLOCK pattern matches a
    token of numeric value 0, the extracted block time is present, with
    value 0, and yet the validation of [/ingest] reports "block" among the
    missing fields: a block time of zero is treated like an absent one. *)
Theorem block_zero_present_but_reported_missing
    (AIRPORTS : jsstring -> option Coord) (MFB_AUTH_TOKEN : jsstring)
    (raw tok : jsstring) (pfMode : option jsstring) (res : FetchResult) :
  blockToken (text_of_raw raw) = Some tok ->
  (Number_decimal tok == 0)%Q ->
  block (parseOFP raw) = Some (Number_decimal tok)
  /\ block (parseOFP raw) <> None
  /\ In "block"%string (missingFields (parseOFP raw))
  /\ ingestParsed AIRPORTS MFB_AUTH_TOKEN (parseOFP raw) pfMode res
     = (ParserMissingFields (missingFields (parseOFP raw)) (parseOFP raw), []).
Proof.
  intros H Hz. pose proof (block_of_token raw tok H) as Hb.
  pose proof (block_zero_missing (parseOFP raw) _ Hb Hz) as Hm.
  split; [exact Hb|]. split; [rewrite Hb; discriminate|]. split; [exact Hm|].
  eapply ingestParsed_missing; eauto.
Qed.

Lemma block_zero_present_but_reported_missing_witness :
  blockToken (text_of_raw text_block_zero) = Some (str "0")
  /\ (Number_decimal (str "0") == 0)%Q
  /\ block (parseOFP text_block_zero) = Some (Number_decimal (str "0"))
  /\ In "block"%string (missingFields (parseOFP text_block_zero)).
Proof.
  assert (H : blockToken (text_of_raw text_block_zero) = Some (str "0"))
    by (vm_compute; reflexivity).
  assert (Hz : (Number_decimal (str "0") == 0)%Q) by (vm_compute; reflexivity).
  pose proof (block_zero_present_but_reported_missing exampleAirports exampleToken
                text_block_zero (str "0") None answerOk H Hz) as (Hb & _ & Hm & _).
  split; [exact H|]. split; [exact Hz|]. split; [exact Hb | exact Hm].
Defined.

(** C3 as stated fails: in a text complete but for "BLOCK 0", the block time
    is extracted as 0 (present), and the only field the validation reports
    missing is "block". *)
Lemma block_zero_is_reported_missing :
  blockToken (text_of_raw text_block_zero) = Some (str "0")
  /\ block (parseOFP text_block_zero) = Some 0%Q
  /\ missingFields (parseOFP text_block_zero) = ["block"%string]
  /\ ~ ~ In "block"%string (missingFields (parseOFP text_block_zero)).
Proof.
  split; [vm_compute; reflexivity|]. split; [vm_compute; reflexivity|].
  assert (Hm : missingFields (parseOFP text_block_zero) = ["block"%string])
    by (vm_compute; reflexivity).
  split; [exact Hm|]. rewrite Hm. intros N. apply N. left. reflexivity.
Qed.

(** ** Great-circle interpolation *)

(** From coordinates and a fraction that are numbers, [slerpLatLon] returns
    numbers: the arccos is taken of a clamped value and the square root of
    a sum of squares. *)
Lemma slerpLatLon_number lat1 lon1 lat2 lon2 f :
  is_number lat1 -> is_number lon1 -> is_number lat2 -> is_number lon2 -> is_number f ->
  is_number (lat (slerpLatLon lat1 lon1 lat2 lon2 f))
  /\ is_number (lon (slerpLatLon lat1 lon1 lat2 lon2 f)).
Proof.
  intros H1 H2 H3 H4 Hf. unfold slerpLatLon. cbv zeta.
  match goal with
  | |- context [Math_acos (clamp ?c _ _)] =>
      assert (Hc : is_number c) by auto 100 with numbers;
      destruct (Math_acos_clamp c Hc) as (w & E & _)
  end.
  rewrite E. destruct (js_lt (Some w) (1 / 10 ^ 10)); cbn [lat lon].
  - split; assumption.
  - assert (Hw : is_number (Some w)) by (eexists; reflexivity).
    split; auto 100 with numbers.
Qed.

(** A NaN coordinate of either end makes both coordinates of every point of
    the route NaN. *)
Lemma slerpLatLon_nan lat1 lon1 lat2 lon2 f :
  lat1 = None \/ lon1 = None \/ lat2 = None \/ lon2 = None ->
  slerpLatLon lat1 lon1 lat2 lon2 f = mkCoord None None.
Proof.
  intros [->|[->|[->| ->]]].
  - destruct lon1, lat2, lon2, f; reflexivity.
  - destruct lat1, lat2, lon2, f; reflexivity.
  - destruct lat1, lon1, lon2, f; reflexivity.
  - destruct lat1, lon1, lat2, f; reflexivity.
Qed.

(** In exact arithmetic the dot product of a unit vector with itself is 1,
    the angle is 0 and the guard returns the first point as it is. *)
Lemma slerpLatLon_same_point_exact (lat1 lon1 f : R) :
  slerpLatLon lat1 lon1 lat1 lon1 f = mkCoord lat1 lon1.
Proof.
  unfold slerpLatLon. cbv zeta.
  match goal with
  | |- context [clamp ?c _ _] => assert (E : c = Some 1%R)
  end.
  { unfold deg2rad, Math_cos, Math_sin, Math_PI, Num. cbn [num_op1 num_op2]. f_equal.
    set (p := (lat1 * PI / 180)%R). set (l := (lon1 * PI / 180)%R).
    pose proof (sin2_cos2 p) as Hp. pose proof (sin2_cos2 l) as Hl.
    unfold Rsqr in Hp, Hl. nra. }
  rewrite E. unfold clamp, Math_max, Math_min, Num. cbn [num_op2].
  rewrite Rmin_left by lra. rewrite Rmax_right by lra. cbn [Math_acos].
  destruct (Rle_dec (-1) 1) as [_|N]; [|exfalso; apply N; lra].
  destruct (Rle_dec 1 1) as [_|N]; [|exfalso; apply N; lra].
  rewrite acos_1. cbn [js_lt].
  destruct (Rlt_dec 0 (1 / 10 ^ 10)) as [_|N]; [reflexivity|].
  exfalso. apply N. apply Rdiv_lt_0_compat; [lra|]. apply pow_lt. lra.
Qed.

(** C6: the guard is there to return the first of two identical points as
    it is, and in exact arithmetic it does.  On doubles it is missed: for
    slerpLatLon(45.3225, -75.6692, 45.3225, -75.6692, 1) the rounded dot
    product is below 1, the angle is not below 1e-10, the general branch
    runs and the returned latitude is 45.32249999999999, less than the
    45.3225 that went in.  The guard can only be taken when the rounded dot
    product is exactly 1: already for the largest double below 1 the arccos
    is 2^-26, about 1.5e-8, above the threshold. *)
Theorem slerpLatLon_same_point_misses_guard :
  (forall lat1 lon1 f : R, slerpLatLon lat1 lon1 lat1 lon1 f = mkCoord lat1 lon1)
  /\ Binary64.slerpLatLon Binary64.lat_CYOW Binary64.lon_CYOW
       Binary64.lat_CYOW Binary64.lon_CYOW PrimFloat.one
     = Some (Binary64.lat_returned, Binary64.lon_CYOW)
  /\ PrimFloat.ltb Binary64.lat_returned Binary64.lat_CYOW = true
  /\ Binary64.Math_acos PrimFloat.one = PrimFloat.zero
  /\ Binary64.Math_acos Binary64.below_one = Binary64.acos_below_one
  /\ PrimFloat.ltb Binary64.acos_below_one Binary64.threshold = false.
Proof.
  split; [exact slerpLatLon_same_point_exact|].
  repeat split; vm_compute; reflexivity.
Qed.

(** ** The scenarios of the specification, evaluated *)

Example scenarioA_block : block (parseOFP scenarioA) = Some 1.5%Q.
Proof. vm_compute. reflexivity. Qed.

Example scenarioA_route : route (parseOFP scenarioA) = Some (str "CYYZ CYOW").
Proof. vm_compute. reflexivity. Qed.

Example scenarioA_isoDate : isoDate (parseOFP scenarioA) = Some (str "2024-01-01").
Proof. vm_compute. reflexivity. Qed.

Example scenarioA_times :
  times (parseOFP scenarioA)
  = mkTimes (Some (mkHHMM 14 0)) (Some (mkHHMM 15 30)) None None.
Proof. vm_compute. reflexivity. Qed.

Example scenarioA_complete : missingFields (parseOFP scenarioA) = [].
Proof. vm_compute. reflexivity. Qed.

Example scenarioA_duration :
  diffMinutesWithMidnightWrap (makeUtcDate (str "2024-01-01") (mkHHMM 14 0))
    (makeUtcDate (str "2024-01-01") (mkHHMM 15 30)) = Some 90.
Proof. vm_compute. reflexivity. Qed.

Example scenarioC_missing : missingFields (parseOFP text_no_block) = ["block"%string].
Proof. vm_compute. reflexivity. Qed.

Example parseZuluHHMM_not_a_clock_time :
  parseZuluHHMM (str "OUT 04145 ROUT 0414 OUT0414 OUT 3014") (str "OUT") = None.
Proof. vm_compute. reflexivity. Qed.

Example makeUtcDate_epoch : makeUtcDate (str "1970-01-01") (mkHHMM 0 0) = Some 0.
Proof. vm_compute. reflexivity. Qed.

Example makeUtcDate_2400 :
  makeUtcDate (str "2024-01-01") (mkHHMM 24 0)
  = makeUtcDate (str "2024-01-02") (mkHHMM 0 0).
Proof. vm_compute. reflexivity. Qed.

(** * Further properties of the code *)

(** ** escapeXml *)

Lemma replaceAll1_flat_map c r (f : N -> jsstring) s :
  replaceAll1 c r (flat_map f s) = flat_map (fun x => replaceAll1 c r (f x)) s.
Proof.
  unfold replaceAll1. induction s as [|a s IH]; cbn [flat_map]; [reflexivity|].
  rewrite flat_map_app, IH. reflexivity.
Qed.

Lemma escapeXml_units s : escapeXml (Some s) = flat_map escapeXml_unit s.
Proof.
  unfold escapeXml.
  unfold replaceAll1 at 5.
  rewrite !replaceAll1_flat_map.
  apply flat_map_ext. intros c. unfold escapeXml_unit.
  destruct (N.eqb_spec c 38) as [->|H38]; [vm_compute; reflexivity|].
  destruct (N.eqb_spec c 60) as [->|H60]; [vm_compute; reflexivity|].
  destruct (N.eqb_spec c 62) as [->|H62]; [vm_compute; reflexivity|].
  destruct (N.eqb_spec c 34) as [->|H34]; [vm_compute; reflexivity|].
  destruct (N.eqb_spec c 39) as [->|H39]; [vm_compute; reflexivity|].
  unfold replaceAll1. cbn [flat_map app].
  repeat match goal with
  | |- context [(c =? ?k)%N] => destruct (N.eqb_spec c k); [congruence|]; cbn [flat_map app]
  end.
  reflexivity.
Qed.

Lemma unescape_escape_units s : unescapeXml (flat_map escapeXml_unit s) = s.
Proof.
  induction s as [|c s IH]; [reflexivity|].
  cbn [flat_map]. unfold escapeXml_unit at 1.
  destruct (N.eqb_spec c 38) as [->|H38]; [cbn; rewrite IH; reflexivity|].
  destruct (N.eqb_spec c 60) as [->|H60]; [cbn; rewrite IH; reflexivity|].
  destruct (N.eqb_spec c 62) as [->|H62]; [cbn; rewrite IH; reflexivity|].
  destruct (N.eqb_spec c 34) as [->|H34]; [cbn; rewrite IH; reflexivity|].
  destruct (N.eqb_spec c 39) as [->|H39]; [cbn; rewrite IH; reflexivity|].
  cbn [app unescapeXml].
  destruct (N.eqb_spec c 38); [congruence|]. rewrite IH. reflexivity.
Qed.

Lemma escapeXml_unit_no_markup c : forallb (fun x => negb (is_markup x)) (escapeXml_unit c) = true.
Proof.
  unfold escapeXml_unit.
  destruct (N.eqb_spec c 38) as [->|H38]; [vm_compute; reflexivity|].
  destruct (N.eqb_spec c 60) as [->|H60]; [vm_compute; reflexivity|].
  destruct (N.eqb_spec c 62) as [->|H62]; [vm_compute; reflexivity|].
  destruct (N.eqb_spec c 34) as [->|H34]; [vm_compute; reflexivity|].
  destruct (N.eqb_spec c 39) as [->|H39]; [vm_compute; reflexivity|].
  cbn [forallb]. unfold is_markup.
  destruct (N.eqb_spec c 60); [congruence|].
  destruct (N.eqb_spec c 62); [congruence|].
  destruct (N.eqb_spec c 34); [congruence|].
  destruct (N.eqb_spec c 39); [congruence|]. reflexivity.
Qed.

(** X1: the output of [escapeXml] holds none of [<], [>], the double quote
    and the apostrophe, whatever the input, [null] included. *)
Theorem escapeXml_leaves_no_markup (s : option jsstring) :
  forallb (fun c => negb (is_markup c)) (escapeXml s) = true.
Proof.
  destruct s as [s|]; [|reflexivity].
  rewrite escapeXml_units. induction s as [|c s IH]; [reflexivity|].
  cbn [flat_map]. rewrite forallb_app, IH, escapeXml_unit_no_markup. reflexivity.
Qed.

(** X2: [escapeXml] loses nothing: replacing the five entities in its output
    gives the input back, so two different strings are never escaped to the
    same text. *)
Theorem escapeXml_loses_nothing :
  (forall s, unescapeXml (escapeXml (Some s)) = s)
  /\ (forall s1 s2, escapeXml (Some s1) = escapeXml (Some s2) -> s1 = s2).
Proof.
  assert (R : forall s, unescapeXml (escapeXml (Some s)) = s)
    by (intros s; rewrite escapeXml_units; apply unescape_escape_units).
  split; [exact R|].
  intros s1 s2 E. rewrite <- (R s1), <- (R s2), E. reflexivity.
Qed.

Lemma escapeXml_loses_nothing_witness :
  escapeXml (Some (str "A&B <C-GABC>")) = str "A&amp;B &lt;C-GABC&gt;"
  /\ unescapeXml (str "A&amp;B &lt;C-GABC&gt;") = str "A&B <C-GABC>".
Proof.
  assert (E : escapeXml (Some (str "A&B <C-GABC>")) = str "A&amp;B &lt;C-GABC&gt;")
    by (vm_compute; reflexivity).
  split; [exact E|]. rewrite <- E. exact (proj1 escapeXml_loses_nothing _).
Defined.

(** ** redact *)

(** X3: [redact] never shows more than nine code units; a token of at most
    ten code units is shown as "****"; of a longer token only the first
    four and the last four code units are shown, whatever lies between. *)
Theorem redact_hides_the_token :
  (forall s, (length (redact s) <= 9)%nat)
  /\ (forall t, t <> [] -> (length t <= 10)%nat -> redact (Some t) = str "****")
  /\ (forall a mid z,
        length a = 4%nat -> length z = 4%nat -> (3 <= length mid)%nat ->
        redact (Some (a ++ mid ++ z)) = a ++ [8230%N] ++ z).
Proof.
  split; [|split].
  - intros [s|]; [|cbn; lia]. unfold redact.
    destruct (truthy_str (Some s)); cbn [negb]; [|cbn; lia].
    destruct (Nat.leb_spec (length s) 10); [cbn; lia|].
    unfold slice, slice_last4. rewrite length_app, length_firstn. cbn [app length].
    rewrite !length_skipn. lia.
  - intros t Ht Hl. unfold redact. destruct t; [contradiction|]. cbn [truthy_str negb].
    destruct (Nat.leb_spec (length (n :: t)) 10); [reflexivity | lia].
  - intros a mid z Ha Hz Hm.
    assert (T : truthy_str (Some (a ++ mid ++ z)) = true)
      by (destruct a; [discriminate Ha | reflexivity]).
    unfold redact. rewrite T. cbn [negb].
    destruct (Nat.leb_spec (length (a ++ mid ++ z)) 10) as [H|H];
      [rewrite !length_app in H; lia|].
    unfold slice, slice_last4. cbn [skipn Nat.sub].
    rewrite <- Ha at 1. rewrite firstn_app, Nat.sub_diag, firstn_all, firstn_O, app_nil_r.
    f_equal. f_equal.
    rewrite app_assoc.
    replace (length ((a ++ mid) ++ z) - 4)%nat with (length (a ++ mid))
      by (rewrite (length_app (a ++ mid)); lia).
    rewrite skipn_app, Nat.sub_diag, skipn_all, skipn_O. reflexivity.
Qed.

Lemma redact_hides_the_token_witness :
  length (str "abcd") = 4%nat /\ length (str "wxyz") = 4%nat
  /\ (3 <= length (str "SECRET"))%nat
  /\ redact (Some (str "abcd" ++ str "SECRET" ++ str "wxyz"))
     = str "abcd" ++ [8230%N] ++ str "wxyz".
Proof.
  assert (Ha : length (str "abcd") = 4%nat) by reflexivity.
  assert (Hz : length (str "wxyz") = 4%nat) by reflexivity.
  assert (Hm : (3 <= length (str "SECRET"))%nat) by (vm_compute; lia).
  split; [exact Ha|]. split; [exact Hz|]. split; [exact Hm|].
  exact (proj2 (proj2 redact_hides_the_token) _ _ _ Ha Hz Hm).
Defined.

(** ** getAccessToken *)

Lemma must_truthy name v : truthy_str v = true -> must name v = inr v.
Proof. intros H. unfold must. rewrite H. reflexivity. Qed.

Lemma getAccessToken_env env cached now resp now2 :
  env_complete env ->
  getAccessToken env cached now resp now2
  = let hit :=
        match token cached with
        | Some t => if truthy_str (token cached) && (now <? expMs cached - 60000)
                    then Some t else None
        | None => None
        end in
      match hit with
      | Some t => (inr t, cached, [])
      | None =>
          let body :=
            mkTokenRequest (MFB_TOKEN_URL env) (MFB_REFRESH_TOKEN env)
              (MFB_CLIENT_ID env) (MFB_CLIENT_SECRET env) in
          if negb (resp_ok resp)
          then (inl (TokenRefreshFailed (resp_status resp) (resp_text resp)),
                cached, [body])
          else
            match resp_json resp with
            | None => (inl JsonParseError, cached, [body])
            | Some data =>
                let access := js_or (access_token data) (authtoken data) in
                let expiresIn :=
                  match expires_in data with
                  | Some e => if e =? 0 then 3600 else e
                  | None => 3600
                  end in
                match access with
                | Some a =>
                    if negb (truthy_str access)
                    then (inl (NoAccessToken (resp_text resp)), cached, [body])
                    else (inr a, mkCache (Some a) (now2 + expiresIn * 1000), [body])
                | None => (inl (NoAccessToken (resp_text resp)), cached, [body])
                end
            end
      end.
Proof.
  intros (H1 & H2 & H3 & H4). unfold getAccessToken.
  rewrite !must_truthy by assumption. reflexivity.
Qed.

Lemma getAccessToken_hit env cached now resp now2 t :
  env_complete env -> token cached = Some t -> t <> [] ->
  now < expMs cached - 60000 ->
  getAccessToken env cached now resp now2 = (inr t, cached, []).
Proof.
  intros He Ht Hne Hnow. rewrite getAccessToken_env by exact He. cbv zeta.
  rewrite Ht. destruct t; [contradiction|]. cbn [truthy_str andb].
  destruct (Z.ltb_spec now (expMs cached - 60000)); [reflexivity | lia].
Qed.

Lemma getAccessToken_error_keeps_cache env cached now resp now2 e :
  fst (fst (getAccessToken env cached now resp now2)) = inl e ->
  snd (fst (getAccessToken env cached now resp now2)) = cached.
Proof.
  unfold getAccessToken.
  repeat match goal with
  | |- context [match must ?n ?v with _ => _ end] => destruct (must n v); [reflexivity|]
  end.
  cbv zeta.
  destruct (match token cached with Some t => _ | None => None end); [reflexivity|].
  destruct (negb (resp_ok resp)); [reflexivity|].
  destruct (resp_json resp) as [data|]; [|reflexivity].
  destruct (js_or (access_token data) (authtoken data)) as [a|]; [|reflexivity].
  destruct (negb (truthy_str (Some a))); [reflexivity|].
  cbn. discriminate.
Qed.

(** X4: with the four variables set, a cached token that is still more than
    60 seconds from its expiry is returned as it is: nothing is sent and the
    cache is not touched, whatever the endpoint would answer. *)
Theorem getAccessToken_serves_cached_token
    (env : Env) (cached : Cache) (now : Z) (resp : TokenResponse) (now2 : Z)
    (t : jsstring) :
  env_complete env -> token cached = Some t -> t <> [] ->
  now < expMs cached - 60000 ->
  getAccessToken env cached now resp now2 = (inr t, cached, []).
Proof. apply getAccessToken_hit. Qed.

Lemma exampleEnv_complete : env_complete exampleEnv.
Proof. repeat split. Qed.

Lemma getAccessToken_serves_cached_token_witness :
  getAccessToken exampleEnv (mkCache (Some (str "tok")) 100000) 39999
    (mkTokenResponse false 500 [] None) 0
  = (inr (str "tok"), mkCache (Some (str "tok")) 100000, []).
Proof.
  apply (getAccessToken_serves_cached_token exampleEnv (mkCache (Some (str "tok")) 100000)
           39999 (mkTokenResponse false 500 [] None) 0 (str "tok")).
  - exact exampleEnv_complete.
  - reflexivity.
  - discriminate.
  - cbn. lia.
Defined.

Lemma getAccessToken_refresh env cached now resp now2 data a :
  env_complete env -> cache_miss cached now ->
  resp_ok resp = true -> resp_json resp = Some data ->
  js_or (access_token data) (authtoken data) = Some a -> a <> [] ->
  getAccessToken env cached now resp now2
  = (inr a, mkCache (Some a) (now2 + lifetime data * 1000),
     [mkTokenRequest (MFB_TOKEN_URL env) (MFB_REFRESH_TOKEN env)
        (MFB_CLIENT_ID env) (MFB_CLIENT_SECRET env)]).
Proof.
  intros He Hmiss Hok Hj Ha Hne. rewrite getAccessToken_env by exact He. cbv zeta.
  assert (Hhit : match token cached with
                 | Some t => if truthy_str (token cached) && (now <? expMs cached - 60000)
                             then Some t else None
                 | None => None
                 end = None).
  { destruct Hmiss as [Hf|Hexp].
    - rewrite Hf. cbn [andb]. destruct (token cached); reflexivity.
    - destruct (Z.ltb_spec now (expMs cached - 60000)); [lia|].
      rewrite andb_false_r. destruct (token cached); reflexivity. }
  rewrite Hhit, Hok, Hj, Ha. cbn [negb].
  destruct a; [contradiction|]. reflexivity.
Qed.

(** X5: with the four variables set and no cached token to serve, a
    successful answer carrying a token makes exactly one request, returns
    the token and caches it until the second clock reading plus its
    lifetime; a later call made more than 60 seconds before that moment
    returns the same token without sending anything. *)
Theorem getAccessToken_refresh_then_reuse
    (env : Env) (cached : Cache) (now : Z) (resp : TokenResponse) (now2 : Z)
    (data : TokenData) (a : jsstring) :
  env_complete env -> cache_miss cached now ->
  resp_ok resp = true -> resp_json resp = Some data ->
  js_or (access_token data) (authtoken data) = Some a -> a <> [] ->
  let cached' := mkCache (Some a) (now2 + lifetime data * 1000) in
  getAccessToken env cached now resp now2
  = (inr a, cached',
     [mkTokenRequest (MFB_TOKEN_URL env) (MFB_REFRESH_TOKEN env)
        (MFB_CLIENT_ID env) (MFB_CLIENT_SECRET env)])
  /\ forall now' resp' now2',
       now' < now2 + lifetime data * 1000 - 60000 ->
       getAccessToken env cached' now' resp' now2' = (inr a, cached', []).
Proof.
  intros He Hmiss Hok Hj Ha Hne cached'. split.
  - exact (getAccessToken_refresh env cached now resp now2 data a He Hmiss Hok Hj Ha Hne).
  - intros now' resp' now2' Hlt.
    apply getAccessToken_hit; [exact He | reflexivity | exact Hne | exact Hlt].
Qed.

Lemma getAccessToken_refresh_then_reuse_witness :
  getAccessToken exampleEnv (mkCache None 0) 1000 exampleResponse 1500
  = (inr (str "tok"), mkCache (Some (str "tok")) 3601500,
     [mkTokenRequest (MFB_TOKEN_URL exampleEnv) (MFB_REFRESH_TOKEN exampleEnv)
        (MFB_CLIENT_ID exampleEnv) (MFB_CLIENT_SECRET exampleEnv)])
  /\ getAccessToken exampleEnv (mkCache (Some (str "tok")) 3601500) 3541499
       (mkTokenResponse false 500 [] None) 0
     = (inr (str "tok"), mkCache (Some (str "tok")) 3601500, []).
Proof.
  pose proof (getAccessToken_refresh_then_reuse exampleEnv (mkCache None 0) 1000
                exampleResponse 1500 exampleData (str "tok") exampleEnv_complete
                (or_introl eq_refl) eq_refl eq_refl eq_refl ltac:(discriminate))
    as [H1 H2].
  split; [exact H1|].
  apply (H2 3541499 (mkTokenResponse false 500 [] None) 0). cbn. lia.
Defined.

(** X6: a call of [getAccessToken] that throws leaves the cache as it was;
    and when one of the four variables is unset (or empty) it throws
    "Missing env var" before anything is sent. *)
Theorem getAccessToken_failure_keeps_cache
    (env : Env) (cached : Cache) (now : Z) (resp : TokenResponse) (now2 : Z) :
  (forall e,
      fst (fst (getAccessToken env cached now resp now2)) = inl e ->
      snd (fst (getAccessToken env cached now resp now2)) = cached)
  /\ (truthy_str (MFB_CLIENT_ID env) = false
      \/ truthy_str (MFB_CLIENT_SECRET env) = false
      \/ truthy_str (MFB_REFRESH_TOKEN env) = false
      \/ truthy_str (MFB_TOKEN_URL env) = false ->
      exists name,
        getAccessToken env cached now resp now2 = (inl (MissingEnvVar name), cached, [])).
Proof.
  split.
  - intros e. apply getAccessToken_error_keeps_cache.
  - intros H. unfold getAccessToken, must.
    destruct (truthy_str (MFB_CLIENT_ID env)); cbn [negb]; [|eauto].
    destruct (truthy_str (MFB_CLIENT_SECRET env)); cbn [negb]; [|eauto].
    destruct (truthy_str (MFB_REFRESH_TOKEN env)); cbn [negb]; [|eauto].
    destruct (truthy_str (MFB_TOKEN_URL env)); cbn [negb]; [|eauto].
    exfalso. intuition discriminate.
Qed.

Lemma getAccessToken_failure_keeps_cache_witness :
  getAccessToken exampleEnv (mkCache (Some (str "old")) 0) 1000
    (mkTokenResponse false 401 (str "denied") None) 1500
  = (inl (TokenRefreshFailed 401 (str "denied")), mkCache (Some (str "old")) 0,
     [mkTokenRequest (MFB_TOKEN_URL exampleEnv) (MFB_REFRESH_TOKEN exampleEnv)
        (MFB_CLIENT_ID exampleEnv) (MFB_CLIENT_SECRET exampleEnv)])
  /\ snd (fst (getAccessToken exampleEnv (mkCache (Some (str "old")) 0) 1000
                 (mkTokenResponse false 401 (str "denied") None) 1500))
     = mkCache (Some (str "old")) 0.
Proof.
  assert (E : getAccessToken exampleEnv (mkCache (Some (str "old")) 0) 1000
                (mkTokenResponse false 401 (str "denied") None) 1500
              = (inl (TokenRefreshFailed 401 (str "denied")), mkCache (Some (str "old")) 0,
                 [mkTokenRequest (MFB_TOKEN_URL exampleEnv) (MFB_REFRESH_TOKEN exampleEnv)
                    (MFB_CLIENT_ID exampleEnv) (MFB_CLIENT_SECRET exampleEnv)]))
    by (vm_compute; reflexivity).
  split; [exact E|].
  apply (proj1 (getAccessToken_failure_keeps_cache exampleEnv (mkCache (Some (str "old")) 0)
                  1000 (mkTokenResponse false 401 (str "denied") None) 1500)
           (TokenRefreshFailed 401 (str "denied"))).
  rewrite E. reflexivity.
Defined.

(** X7: a token whose lifetime is at most 60 seconds is never served from
    the cache: every call made at or after the moment it was cached sends a
    request again. *)
Theorem getAccessToken_short_lived_token_refetched
    (env : Env) (a : jsstring) (life : Z) (cachedAt now : Z)
    (resp : TokenResponse) (now2 : Z) :
  env_complete env -> life <= 60 -> cachedAt <= now ->
  snd (getAccessToken env (mkCache (Some a) (cachedAt + life * 1000)) now resp now2)
  = [mkTokenRequest (MFB_TOKEN_URL env) (MFB_REFRESH_TOKEN env)
       (MFB_CLIENT_ID env) (MFB_CLIENT_SECRET env)].
Proof.
  intros He Hl Hn. rewrite getAccessToken_env by exact He. cbv zeta.
  cbn [token expMs].
  destruct (Z.ltb_spec now (cachedAt + life * 1000 - 60000)); [lia|].
  rewrite andb_false_r.
  destruct (negb (resp_ok resp)); [reflexivity|].
  destruct (resp_json resp) as [data|]; [|reflexivity].
  destruct (js_or (access_token data) (authtoken data)) as [t|]; [|reflexivity].
  destruct (negb (truthy_str (Some t))); reflexivity.
Qed.

Lemma getAccessToken_short_lived_token_refetched_witness :
  snd (getAccessToken exampleEnv (mkCache (Some (str "tok")) (1500 + 60 * 1000)) 1500
         exampleResponse 1600)
  = [mkTokenRequest (MFB_TOKEN_URL exampleEnv) (MFB_REFRESH_TOKEN exampleEnv)
       (MFB_CLIENT_ID exampleEnv) (MFB_CLIENT_SECRET exampleEnv)].
Proof.
  apply (getAccessToken_short_lived_token_refetched exampleEnv (str "tok") 60 1500 1500
           exampleResponse 1600 exampleEnv_complete); lia.
Defined.

(** ** Block minutes of arbitrary Dates *)

Lemma minutesOfDay_whole_minutes t :
  minutesOfDay (Some t) = Some ((t / 60000) mod 1440).
Proof.
  unfold minutesOfDay, getUTCHours, getUTCMinutes. cbn [option_map]. f_equal.
  replace 3600000 with (60000 * 60) by reflexivity.
  rewrite <- Z.div_div by lia.
  set (q := t / 60000).
  pose proof (Z.div_mod q 60 ltac:(lia)) as E1.
  pose proof (Z.mod_pos_bound q 60 ltac:(lia)) as B1.
  pose proof (Z.div_mod (q / 60) 24 ltac:(lia)) as E2.
  pose proof (Z.mod_pos_bound (q / 60) 24 ltac:(lia)) as B2.
  apply Z.mod_unique with (q := q / 60 / 24); lia.
Qed.

(** X8: for any two valid Dates the block minutes are the difference of
    their whole minutes since the epoch, modulo 1440, hence between 0 and
    1439; they are NaN exactly when one of the Dates is invalid; and the
    minutes from A to B and from B to A are both 0 or add up to 1440. *)
Theorem diffMinutes_of_any_dates (t1 t2 : Date) :
  (forall a b, t1 = Some a -> t2 = Some b ->
     diffMinutesWithMidnightWrap t1 t2 = Some ((b / 60000 - a / 60000) mod 1440))
  /\ (forall d, diffMinutesWithMidnightWrap t1 t2 = Some d -> 0 <= d < 1440)
  /\ (diffMinutesWithMidnightWrap t1 t2 = None <-> t1 = None \/ t2 = None)
  /\ (forall d12 d21,
        diffMinutesWithMidnightWrap t1 t2 = Some d12 ->
        diffMinutesWithMidnightWrap t2 t1 = Some d21 ->
        (d12 = 0 /\ d21 = 0) \/ d12 + d21 = 1440).
Proof.
  assert (F : forall a b,
             diffMinutesWithMidnightWrap (Some a) (Some b)
             = Some ((b / 60000 - a / 60000) mod 1440)).
  { intros a b. unfold diffMinutesWithMidnightWrap.
    rewrite !minutesOfDay_whole_minutes. f_equal.
    pose proof (Z.mod_pos_bound (a / 60000) 1440 ltac:(lia)).
    pose proof (Z.mod_pos_bound (b / 60000) 1440 ltac:(lia)).
    rewrite (Zminus_mod (b / 60000) (a / 60000)).
    destruct (Z.ltb_spec ((b / 60000) mod 1440 - (a / 60000) mod 1440) 0).
    - apply Z.mod_unique with (q := -1); lia.
    - apply Z.mod_unique with (q := 0); lia. }
  split; [intros a b -> ->; apply F|].
  destruct t1 as [a|], t2 as [b|]; cbn [diffMinutesWithMidnightWrap minutesOfDay
    getUTCHours getUTCMinutes option_map];
    try (split; [discriminate|]; split; [intuition congruence|]; discriminate).
  pose proof (F a b) as Fab. pose proof (F b a) as Fba.
  unfold diffMinutesWithMidnightWrap, minutesOfDay, getUTCHours, getUTCMinutes in Fab, Fba.
  cbn [option_map] in Fab, Fba. rewrite Fab.
  pose proof (Z.mod_pos_bound (b / 60000 - a / 60000) 1440 ltac:(lia)) as B.
  split; [intros d E; injection E as <-; exact B|].
  split; [split; [discriminate | intros [E|E]; discriminate]|].
  intros d12 d21 E1 E2. injection E1 as <-.
  unfold diffMinutesWithMidnightWrap, minutesOfDay, getUTCHours, getUTCMinutes in E2.
  cbn [option_map] in E2. rewrite Fba in E2. injection E2 as <-.
  pose proof (Z.mod_pos_bound (a / 60000 - b / 60000) 1440 ltac:(lia)) as B'.
  pose proof (Z.div_mod (b / 60000 - a / 60000) 1440 ltac:(lia)).
  pose proof (Z.div_mod (a / 60000 - b / 60000) 1440 ltac:(lia)).
  lia.
Qed.

Lemma diffMinutes_of_any_dates_witness :
  diffMinutesWithMidnightWrap (Some 1704153000000) (Some 1704154200000) = Some 20
  /\ 0 <= 20 < 1440.
Proof.
  assert (E : diffMinutesWithMidnightWrap (Some 1704153000000) (Some 1704154200000)
              = Some 20) by (vm_compute; reflexivity).
  split; [exact E|].
  exact (proj1 (proj2 (diffMinutes_of_any_dates (Some 1704153000000) (Some 1704154200000)))
           20 E).
Defined.

(** ** Valid and invalid Dates of extracted clock times *)

Lemma makeUtcDate_parse_time iso day t :
  parse_date iso = Some day ->
  makeUtcDate iso t = option_map (MakeDate day) (parse_time (timeSuffix t)).
Proof.
  intros Hd. pose proof (parse_date_length _ _ Hd) as Hl.
  change (makeUtcDate iso t) with (Date_parse (iso ++ timeSuffix t)).
  unfold Date_parse.
  rewrite <- Hl at 1. rewrite firstn_app, Nat.sub_diag, firstn_all, firstn_O, app_nil_r.
  rewrite <- Hl. rewrite skipn_app, Nat.sub_diag, skipn_all, skipn_O, app_nil_l.
  rewrite Hd. destruct (parse_time (timeSuffix t)); reflexivity.
Qed.

(** X9: on a date that parses, the Date built from an extracted clock time
    (hour up to 29, minute up to 59) is valid exactly when the hour is at
    most 23 or the time is 24:00; every other extracted time, 24:01 to
    29:59, gives the Invalid Date. *)
Theorem makeUtcDate_valid_iff (iso : jsstring) (day h m : Z) :
  parse_date iso = Some day -> 0 <= h <= 29 -> 0 <= m <= 59 ->
  (makeUtcDate iso (mkHHMM h m) = None <-> ~ (h <= 23 \/ (h = 24 /\ m = 0))).
Proof.
  intros Hd Hh Hm. rewrite (makeUtcDate_parse_time iso day _ Hd).
  assert (Hall : forall_from (fun h => forall_from (time_validity_ok h) 60 0) 30 0 = true)
    by (vm_compute; reflexivity).
  apply forall_from_spec with (z := h) in Hall; [|lia].
  apply forall_from_spec with (z := m) in Hall; [|lia].
  unfold time_validity_ok in Hall. apply Bool.eqb_prop in Hall.
  destruct (parse_time (timeSuffix (mkHHMM h m))) as [t|]; cbn [option_map].
  - symmetry in Hall. apply orb_true_iff in Hall. split; [discriminate|].
    intros N. exfalso. apply N. destruct Hall as [H|H].
    + left. apply Z.leb_le. exact H.
    + right. apply andb_true_iff in H. destruct H as [H1 H2].
      apply Z.eqb_eq in H1, H2. auto.
  - symmetry in Hall. apply orb_false_iff in Hall. destruct Hall as [H1 H2].
    split; [|reflexivity]. intros _ [H|[H3 H4]].
    + apply Z.leb_le in H. congruence.
    + subst. discriminate H2.
Qed.

Lemma makeUtcDate_valid_iff_witness :
  parse_date (str "2024-01-01") = Some 19723
  /\ makeUtcDate (str "2024-01-01") (mkHHMM 24 1) = None.
Proof.
  assert (Hd : parse_date (str "2024-01-01") = Some 19723) by (vm_compute; reflexivity).
  split; [exact Hd|].
  apply (makeUtcDate_valid_iff (str "2024-01-01") 19723 24 1 Hd); lia.
Defined.

(** ** Night hours when the computation degenerates *)

(** X10: when date, airports, OUT and IN are present but the OUT or the IN
    Date is invalid, the night computation does not fail: without sampling
    a single minute it reports 0 night hours with the reason "ok". *)
Theorem night_of_invalid_date_is_zero_ok
    (AIRPORTS : jsstring -> option Coord) (parsed : FlightFact) (tw : R)
    (iso : jsstring) (a b : Coord) (o i : HHMM) :
  hasNightInputs AIRPORTS parsed iso a b o i ->
  makeUtcDate iso o = None \/ makeUtcDate iso i = None ->
  computeNightHours_BlockInterval AIRPORTS parsed tw
  = mkNightResult (Some (nightHours_of 0)) (str "ok")
  /\ (nightHours_of 0 == 0)%Q.
Proof.
  intros Hin Hinv. split; [|reflexivity].
  rewrite (night_unfold AIRPORTS parsed iso a b o i tw Hin).
  destruct Hinv as [E|E]; rewrite E.
  - reflexivity.
  - unfold diffMinutesWithMidnightWrap. cbn [minutesOfDay getUTCHours option_map].
    destruct (minutesOfDay (makeUtcDate iso o)); reflexivity.
Qed.

Lemma text_hour29_night_inputs :
  hasNightInputs exampleAirports (parseOFP text_hour29) (str "2024-01-01")
    CYYZ CYOW (mkHHMM 29 30) (mkHHMM 0 10).
Proof. apply hasNightInputs_example; vm_compute; reflexivity. Qed.

Lemma night_of_invalid_date_is_zero_ok_witness :
  makeUtcDate (str "2024-01-01") (mkHHMM 29 30) = None
  /\ computeNightHours_BlockInterval exampleAirports (parseOFP text_hour29) (-6)
     = mkNightResult (Some (nightHours_of 0)) (str "ok").
Proof.
  assert (E : makeUtcDate (str "2024-01-01") (mkHHMM 29 30) = None)
    by (vm_compute; reflexivity).
  split; [exact E|].
  exact (proj1 (night_of_invalid_date_is_zero_ok exampleAirports (parseOFP text_hour29)
                  (-6) (str "2024-01-01") CYYZ CYOW (mkHHMM 29 30) (mkHHMM 0 10)
                  text_hour29_night_inputs (or_introl E))).
Defined.

Lemma solarAltitudeDeg_invalid lat_ lon_ : solarAltitudeDeg None lat_ lon_ = None.
Proof. apply solarAltitudeDeg_nan. left. reflexivity. Qed.

Lemma landingInstant_invalid iso l o :
  makeUtcDate iso l = None -> landingInstant iso l o = None.
Proof.
  intros E. unfold landingInstant. rewrite E.
  destruct o as [o|]; [|reflexivity]. cbn [minutesOfDay getUTCHours option_map].
  reflexivity.
Qed.

(** X11: when date, destination coordinates and a landing clock time are
    present but the landing Date is invalid, the landing is classified as a
    day landing (isNightLanding false, reason "ok") with a NaN sun
    altitude, whatever the threshold. *)
Theorem landing_of_invalid_date_is_day
    (AIRPORTS : jsstring -> option Coord) (parsed : FlightFact) (tw : R)
    (iso : jsstring) (c : Coord) (l : HHMM) :
  hasLandingInputs AIRPORTS parsed iso c l ->
  makeUtcDate iso l = None ->
  computeLandingDayNight AIRPORTS parsed tw = mkLandingResult (Some false) (str "ok") None.
Proof.
  intros Hin E. rewrite (landing_unfold AIRPORTS parsed iso c l tw Hin).
  rewrite (landingInstant_invalid iso l _ E), solarAltitudeDeg_invalid. reflexivity.
Qed.

Lemma text_landing25_inputs :
  hasLandingInputs exampleAirports (parseOFP text_landing25) (str "2024-01-01") CYOW
    (mkHHMM 25 10).
Proof.
  unfold hasLandingInputs.
  split; [vm_compute; reflexivity|]. split; [discriminate|].
  split; [exists (str "CYOW"); split; [vm_compute; reflexivity|]; split;
            [discriminate | exact exampleAirports_CYOW]|].
  right. split; vm_compute; reflexivity.
Qed.

Lemma landing_of_invalid_date_is_day_witness :
  makeUtcDate (str "2024-01-01") (mkHHMM 25 10) = None
  /\ computeLandingDayNight exampleAirports (parseOFP text_landing25) (-6)
     = mkLandingResult (Some false) (str "ok") None.
Proof.
  assert (E : makeUtcDate (str "2024-01-01") (mkHHMM 25 10) = None)
    by (vm_compute; reflexivity).
  split; [exact E|].
  exact (landing_of_invalid_date_is_day exampleAirports (parseOFP text_landing25) (-6)
           (str "2024-01-01") CYOW (mkHHMM 25 10) text_landing25_inputs E).
Defined.

(** X12: on a date that parses and with clock times of day, when there is no
    OUT time, or the landing clock is not earlier than the OUT clock, the
    instant classified is the landing clock time on the nominal date. *)
Theorem landing_instant_on_nominal_date
    (iso : jsstring) (day : Z) (l : HHMM) (out_ : option HHMM) :
  parse_date iso = Some day -> valid_clock l ->
  (out_ = None
   \/ exists o, out_ = Some o /\ valid_clock o /\ clock_minutes o <= clock_minutes l) ->
  landingInstant iso l out_ = Some (MakeDate day (MakeTime (hh l) (mm l) 0 0))
  /\ landingInstant iso l out_ = makeUtcDate iso l.
Proof.
  intros Hd Hl Ho.
  assert (E : makeUtcDate iso l = Some (MakeDate day (MakeTime (hh l) (mm l) 0 0)))
    by (destruct Hl as [Hh Hm]; exact (makeUtcDate_valid iso day l Hd Hh Hm)).
  assert (G : landingInstant iso l out_ = makeUtcDate iso l).
  { unfold landingInstant. destruct Ho as [->|(o & -> & Hv & Hle)]; [reflexivity|].
    rewrite (minutesOfDay_makeUtcDate iso day l Hd Hl).
    rewrite (minutesOfDay_makeUtcDate iso day o Hd Hv).
    destruct (Z.ltb_spec (clock_minutes l) (clock_minutes o)); [lia | reflexivity]. }
  split; [rewrite G; exact E | exact G].
Qed.

Lemma landing_instant_on_nominal_date_witness :
  parse_date (str "2024-01-01") = Some 19723
  /\ valid_clock (mkHHMM 15 30)
  /\ landingInstant (str "2024-01-01") (mkHHMM 15 30) (Some (mkHHMM 14 0))
     = Some 1704123000000.
Proof.
  assert (Hd : parse_date (str "2024-01-01") = Some 19723) by (vm_compute; reflexivity).
  assert (Hl : valid_clock (mkHHMM 15 30)) by (unfold valid_clock; cbn; lia).
  assert (Ho : valid_clock (mkHHMM 14 0)) by (unfold valid_clock; cbn; lia).
  split; [exact Hd|]. split; [exact Hl|].
  refine (proj1 (landing_instant_on_nominal_date (str "2024-01-01") 19723 (mkHHMM 15 30)
                   (Some (mkHHMM 14 0)) Hd Hl
                   (or_intror (ex_intro _ (mkHHMM 14 0) (conj eq_refl (conj Ho _)))))).
  vm_compute. discriminate.
Defined.

(** ** When the classifiers return null *)

(** X13: the night computation returns null night hours exactly when the
    date, the origin, the destination, OUT or IN is missing, or the origin
    or the destination has no coordinates; in every other case, a NaN
    duration included, it returns a number. *)
Theorem night_is_null_iff_input_missing
    (AIRPORTS : jsstring -> option Coord) (parsed : FlightFact) (tw : R) :
  nightHours (computeNightHours_BlockInterval AIRPORTS parsed tw) = None
  <-> truthy_str (isoDate parsed) && truthy_str (orig parsed) && truthy_str (dest parsed)
      && truthy_obj (out (times parsed)) && truthy_obj (inT (times parsed))
      && truthy_obj (airport AIRPORTS (orig parsed))
      && truthy_obj (airport AIRPORTS (dest parsed)) = false.
Proof.
  unfold computeNightHours_BlockInterval, airport.
  destruct (isoDate parsed) as [iso|]; [|cbn; tauto].
  destruct (orig parsed) as [oc|]; [|cbn; rewrite andb_false_r; tauto].
  destruct (dest parsed) as [dc|]; [|cbn; rewrite !andb_false_r; tauto].
  destruct (out (times parsed)) as [o|]; [|cbn; rewrite !andb_false_r; tauto].
  destruct (inT (times parsed)) as [i|]; [|cbn; rewrite !andb_false_r; tauto].
  cbn [truthy_obj]. rewrite !andb_true_r.
  destruct (truthy_str (Some iso)), (truthy_str (Some oc)), (truthy_str (Some dc));
    cbn [negb orb andb nightHours]; try tauto.
  destruct (AIRPORTS oc) as [a|]; [|cbn; tauto].
  destruct (AIRPORTS dc) as [b|]; [|cbn; tauto].
  cbn [truthy_obj andb].
  destruct (diffMinutesWithMidnightWrap (makeUtcDate iso o) (makeUtcDate iso i)) as [d|].
  - destruct (d <=? 0); cbn [nightHours]; split; discriminate.
  - cbn [nightHours]. split; discriminate.
Qed.

(** X14: the landing classification returns null exactly when the date or
    the destination is missing, the destination has no coordinates, or
    both ON and IN are missing; otherwise it answers day or night. *)
Theorem landing_is_null_iff_input_missing
    (AIRPORTS : jsstring -> option Coord) (parsed : FlightFact) (tw : R) :
  isNightLanding (computeLandingDayNight AIRPORTS parsed tw) = None
  <-> truthy_str (isoDate parsed) && truthy_str (dest parsed)
      && truthy_obj (airport AIRPORTS (dest parsed))
      && (truthy_obj (on (times parsed)) || truthy_obj (inT (times parsed))) = false.
Proof.
  unfold computeLandingDayNight, airport.
  destruct (isoDate parsed) as [iso|]; [|cbn; tauto].
  destruct (dest parsed) as [dc|]; [|cbn; rewrite andb_false_r; tauto].
  destruct (truthy_str (Some iso)), (truthy_str (Some dc));
    cbn [negb orb andb isNightLanding]; try tauto.
  destruct (AIRPORTS dc) as [c|]; [|cbn; tauto].
  cbn [truthy_obj andb].
  destruct (on (times parsed)) as [t|]; [cbn; split; discriminate|].
  destruct (inT (times parsed)) as [t|]; cbn; [split; discriminate | tauto].
Qed.

(** ** Bounds on the night hours *)

Lemma nightHours_of_bounds n :
  0 <= n < 1440 -> (0 <= nightHours_of n)%Q /\ (nightHours_of n <= 24)%Q.
Proof.
  intros H. rewrite nightHours_of_tenths.
  assert (H0 : 0 <= (n + 3) / 6) by (apply Z.div_pos; lia).
  assert (H1 : (n + 3) / 6 <= 240).
  { apply Z.lt_succ_r. apply Z.div_lt_upper_bound; lia. }
  unfold Qle, Qdiv, Qmult, Qinv, inject_Z. cbn. lia.
Qed.

Lemma nightHours_in_range AIRPORTS parsed (tw : R) (h : Q) :
  nightHours (computeNightHours_BlockInterval AIRPORTS parsed tw) = Some h ->
  (0 <= h)%Q /\ (h <= 24)%Q.
Proof.
  unfold computeNightHours_BlockInterval.
  destruct (isoDate parsed) as [iso|]; [|discriminate].
  destruct (orig parsed) as [oc|]; [|discriminate].
  destruct (dest parsed) as [dc|]; [|discriminate].
  destruct (out (times parsed)) as [o|]; [|discriminate].
  destruct (inT (times parsed)) as [i|]; [|discriminate].
  destruct (negb (truthy_str (Some iso)) || negb (truthy_str (Some oc))
            || negb (truthy_str (Some dc))); [discriminate|].
  destruct (AIRPORTS oc) as [a|]; [|discriminate].
  destruct (AIRPORTS dc) as [b|]; [|discriminate].
  destruct (diffMinutesWithMidnightWrap (makeUtcDate iso o) (makeUtcDate iso i))
    as [d|] eqn:Ed.
  - destruct (Z.leb_spec d 0); cbn [nightHours]; intros E; injection E as <-.
    + split; [apply Qle_refl | discriminate].
    + pose proof (nightLoop_bounds a b (makeUtcDate iso o) d tw (Z.to_nat d) 0 0) as B.
      assert (Hd : 0 <= d < 1440).
      { destruct (makeUtcDate iso o) as [x|], (makeUtcDate iso i) as [y|];
          try discriminate Ed.
        unfold diffMinutesWithMidnightWrap in Ed. rewrite !minutesOfDay_whole_minutes in Ed.
        pose proof (Z.mod_pos_bound (x / 60000) 1440 ltac:(lia)).
        pose proof (Z.mod_pos_bound (y / 60000) 1440 ltac:(lia)).
        injection Ed as <-.
        destruct (Z.ltb_spec ((y / 60000) mod 1440 - (x / 60000) mod 1440) 0); lia. }
      apply nightHours_of_bounds. lia.
  - cbn [nightHours]. intros E. injection E as <-. apply nightHours_of_bounds. lia.
Qed.

(** X15: whatever the flight and the threshold, night hours that are not
    null lie between 0 and 24. *)
Theorem night_hours_between_0_and_24
    (AIRPORTS : jsstring -> option Coord) (parsed : FlightFact) (tw : R) (h : Q) :
  nightHours (computeNightHours_BlockInterval AIRPORTS parsed tw) = Some h ->
  (0 <= h)%Q /\ (h <= 24)%Q.
Proof. apply nightHours_in_range. Qed.

Lemma night_hours_between_0_and_24_witness :
  nightHours (computeNightHours_BlockInterval exampleAirports (parseOFP text_same_clock) (-6))
  = Some 0%Q
  /\ (0 <= 0)%Q /\ (0 <= 24)%Q.
Proof.
  assert (E : nightHours (computeNightHours_BlockInterval exampleAirports
                            (parseOFP text_same_clock) (-6)) = Some 0%Q).
  { rewrite (night_zero_duration exampleAirports _ (str "2024-01-01") 19723
               CYYZ CYOW (mkHHMM 14 0) (mkHHMM 14 0) (-6) text_same_clock_inputs).
    - reflexivity.
    - vm_compute. reflexivity.
    - unfold valid_clock. cbn. lia.
    - unfold valid_clock. cbn. lia.
    - reflexivity. }
  split; [exact E|].
  exact (night_hours_between_0_and_24 exampleAirports (parseOFP text_same_clock) (-6) 0%Q E).
Defined.

(** ** Thresholds outside the range of the altitude *)

Lemma nightLoop_none a b tOut d (tw : R) :
  (tw <= -90)%R -> forall n i nm, nightLoop a b tOut d tw n i nm = nm.
Proof.
  intros Ht. induction n as [|n IH]; intros i nm; cbn [nightLoop]; [reflexivity|].
  cbv zeta. rewrite IH.
  match goal with |- context [js_lt ?alt tw] => destruct alt as [x|] eqn:E end;
    cbn [js_lt]; [|reflexivity].
  destruct (Rlt_dec x tw) as [L|]; [|reflexivity].
  exfalso. apply solarAltitudeDeg_range in E. lra.
Qed.

Lemma nightLoop_all a b t d (tw : R) :
  (90 < tw)%R ->
  is_number (lat a) -> is_number (lon a) -> is_number (lat b) -> is_number (lon b) ->
  forall n i nm, nightLoop a b (Some t) d tw n i nm = nm + Z.of_nat n.
Proof.
  intros Ht A1 A2 B1 B2. induction n as [|n IH]; intros i nm; cbn [nightLoop]; [lia|].
  cbv zeta. rewrite IH.
  match goal with
  | |- context [slerpLatLon ?x1 ?y1 ?x2 ?y2 ?f] =>
      destruct (slerpLatLon_number x1 y1 x2 y2 f A1 A2 B1 B2) as [P1 P2];
        [destruct (d =? 1); apply Num_number|];
      set (p := slerpLatLon x1 y1 x2 y2 f) in *
  end.
  cbn [getTime option_map].
  destruct (solarAltitudeDeg_number (t + i * 60000) (lat p) (lon p) P1 P2) as (alt & E & Hr).
  rewrite E. cbn [js_lt].
  destruct (Rlt_dec alt tw) as [|N]; [lia|]. exfalso. apply N. lra.
Qed.

Lemma nightLoop_nan a b tOut d (tw : R) :
  lat a = None \/ lon a = None \/ lat b = None \/ lon b = None ->
  forall n i nm, nightLoop a b tOut d tw n i nm = nm.
Proof.
  intros Hnan. induction n as [|n IH]; intros i nm; cbn [nightLoop]; [reflexivity|].
  cbv zeta. rewrite IH. rewrite (slerpLatLon_nan _ _ _ _ _ Hnan). cbn [lat lon].
  rewrite solarAltitudeDeg_nan by auto. reflexivity.
Qed.

Lemma finite_coord_numbers c :
  finite_coord c -> is_number (lat c) /\ is_number (lon c).
Proof. intros [H1 H2]. split; apply finite_degrees_number; assumption. Qed.

Lemma finite_coord_CYYZ : finite_coord CYYZ.
Proof.
  split; apply degrees_finite; unfold Rabs;
    match goal with |- context [Rcase_abs ?x] => destruct (Rcase_abs x) end; lra.
Qed.

Lemma finite_coord_CYOW : finite_coord CYOW.
Proof.
  split; apply degrees_finite; unfold Rabs;
    match goal with |- context [Rcase_abs ?x] => destruct (Rcase_abs x) end; lra.
Qed.

(** X16: with a threshold of -90 degrees or less no sampled minute counts as
    night, so night hours that are not null are 0.  With a threshold above
    90 degrees and the coordinates of both airports numbers of magnitude at
    most 1e300, every sampled minute counts, so a computation that runs on
    a block of d > 0 minutes reports the whole block, d/60 rounded to
    tenths.  When a coordinate of either airport is NaN (a field missing
    from its entry), every sampled altitude is NaN and no minute counts,
    whatever the threshold. *)
Theorem night_hours_at_extreme_thresholds
    (AIRPORTS : jsstring -> option Coord) (parsed : FlightFact) (tw : R) :
  ((tw <= -90)%R ->
   forall h, nightHours (computeNightHours_BlockInterval AIRPORTS parsed tw) = Some h ->
             (h == 0)%Q)
  /\ ((90 < tw)%R ->
      forall iso a b o i d,
        hasNightInputs AIRPORTS parsed iso a b o i ->
        finite_coord a -> finite_coord b ->
        diffMinutesWithMidnightWrap (makeUtcDate iso o) (makeUtcDate iso i) = Some d ->
        0 < d ->
        computeNightHours_BlockInterval AIRPORTS parsed tw
        = mkNightResult (Some (nightHours_of d)) (str "ok"))
  /\ (forall iso a b o i d,
        hasNightInputs AIRPORTS parsed iso a b o i ->
        lat a = None \/ lon a = None \/ lat b = None \/ lon b = None ->
        diffMinutesWithMidnightWrap (makeUtcDate iso o) (makeUtcDate iso i) = Some d ->
        0 < d ->
        computeNightHours_BlockInterval AIRPORTS parsed tw
        = mkNightResult (Some (nightHours_of 0)) (str "ok")).
Proof.
  split; [|split].
  - intros Ht h. unfold computeNightHours_BlockInterval.
    destruct (isoDate parsed) as [iso|]; [|discriminate].
    destruct (orig parsed) as [oc|]; [|discriminate].
    destruct (dest parsed) as [dc|]; [|discriminate].
    destruct (out (times parsed)) as [o|]; [|discriminate].
    destruct (inT (times parsed)) as [i|]; [|discriminate].
    destruct (negb (truthy_str (Some iso)) || negb (truthy_str (Some oc))
              || negb (truthy_str (Some dc))); [discriminate|].
    destruct (AIRPORTS oc) as [a|]; [|discriminate].
    destruct (AIRPORTS dc) as [b|]; [|discriminate].
    destruct (diffMinutesWithMidnightWrap (makeUtcDate iso o) (makeUtcDate iso i)) as [d|].
    + destruct (d <=? 0); cbn [nightHours]; intros E; injection E as <-; [reflexivity|].
      rewrite (nightLoop_none a b _ d tw Ht). reflexivity.
    + cbn [nightHours]. intros E. injection E as <-. reflexivity.
  - intros Ht iso a b o i d Hin Ha Hb Hd Hpos.
    rewrite (night_unfold AIRPORTS parsed iso a b o i tw Hin), Hd.
    destruct (Z.leb_spec d 0); [lia|].
    destruct (makeUtcDate iso o) as [t|] eqn:Eo; [|discriminate Hd].
    destruct (finite_coord_numbers a Ha) as [A1 A2].
    destruct (finite_coord_numbers b Hb) as [B1 B2].
    rewrite (nightLoop_all a b t d tw Ht A1 A2 B1 B2). do 3 f_equal. lia.
  - intros iso a b o i d Hin Hnan Hd Hpos.
    rewrite (night_unfold AIRPORTS parsed iso a b o i tw Hin), Hd.
    destruct (Z.leb_spec d 0); [lia|].
    rewrite (nightLoop_nan a b _ d tw Hnan). reflexivity.
Qed.

Lemma night_hours_at_extreme_thresholds_witness :
  (90 < 91)%R
  /\ finite_coord CYYZ /\ finite_coord CYOW
  /\ computeNightHours_BlockInterval exampleAirports (parseOFP scenarioA) 91
     = mkNightResult (Some (nightHours_of 90)) (str "ok")
  /\ (nightHours_of 90 == 1.5)%Q.
Proof.
  assert (Ht : (90 < 91)%R) by lra.
  assert (Hin : hasNightInputs exampleAirports (parseOFP scenarioA) (str "2024-01-01")
                  CYYZ CYOW (mkHHMM 14 0) (mkHHMM 15 30))
    by (apply hasNightInputs_example; vm_compute; reflexivity).
  assert (Hd : diffMinutesWithMidnightWrap (makeUtcDate (str "2024-01-01") (mkHHMM 14 0))
                 (makeUtcDate (str "2024-01-01") (mkHHMM 15 30)) = Some 90)
    by (vm_compute; reflexivity).
  split; [exact Ht|]. split; [exact finite_coord_CYYZ|]. split; [exact finite_coord_CYOW|].
  split; [|vm_compute; reflexivity].
  exact (proj1 (proj2 (night_hours_at_extreme_thresholds exampleAirports
                         (parseOFP scenarioA) 91))
           Ht (str "2024-01-01") CYYZ CYOW (mkHHMM 14 0) (mkHHMM 15 30) 90 Hin
           finite_coord_CYYZ finite_coord_CYOW Hd ltac:(lia)).
Defined.

(** ** What parseOFP extracts *)

Lemma sem_Lit s : forall bef caps l rest' caps',
  sem (Lit s) bef caps l rest' caps' -> l = str s /\ caps' = caps.
Proof.
  unfold Lit, str. induction (list_ascii_of_string s) as [|a t IH];
    intros bef caps l rest' caps' H; cbn [map Cats fold_right sem] in H.
  - destruct H as [-> ->]. auto.
  - destruct H as (l1 & l2 & cm & -> & (c & -> & Hc & ->) & H).
    apply IH in H. destruct H as [-> ->].
    unfold chr in Hc. apply N.eqb_eq in Hc. subst c. auto.
Qed.

Lemma match_group_1 re text tok :
  match_group re text 1 = Some tok ->
  exists b r caps, search re [] text = Some (b, r, caps) /\ nth_error caps 0 = Some tok.
Proof.
  unfold match_group. destruct (search re [] text) as [[[b r] caps]|]; [|discriminate].
  cbn [Nat.sub]. eauto.
Qed.

Lemma re_icao_capture marker text code :
  match_group (re_icao marker) text 1 = Some code ->
  length code = 4%nat /\ forallb is_upper code = true.
Proof.
  intros H. apply match_group_1 in H. destruct H as (b & r & caps & H & Hn).
  apply search_sound in H. destruct H as (pre & l & _ & H).
  unfold re_icao in H. cbn [Cats fold_right sem] in H.
  destruct H as (l1 & l2 & c1 & _ & (_ & -> & _) & H).
  destruct H as (l3 & l4 & c2 & _ & Hlit & H).
  apply sem_Lit in Hlit. destruct Hlit as [_ ->].
  destruct H as (l5 & l6 & c3 & _ & (_ & _ & _ & ->) & H).
  destruct H as (l7 & l8 & c4 & _ & (cm & (Hup & Hlo & Hhi & ->) & ->) & H).
  destruct H as (l9 & l10 & c5 & _ & (_ & -> & _) & (_ & ->)).
  cbn in Hn. injection Hn as <-. split; [lia | exact Hup].
Qed.

Lemma re_tail_capture text tok :
  match_group re_tail text 1 = Some tok ->
  exists letters, tok = str "C-" ++ letters
    /\ length letters = 4%nat /\ forallb is_upper letters = true.
Proof.
  intros H. apply match_group_1 in H. destruct H as (b & r & caps & H & Hn).
  apply search_sound in H. destruct H as (pre & l & _ & H).
  unfold re_tail in H. cbn [Cats fold_right sem] in H.
  destruct H as (cm & H & ->).
  destruct H as (l1 & l2 & c1 & -> & (-> & -> & _) & H).
  destruct H as (l3 & l4 & c2 & -> & Hlit & H).
  apply sem_Lit in Hlit. destruct Hlit as [-> ->].
  destruct H as (l5 & l6 & c3 & -> & (Hup & Hlo & Hhi & ->) & H).
  destruct H as (l7 & l8 & c4 & -> & (-> & -> & _) & (-> & ->)).
  cbn in Hn. injection Hn as <-. exists l5.
  rewrite !app_nil_r. split; [reflexivity|]. split; [lia | exact Hup].
Qed.

Lemma re_flightNumber_capture text tok :
  match_group re_flightNumber text 1 = Some tok ->
  exists digits, tok = str "CJT" ++ digits
    /\ (3 <= length digits <= 4)%nat /\ forallb is_digit digits = true.
Proof.
  intros H. apply match_group_1 in H. destruct H as (b & r & caps & H & Hn).
  apply search_sound in H. destruct H as (pre & l & _ & H).
  unfold re_flightNumber in H. cbn [Cats fold_right sem] in H.
  destruct H as (cm & H & ->).
  destruct H as (l1 & l2 & c1 & -> & (-> & -> & _) & H).
  destruct H as (l3 & l4 & c2 & -> & Hlit & H).
  apply sem_Lit in Hlit. destruct Hlit as [-> ->].
  destruct H as (l5 & l6 & c3 & -> & (Hup & Hlo & Hhi & ->) & H).
  destruct H as (l7 & l8 & c4 & -> & (-> & -> & _) & (-> & ->)).
  cbn in Hn. injection Hn as <-. exists l5.
  rewrite !app_nil_r. split; [reflexivity|]. split; [lia | exact Hup].
Qed.

(** X17: for every text, an extracted origin or destination is four
    upper-case letters; the route is present exactly when both are, and is
    then the origin, a space and the destination. *)
Theorem parseOFP_route_of_two_icao_codes (raw : jsstring) :
  (forall code, orig (parseOFP raw) = Some code ->
                length code = 4%nat /\ forallb is_upper code = true)
  /\ (forall code, dest (parseOFP raw) = Some code ->
                   length code = 4%nat /\ forallb is_upper code = true)
  /\ route (parseOFP raw)
     = match orig (parseOFP raw), dest (parseOFP raw) with
       | Some o, Some d => Some (o ++ str " " ++ d)
       | _, _ => None
       end.
Proof.
  unfold parseOFP. cbv zeta. cbn [orig dest route].
  split; [intros code; apply re_icao_capture|].
  split; [intros code; apply re_icao_capture|].
  destruct (match_group (re_icao "ORIG") (text_of_raw raw) 1) as [o|] eqn:Eo; [|reflexivity].
  destruct (match_group (re_icao "DEST") (text_of_raw raw) 1) as [d|] eqn:Ed; [|reflexivity].
  apply re_icao_capture in Eo, Ed. destruct Eo as [Lo _], Ed as [Ld _].
  destruct o; [discriminate Lo|]. destruct d; [discriminate Ld|]. reflexivity.
Qed.

Lemma parseOFP_route_of_two_icao_codes_witness :
  orig (parseOFP scenarioA) = Some (str "CYYZ")
  /\ length (str "CYYZ") = 4%nat /\ forallb is_upper (str "CYYZ") = true.
Proof.
  assert (E : orig (parseOFP scenarioA) = Some (str "CYYZ")) by (vm_compute; reflexivity).
  split; [exact E|].
  exact (proj1 (parseOFP_route_of_two_icao_codes scenarioA) _ E).
Defined.

(** X18: for every text, an extracted tail number is "C-" followed by four
    upper-case letters, and an extracted flight number is "CJT" followed by
    three or four digits. *)
Theorem parseOFP_tail_and_flight_number (raw : jsstring) :
  (forall tok, tail (parseOFP raw) = Some tok ->
     exists letters, tok = str "C-" ++ letters
       /\ length letters = 4%nat /\ forallb is_upper letters = true)
  /\ (forall tok, flightNumber (parseOFP raw) = Some tok ->
        exists digits, tok = str "CJT" ++ digits
          /\ (3 <= length digits <= 4)%nat /\ forallb is_digit digits = true).
Proof.
  unfold parseOFP. cbv zeta. cbn [tail flightNumber].
  split; intros tok; [apply re_tail_capture | apply re_flightNumber_capture].
Qed.

Lemma parseOFP_tail_and_flight_number_witness :
  tail (parseOFP scenarioA) = Some (str "C-ABCD")
  /\ exists letters, str "C-ABCD" = str "C-" ++ letters /\ length letters = 4%nat
                     /\ forallb is_upper letters = true.
Proof.
  assert (E : tail (parseOFP scenarioA) = Some (str "C-ABCD")) by (vm_compute; reflexivity).
  split; [exact E|].
  exact (proj1 (parseOFP_tail_and_flight_number scenarioA) _ E).
Defined.

Lemma is_digit_not_dot c : is_digit c = true -> (c =? 46)%N = false.
Proof.
  unfold is_digit, in_range. intros H. apply andb_true_iff in H. destruct H as [H _].
  apply N.leb_le in H. apply N.eqb_neq. lia.
Qed.

Lemma is_digit_val c : is_digit c = true -> 0 <= digit_val c <= 9.
Proof.
  unfold is_digit, in_range, digit_val. intros H. apply andb_true_iff in H.
  destruct H as [H1 H2]. apply N.leb_le in H1, H2. lia.
Qed.

Lemma split_dot_digits ds : forallb is_digit ds = true ->
  split_dot ds = (ds, None)
  /\ forall r, split_dot (ds ++ 46%N :: r) = (ds, Some r).
Proof.
  induction ds as [|c ds IH]; intros H; [split; reflexivity|].
  cbn [forallb] in H. apply andb_true_iff in H. destruct H as [Hc Hd].
  destruct (IH Hd) as [I1 I2]. cbn [split_dot app].
  rewrite (is_digit_not_dot c Hc), I1. split; [reflexivity|].
  intros r. rewrite I2. reflexivity.
Qed.

Lemma Number_digits_short ds :
  forallb is_digit ds = true -> (1 <= length ds <= 2)%nat ->
  0 <= Number_digits ds <= 99.
Proof.
  intros H L. destruct ds as [|a [|b [|c ds]]]; cbn [length] in L; try lia;
    cbn [forallb] in H; unfold Number_digits; cbn [fold_left].
  - apply andb_true_iff in H. destruct H as [Ha _].
    pose proof (is_digit_val a Ha). lia.
  - apply andb_true_iff in H. destruct H as [Ha H].
    apply andb_true_iff in H. destruct H as [Hb _].
    pose proof (is_digit_val a Ha). pose proof (is_digit_val b Hb). lia.
Qed.

Lemma re_block1_shape text tok :
  match_group re_block1 text 1 = Some tok -> block_shape tok.
Proof.
  intros H. apply match_group_1 in H. destruct H as (b & r & caps & H & Hn).
  apply search_sound in H. destruct H as (pre & l & _ & H).
  unfold re_block1 in H. cbn [Cats fold_right sem] in H.
  destruct H as (l1 & l2 & c1 & _ & (_ & -> & _) & H).
  destruct H as (l3 & l4 & c2 & _ & Hlab & H).
  apply sem_groupless in Hlab; [|apply Lit_i_groupless]. subst c2.
  destruct H as (l5 & l6 & c3 & _ & (_ & _ & _ & ->) & H).
  destruct H as (l7 & l8 & c4 & _ & Hg & H).
  destruct Hg as (cm & (g1 & g2 & cg & -> & (Hdig & Hlo & Hhi & ->) & Hg) & ->).
  destruct Hg as (g3 & g4 & cg & -> & Hopt & (-> & ->)).
  destruct H as (l9 & l10 & c5 & _ & (_ & -> & _) & (_ & ->)).
  assert (Hf : cg = [] /\ (g3 = [] \/ exists d, g3 = [46%N; d] /\ is_digit d = true)).
  { destruct Hopt as [[-> ->]|Hopt]; [auto|].
    destruct Hopt as (o1 & o2 & co & -> & Hdot
                      & (o3 & o4 & co' & -> & (d & -> & Hd & ->) & (-> & ->))).
    apply sem_Lit in Hdot. destruct Hdot as [-> ->].
    split; [reflexivity|]. right. exists d. auto. }
  destruct Hf as [-> Hf]. cbn in Hn. injection Hn as <-.
  exists g1, g3. rewrite app_nil_r. split; [reflexivity|]. split; [lia|]. split; assumption.
Qed.

Lemma re_block2_shape text tok :
  match_group re_block2 text 1 = Some tok -> block_shape tok.
Proof.
  intros H. apply match_group_1 in H. destruct H as (b & r & caps & H & Hn).
  apply search_sound in H. destruct H as (pre & l & _ & H).
  unfold re_block2 in H. cbn [Cats fold_right sem] in H.
  destruct H as (l1 & l2 & c1 & _ & (_ & -> & _) & H).
  destruct H as (l3 & l4 & c2 & _ & Hlab & H).
  apply sem_groupless in Hlab; [|apply Lit_i_groupless]. subst c2.
  destruct H as (l5 & l6 & c3 & _ & (_ & _ & _ & ->) & H).
  destruct H as (l7 & l8 & c4 & _ & Hg & H).
  destruct Hg as (cm & (g1 & g2 & cg & -> & (Hdig & Hlo & Hhi & ->) & Hg) & ->).
  destruct Hg as (g3 & g4 & cg & -> & Hdot & Hg).
  apply sem_Lit in Hdot. destruct Hdot as [-> ->].
  destruct Hg as (g5 & g6 & cg & -> & (d & -> & Hd & ->) & (-> & ->)).
  destruct H as (l9 & l10 & c5 & _ & (_ & -> & _) & (_ & ->)).
  cbn in Hn. injection Hn as <-.
  exists g1, [46%N; d]. split; [reflexivity|]. split; [lia|]. split; [exact Hdig|].
  right. exists d. auto.
Qed.

Lemma blockToken_shape text tok : blockToken text = Some tok -> block_shape tok.
Proof.
  unfold blockToken, js_or.
  destruct (truthy_str (match_group re_block1 text 1)).
  - apply re_block1_shape.
  - apply re_block2_shape.
Qed.

Lemma Number_decimal_shape tok :
  block_shape tok -> exists k : Z, 0 <= k <= 999 /\ (Number_decimal tok == k # 10)%Q.
Proof.
  intros (ds & frac & -> & L & Hd & Hf).
  pose proof (Number_digits_short ds Hd L) as B.
  destruct (split_dot_digits ds Hd) as [S1 S2].
  unfold Number_decimal.
  destruct Hf as [->|(d & -> & Hdd)].
  - rewrite app_nil_r, S1. exists (10 * Number_digits ds). split; [lia|].
    unfold Qeq, inject_Z. cbn [Qnum Qden]. lia.
  - rewrite S2. pose proof (is_digit_val d Hdd) as Bd.
    exists (10 * Number_digits ds + digit_val d). split; [lia|].
    unfold Number_digits at 2. cbn [fold_left length].
    change (10 ^ Z.of_nat 1) with 10.
    set (n := Number_digits ds) in *. set (v := digit_val d) in *.
    unfold Qeq, Qplus, Qdiv, Qmult, Qinv, inject_Z. cbn [Qnum Qden].
    change (Z.pos (1 * (1 * 10))) with 10. change (Z.pos 10) with 10. lia.
Qed.

(** X19: for every text, an extracted block time is a whole number of tenths
    of an hour between 0 and 99.9. *)
Theorem parseOFP_block_in_tenths (raw : jsstring) (q : Q) :
  block (parseOFP raw) = Some q ->
  exists k : Z, 0 <= k <= 999 /\ (q == k # 10)%Q.
Proof.
  unfold parseOFP. cbv zeta. cbn [block].
  destruct (blockToken (text_of_raw raw)) as [tok|] eqn:E; [|cbn; discriminate].
  destruct (truthy_str (Some tok)); [|discriminate].
  intros H. injection H as <-.
  apply Number_decimal_shape, (blockToken_shape _ _ E).
Qed.

Lemma parseOFP_block_in_tenths_witness :
  block (parseOFP scenarioA) = Some 1.5%Q
  /\ exists k : Z, 0 <= k <= 999 /\ (1.5 == k # 10)%Q.
Proof.
  assert (E : block (parseOFP scenarioA) = Some 1.5%Q) by (vm_compute; reflexivity).
  split; [exact E|].
  exact (parseOFP_block_in_tenths scenarioA 1.5%Q E).
Defined.

Lemma length_2 (l : list N) : length l = 2%nat -> exists a b, l = [a; b].
Proof. destruct l as [|a [|b [|c l]]]; try discriminate. eauto. Qed.

Lemma length_3 (l : list N) : length l = 3%nat -> exists a b c, l = [a; b; c].
Proof. destruct l as [|a [|b [|c [|d l]]]]; try discriminate. eauto. Qed.

Lemma forallb_2 (p : N -> bool) a b : forallb p [a; b] = true -> p a = true /\ p b = true.
Proof.
  cbn. intros H. apply andb_true_iff in H. destruct H as [Ha H].
  apply andb_true_iff in H. tauto.
Qed.

Lemma in_range_digit hi c : (hi <= 57)%N -> in_range 48 hi c = true -> is_digit c = true.
Proof.
  unfold is_digit, in_range. intros Hh H. apply andb_true_iff in H. destruct H as [H1 H2].
  apply N.leb_le in H1, H2. apply andb_true_iff. split; apply N.leb_le; lia.
Qed.

Lemma re_date1_shape text tok :
  match_group re_date1 text 1 = Some tok -> date_shape tok.
Proof.
  intros H. apply match_group_1 in H. destruct H as (b & r & caps & H & Hn).
  apply search_sound in H. destruct H as (pre & l & _ & H).
  unfold re_date1 in H. cbn [Cats fold_right sem] in H.
  destruct H as (l1 & l2 & c1 & _ & (_ & -> & _) & H).
  destruct H as (l3 & l4 & c2 & _ & Hlit & H).
  apply sem_Lit in Hlit. destruct Hlit as [_ ->].
  destruct H as (l5 & l6 & c3 & _ & (_ & _ & _ & ->) & H).
  destruct H as (l7 & l8 & c4 & _ & Hg & H).
  destruct Hg as (cm & (g1 & g2 & cg & -> & (d1 & -> & Hd1 & ->) & Hg) & ->).
  destruct Hg as (g3 & g4 & cg & -> & (d2 & -> & Hd2 & ->) & Hg).
  destruct Hg as (g5 & g6 & cg & -> & (_ & Hm1 & Hm2 & ->) & Hg).
  destruct Hg as (g7 & g8 & cg & -> & (Hy & Hy1 & Hy2 & ->) & (-> & ->)).
  destruct H as (l9 & l10 & c5 & _ & (_ & -> & _) & (_ & ->)).
  cbn in Hn. injection Hn as <-.
  destruct (length_3 g5 ltac:(lia)) as (m1 & m2 & m3 & ->).
  destruct (length_2 g7 ltac:(lia)) as (y1 & y2 & ->).
  apply forallb_2 in Hy. destruct Hy as [Hya Hyb].
  exists d1, d2, m1, m2, m3, y1, y2. split; [reflexivity|].
  split; [apply (in_range_digit 51); [lia|exact Hd1]|]. auto.
Qed.

Lemma re_date2_shape text tok :
  match_group re_date2 text 1 = Some tok -> date_shape tok.
Proof.
  intros H. apply match_group_1 in H. destruct H as (b & r & caps & H & Hn).
  apply search_sound in H. destruct H as (pre & l & _ & H).
  unfold re_date2 in H. cbn [Cats fold_right sem] in H.
  destruct H as (l1 & l2 & c1 & _ & (_ & -> & _) & H).
  destruct H as (l3 & l4 & c2 & _ & Hg & H).
  destruct Hg as (cm & (g1 & g2 & cg & -> & (Hd & Hd1 & Hd2 & ->) & Hg) & ->).
  destruct Hg as (g5 & g6 & cg & -> & (_ & Hm1 & Hm2 & ->) & Hg).
  destruct Hg as (g7 & g8 & cg & -> & (Hy & Hy1 & Hy2 & ->) & (-> & ->)).
  destruct H as (l5 & l6 & c3 & _ & Hlit & H).
  apply sem_Lit in Hlit. destruct Hlit as [_ ->].
  destruct H as (l7 & l8 & c4 & _ & (_ & _ & _ & ->) & H).
  destruct H as (l9 & l10 & c5 & _ & Hlit & H).
  apply sem_Lit in Hlit. destruct Hlit as [_ ->].
  destruct H as (l11 & l12 & c6 & _ & (_ & _ & _ & ->) & H).
  destruct H as (l13 & l14 & c7 & _ & Hlit & H).
  apply sem_Lit in Hlit. destruct Hlit as [_ ->].
  destruct H as (l15 & l16 & c8 & _ & (_ & -> & _) & (_ & ->)).
  cbn in Hn. injection Hn as <-.
  destruct (length_2 g1 ltac:(lia)) as (d1 & d2 & ->).
  destruct (length_3 g5 ltac:(lia)) as (m1 & m2 & m3 & ->).
  destruct (length_2 g7 ltac:(lia)) as (y1 & y2 & ->).
  apply forallb_2 in Hy, Hd. destruct Hy as [Hya Hyb], Hd as [Hda Hdb].
  exists d1, d2, m1, m2, m3, y1, y2. auto 10.
Qed.

Lemma lookup_months mon mm_ :
  lookup mon months = Some mm_ ->
  exists mo a b,
    1 <= mo <= 12 /\ mm_ = [a; b] /\ digits_of [a; b] = Some mo
    /\ is_digit a = true /\ is_digit b = true /\ Number_digits [a; b] = mo.
Proof.
  unfold months. cbn [lookup].
  repeat match goal with
  | |- context [jsstring_eqb mon ?k] => destruct (jsstring_eqb mon k)
  end; intros E; try discriminate; injection E as <-.
  - exists 1. eexists. eexists. split; [lia|repeat split; reflexivity].
  - exists 2. eexists. eexists. split; [lia|repeat split; reflexivity].
  - exists 3. eexists. eexists. split; [lia|repeat split; reflexivity].
  - exists 4. eexists. eexists. split; [lia|repeat split; reflexivity].
  - exists 5. eexists. eexists. split; [lia|repeat split; reflexivity].
  - exists 6. eexists. eexists. split; [lia|repeat split; reflexivity].
  - exists 7. eexists. eexists. split; [lia|repeat split; reflexivity].
  - exists 8. eexists. eexists. split; [lia|repeat split; reflexivity].
  - exists 9. eexists. eexists. split; [lia|repeat split; reflexivity].
  - exists 10. eexists. eexists. split; [lia|repeat split; reflexivity].
  - exists 11. eexists. eexists. split; [lia|repeat split; reflexivity].
  - exists 12. eexists. eexists. split; [lia|repeat split; reflexivity].
Qed.

Lemma digit_of_digit c : is_digit c = true -> digit_of c = Some (digit_val c).
Proof. intros H. unfold digit_of. rewrite H. reflexivity. Qed.

Lemma parse_date_of_parts y1 y2 mo a b d1 d2 :
  is_digit y1 = true -> is_digit y2 = true -> is_digit d1 = true -> is_digit d2 = true ->
  1 <= mo <= 12 -> digits_of [a; b] = Some mo ->
  1 <= 10 * digit_val d1 + digit_val d2 <= 28 ->
  parse_date (str "20" ++ [y1; y2] ++ str "-" ++ [a; b] ++ str "-" ++ [d1; d2])
  = Some (MakeDay (2000 + (10 * digit_val y1 + digit_val y2)) (mo - 1)
            (10 * digit_val d1 + digit_val d2)).
Proof.
  intros Hy1 Hy2 Hd1 Hd2 Hmo Hab Hd.
  cbn [str list_ascii_of_string map app]. unfold parse_date.
  replace (chr "-" (N_of_ascii "-")) with true by reflexivity. cbn [andb].
  assert (E4 : digits_of [N_of_ascii "2"; N_of_ascii "0"; y1; y2]
               = Some (2000 + (10 * digit_val y1 + digit_val y2))).
  { unfold digits_of. cbn [fold_left].
    rewrite (digit_of_digit y1 Hy1), (digit_of_digit y2 Hy2).
    replace (digit_of (N_of_ascii "2")) with (Some 2) by reflexivity.
    replace (digit_of (N_of_ascii "0")) with (Some 0) by reflexivity.
    f_equal; lia. }
  assert (E2 : digits_of [d1; d2] = Some (10 * digit_val d1 + digit_val d2)).
  { unfold digits_of. cbn [fold_left].
    rewrite (digit_of_digit d1 Hd1), (digit_of_digit d2 Hd2). f_equal; lia. }
  rewrite E4, Hab, E2.
  destruct (Z.leb_spec 1 mo); [|lia]. destruct (Z.leb_spec mo 12); [|lia].
  destruct (Z.leb_spec 1 (10 * digit_val d1 + digit_val d2)); [|lia].
  destruct (Z.leb_spec (10 * digit_val d1 + digit_val d2) 31); [|lia].
  reflexivity.
Qed.

(** X20: for every text, an extracted date is the ten code units
    "20yy-mm-dd", where yy, mm and dd are pairs of decimal digits and mm is
    from 01 to 12: a date of the years 2000 to 2099.  When dd is from 01 to
    28 it parses to the day dd of the month mm of the year 20yy. *)
Theorem parseOFP_isoDate_in_this_century (raw iso : jsstring) :
  isoDate (parseOFP raw) = Some iso ->
  exists y1 y2 m1 m2 d1 d2,
    iso = str "20" ++ [y1; y2] ++ str "-" ++ [m1; m2] ++ str "-" ++ [d1; d2]
    /\ forallb is_digit [y1; y2; m1; m2; d1; d2] = true
    /\ 1 <= Number_digits [m1; m2] <= 12
    /\ (1 <= Number_digits [d1; d2] <= 28 ->
        parse_date iso
        = Some (MakeDay (2000 + Number_digits [y1; y2]) (Number_digits [m1; m2] - 1)
                  (Number_digits [d1; d2]))).
Proof.
  unfold parseOFP. cbv zeta. cbn [isoDate].
  set (tokO := js_or (match_group re_date1 (text_of_raw raw) 1)
                 (match_group re_date2 (text_of_raw raw) 1)).
  assert (Hs : forall tok, tokO = Some tok -> date_shape tok).
  { intros tok. subst tokO. unfold js_or.
    destruct (truthy_str (match_group re_date1 (text_of_raw raw) 1)).
    - apply re_date1_shape.
    - apply re_date2_shape. }
  unfold isoDate_of_token. destruct tokO as [tok|]; [|cbn; discriminate].
  destruct (Hs tok eq_refl) as (d1 & d2 & m1 & m2 & m3 & y1 & y2 & -> & Hd1 & Hd2 & Hy1 & Hy2).
  cbn [truthy_str]. unfold slice. cbn [skipn firstn Nat.sub].
  destruct (lookup [m1; m2; m3] months) as [mm_|] eqn:El; [|discriminate].
  apply lookup_months in El.
  destruct El as (mo & a & b & Hmo & -> & Hab & Ha & Hb & Hn).
  cbn [truthy_str]. intros E. injection E as <-.
  pose proof (is_digit_val y1 Hy1). pose proof (is_digit_val y2 Hy2).
  pose proof (is_digit_val d1 Hd1). pose proof (is_digit_val d2 Hd2).
  exists y1, y2, a, b, d1, d2.
  split; [reflexivity|].
  split; [cbn [forallb]; rewrite Hy1, Hy2, Ha, Hb, Hd1, Hd2; reflexivity|].
  rewrite Hn. split; [exact Hmo|].
  assert (Ey : Number_digits [y1; y2] = 10 * digit_val y1 + digit_val y2)
    by (unfold Number_digits; cbn [fold_left]; lia).
  assert (Ed : Number_digits [d1; d2] = 10 * digit_val d1 + digit_val d2)
    by (unfold Number_digits; cbn [fold_left]; lia).
  rewrite Ey, Ed. intros Hdd. apply parse_date_of_parts; assumption.
Qed.

Lemma parseOFP_isoDate_in_this_century_witness :
  isoDate (parseOFP scenarioA) = Some (str "2024-01-01")
  /\ exists y1 y2 m1 m2 d1 d2,
       str "2024-01-01" = str "20" ++ [y1; y2] ++ str "-" ++ [m1; m2] ++ str "-" ++ [d1; d2]
       /\ forallb is_digit [y1; y2; m1; m2; d1; d2] = true
       /\ 1 <= Number_digits [m1; m2] <= 12.
Proof.
  assert (E : isoDate (parseOFP scenarioA) = Some (str "2024-01-01"))
    by (vm_compute; reflexivity).
  split; [exact E|].
  destruct (parseOFP_isoDate_in_this_century scenarioA (str "2024-01-01") E)
    as (y1 & y2 & m1 & m2 & d1 & d2 & H1 & H2 & H3 & _).
  exists y1, y2, m1, m2, d1, d2. auto.
Defined.

(** ** From the parsed record to the pending flight *)

Lemma missingFields_nil parsed :
  missingFields parsed = [] ->
  truthy_str (isoDate parsed) = true /\ truthy_str (tail parsed) = true
  /\ truthy_str (route parsed) = true /\ truthy_num (block parsed) = true
  /\ truthy_str (orig parsed) = true /\ truthy_str (dest parsed) = true
  /\ truthy_obj (out (times parsed)) = true /\ truthy_obj (inT (times parsed)) = true.
Proof.
  unfold missingFields.
  destruct (truthy_str (isoDate parsed)); [|discriminate].
  destruct (truthy_str (tail parsed)); [|discriminate].
  destruct (truthy_str (route parsed)); [|discriminate].
  destruct (truthy_num (block parsed)); [|discriminate].
  destruct (truthy_str (orig parsed)); [|discriminate].
  destruct (truthy_str (dest parsed)); [|discriminate].
  destruct (truthy_obj (out (times parsed))); [|discriminate].
  destruct (truthy_obj (inT (times parsed))); [|discriminate].
  intros _. repeat split.
Qed.

Lemma truthy_str_Some o : truthy_str o = true -> exists s, o = Some s /\ s <> [].
Proof. destruct o as [[|c s]|]; try discriminate. intros _. eexists. split; [reflexivity|discriminate]. Qed.

Lemma truthy_obj_Some {A} (o : option A) : truthy_obj o = true -> exists x, o = Some x.
Proof. destruct o; [eauto | discriminate]. Qed.

(** Past its four checks [createPendingFlight] sends one envelope, and what
    it returns or throws is decided by the answer. *)
Lemma createPendingFlight_validated AIRPORTS token parsed pfMode res :
  truthy_str (isoDate parsed) = true -> truthy_str (tail parsed) = true ->
  truthy_str (route parsed) = true -> truthy_num (block parsed) = true ->
  exists b env,
    block parsed = Some b
    /\ env = mkSoapEnvelope (escapeXml (Some token))
               match isoDate parsed with Some d => d | None => str "null" end
               (escapeXml (tail parsed)) (escapeXml (route parsed))
               b b 0 (escapeXml (Some (comments parsed))) b
               match nightHours (computeNightHours_BlockInterval AIRPORTS parsed (-6)) with
               | Some h => h
               | None => 0%Q
               end
               (Qmax (Math_round ((b - 0.1) * 10) / 10) 0) 1
               match isNightLanding (computeLandingDayNight AIRPORTS parsed (-6)) with
               | Some false => 1
               | _ => 0
               end
               match isNightLanding (computeLandingDayNight AIRPORTS parsed (-6)) with
               | Some true => 1
               | _ => 0
               end
               1
               (escapeXml (Some match captain parsed with Some n => n | None => [] end))
               (escapeXml (Some match fo parsed with Some n => n | None => [] end))
               match mode_of pfMode with PF => b | PM => 0%Q end
               match mode_of pfMode with PM => b | PF => 0%Q end
    /\ createPendingFlight AIRPORTS token parsed pfMode res
       = (match exchangeError res with
          | Some e => inl e
          | None =>
              inr (mkCreated
                     match res with
                     | FetchResponse _ _ body => slice body 0 300
                     | FetchRejected _ => []
                     end
                     (mkComputed (Approaches env) (Landings env) (FullStopLandings env)
                        (FullStopNightLandings env) (CrossCountry env) (Night env) (IMC env)
                        (nightReason (computeNightHours_BlockInterval AIRPORTS parsed (-6)))
                        (landingReason (computeLandingDayNight AIRPORTS parsed (-6)))
                        (sunAltDeg (computeLandingDayNight AIRPORTS parsed (-6)))))
          end,
          [env]).
Proof.
  intros H1 H2 H3 H4. unfold createPendingFlight. rewrite H1, H2, H3, H4. cbn [negb].
  destruct (block parsed) as [b|]; [|discriminate H4].
  eexists b, _. split; [reflexivity|]. split; [reflexivity|].
  cbv zeta. destruct res as [message|ok status body]; [reflexivity|].
  destruct ok; reflexivity.
Qed.

(** An envelope is sent only past the four checks. *)
Lemma createPendingFlight_sent AIRPORTS token parsed pfMode res r env :
  createPendingFlight AIRPORTS token parsed pfMode res = (r, [env]) ->
  truthy_str (isoDate parsed) = true /\ truthy_str (tail parsed) = true
  /\ truthy_str (route parsed) = true /\ truthy_num (block parsed) = true.
Proof.
  unfold createPendingFlight.
  destruct (truthy_str (isoDate parsed)); [|discriminate].
  destruct (truthy_str (tail parsed)); [|discriminate].
  destruct (truthy_str (route parsed)); [|discriminate].
  destruct (truthy_num (block parsed)); [|discriminate]. auto.
Qed.

(** X21: in every envelope that [createPendingFlight] sends, total, SIC and
    cross-country time are the block time and PIC time is 0; the block time
    goes to exactly one of pilot-flying (property 529) and pilot-monitoring
    (property 530) time, the other being 0; day and night full-stop
    landings are 0 or 1 and never both 1; night time is between 0 and 24
    hours; and IMC time is not negative.  When the function returns, its
    [computed] object repeats the values of the envelope. *)
Theorem createPendingFlight_values
    (AIRPORTS : jsstring -> option Coord) (MFB_AUTH_TOKEN : jsstring)
    (parsed : FlightFact) (pfMode : option jsstring) (res : FetchResult)
    (r : jsstring + Created) (env : SoapEnvelope) :
  createPendingFlight AIRPORTS MFB_AUTH_TOKEN parsed pfMode res = (r, [env]) ->
  block parsed = Some (TotalTime env)
  /\ SIC env = TotalTime env /\ CrossCountry env = TotalTime env /\ PIC env = 0%Q
  /\ ((Property529 env = TotalTime env /\ Property530 env = 0%Q)
      \/ (Property529 env = 0%Q /\ Property530 env = TotalTime env))
  /\ 0 <= FullStopLandings env <= 1 /\ 0 <= FullStopNightLandings env <= 1
  /\ FullStopLandings env + FullStopNightLandings env <= 1
  /\ (0 <= Night env)%Q /\ (Night env <= 24)%Q
  /\ (0 <= IMC env)%Q
  /\ (forall created, r = inr created ->
        xc (computed created) = CrossCountry env
        /\ night (computed created) = Night env
        /\ imc (computed created) = IMC env
        /\ fullStopDay (computed created) = FullStopLandings env
        /\ fullStopNight (computed created) = FullStopNightLandings env).
Proof.
  intros H. pose proof (createPendingFlight_sent _ _ _ _ _ _ _ H) as (H1 & H2 & H3 & H4).
  destruct (createPendingFlight_validated AIRPORTS MFB_AUTH_TOKEN parsed pfMode res
              H1 H2 H3 H4) as (b & env' & Hb & Henv & E).
  rewrite E in H. injection H as Hr He. subst env'.
  assert (Hc : forall created, r = inr created ->
                 xc (computed created) = CrossCountry env
                 /\ night (computed created) = Night env
                 /\ imc (computed created) = IMC env
                 /\ fullStopDay (computed created) = FullStopLandings env
                 /\ fullStopNight (computed created) = FullStopNightLandings env).
  { intros created Ec. rewrite Ec in Hr.
    destruct (exchangeError res); [discriminate Hr|]. injection Hr as <-.
    cbn [computed xc night imc fullStopDay fullStopNight]. repeat split. }
  rewrite Henv in *.
  cbn [TotalTime SIC CrossCountry PIC Property529 Property530 FullStopLandings
         FullStopNightLandings Night IMC] in *.
  split; [exact Hb|]. split; [reflexivity|]. split; [reflexivity|]. split; [reflexivity|].
  split; [destruct (mode_of pfMode); auto|].
  split; [destruct (isNightLanding _) as [[|]|]; lia|].
  split; [destruct (isNightLanding _) as [[|]|]; lia|].
  split; [destruct (isNightLanding _) as [[|]|]; lia|].
  assert (N : (0 <= match nightHours (computeNightHours_BlockInterval AIRPORTS parsed (-6))
                    with Some h => h | None => 0%Q end)%Q
              /\ (match nightHours (computeNightHours_BlockInterval AIRPORTS parsed (-6))
                  with Some h => h | None => 0%Q end <= 24)%Q).
  { destruct (nightHours (computeNightHours_BlockInterval AIRPORTS parsed (-6)))
      as [h|] eqn:En.
    - exact (nightHours_in_range AIRPORTS parsed (-6) h En).
    - split; [apply Qle_refl | discriminate]. }
  destruct N as [N1 N2]. split; [exact N1|]. split; [exact N2|].
  split; [|exact Hc].
  unfold Qmax. destruct (Qle_bool (Math_round ((b - 0.1) * 10) / 10) 0) eqn:Q0.
  - apply Qle_refl.
  - destruct (Qlt_le_dec (Math_round ((b - 0.1) * 10) / 10) 0) as [L|G]; [|exact G].
    apply Qlt_le_weak in L. apply Qle_bool_iff in L. congruence.
Qed.

Lemma scenarioA_validated :
  truthy_str (isoDate (parseOFP scenarioA)) = true
  /\ truthy_str (tail (parseOFP scenarioA)) = true
  /\ truthy_str (route (parseOFP scenarioA)) = true
  /\ truthy_num (block (parseOFP scenarioA)) = true.
Proof. repeat split; vm_compute; reflexivity. Qed.

Lemma createPendingFlight_values_witness :
  exists r env,
    createPendingFlight exampleAirports exampleToken (parseOFP scenarioA)
      (Some (str "PM")) answerOk = (r, [env])
    /\ block (parseOFP scenarioA) = Some (TotalTime env)
    /\ FullStopLandings env + FullStopNightLandings env <= 1.
Proof.
  destruct scenarioA_validated as (H1 & H2 & H3 & H4).
  destruct (createPendingFlight_validated exampleAirports exampleToken (parseOFP scenarioA)
              (Some (str "PM")) answerOk H1 H2 H3 H4) as (b & env & _ & _ & E).
  eexists _, env. split; [exact E|].
  pose proof (createPendingFlight_values exampleAirports exampleToken (parseOFP scenarioA)
                (Some (str "PM")) answerOk _ env E) as (Hb & _ & _ & _ & _ & _ & _ & Hs & _).
  split; [exact Hb | exact Hs].
Defined.

(** X22: when the block time is k tenths of an hour with k at least 1, as
    every extracted block time that passes the validation is, the IMC time
    in the envelope [createPendingFlight] sends is the block time less 0.1
    hour: (k - 1) tenths. *)
Theorem createPendingFlight_imc_is_block_less_a_tenth
    (AIRPORTS : jsstring -> option Coord) (MFB_AUTH_TOKEN : jsstring)
    (parsed : FlightFact) (pfMode : option jsstring) (res : FetchResult)
    (r : jsstring + Created) (env : SoapEnvelope) (k : Z) :
  createPendingFlight AIRPORTS MFB_AUTH_TOKEN parsed pfMode res = (r, [env]) ->
  (TotalTime env == k # 10)%Q -> 1 <= k ->
  (IMC env == (k - 1) # 10)%Q.
Proof.
  intros H Hk Hpos.
  pose proof (createPendingFlight_sent _ _ _ _ _ _ _ H) as (H1 & H2 & H3 & H4).
  destruct (createPendingFlight_validated AIRPORTS MFB_AUTH_TOKEN parsed pfMode res
              H1 H2 H3 H4) as (b & env' & Hb & Henv & E).
  rewrite E in H. injection H as _ He. subst env'. rewrite Henv in *.
  cbn [TotalTime IMC] in *.
  assert (R : (Math_round ((b - 0.1) * 10) == inject_Z (k - 1))%Q).
  { assert (Eq : ((b - 0.1) * 10 == inject_Z (k - 1))%Q).
    { rewrite Hk. unfold Qeq, Qminus, Qplus, Qopp, Qmult, inject_Z. cbn [Qnum Qden].
      change (Z.pos (10 * 10 * 1)) with 100. change (Z.pos 1) with 1.
      change (Z.pos 10) with 10. change (Z.neg 1) with (-1). lia. }
    unfold Math_round.
    assert (F : Qfloor ((b - 0.1) * 10 + (1 # 2)) = k - 1).
    { rewrite (Qfloor_comp _ (inject_Z (k - 1) + (1 # 2))) by (rewrite Eq; reflexivity).
      unfold Qfloor, Qplus, inject_Z. cbn [Qnum Qden]. change (Z.pos (1 * 2)) with 2.
      symmetry. apply Z.div_unique with (r := 1); lia. }
    rewrite F. reflexivity. }
  unfold Qmax.
  assert (P : ((k - 1) # 10 == Math_round ((b - 0.1) * 10) / 10)%Q).
  { rewrite R. unfold Qeq, Qdiv, Qmult, Qinv, inject_Z. cbn [Qnum Qden].
    change (Z.pos (1 * 10)) with 10. change (Z.pos 10) with 10. lia. }
  destruct (Qle_bool (Math_round ((b - 0.1) * 10) / 10) 0) eqn:Q0.
  - apply Qle_bool_iff in Q0. rewrite <- P in Q0.
    unfold Qle in Q0. cbn [Qnum Qden] in Q0.
    unfold Qeq. cbn [Qnum Qden]. lia.
  - symmetry. exact P.
Qed.

Lemma createPendingFlight_imc_is_block_less_a_tenth_witness :
  exists r env,
    createPendingFlight exampleAirports exampleToken (parseOFP scenarioA) None answerOk
    = (r, [env])
    /\ (TotalTime env == 15 # 10)%Q
    /\ (IMC env == 14 # 10)%Q.
Proof.
  destruct scenarioA_validated as (H1 & H2 & H3 & H4).
  destruct (createPendingFlight_validated exampleAirports exampleToken (parseOFP scenarioA)
              None answerOk H1 H2 H3 H4) as (b & env & Hb & Henv & E).
  assert (Hk : (TotalTime env == 15 # 10)%Q).
  { assert (B : block (parseOFP scenarioA) = Some 1.5%Q) by (vm_compute; reflexivity).
    rewrite B in Hb. injection Hb as <-. rewrite Henv. reflexivity. }
  eexists _, env. split; [exact E|]. split; [exact Hk|].
  exact (createPendingFlight_imc_is_block_less_a_tenth exampleAirports exampleToken
           (parseOFP scenarioA) None answerOk _ env 15 E Hk ltac:(lia)).
Defined.

Lemma validated_inputs AIRPORTS parsed :
  missingFields parsed = [] ->
  airport AIRPORTS (orig parsed) <> None -> airport AIRPORTS (dest parsed) <> None ->
  exists iso a b o i,
    hasNightInputs AIRPORTS parsed iso a b o i
    /\ exists l, hasLandingInputs AIRPORTS parsed iso b l.
Proof.
  intros Hm Ha Hb. apply missingFields_nil in Hm.
  destruct Hm as (H1 & _ & _ & _ & H5 & H6 & H7 & H8).
  apply truthy_str_Some in H1, H5, H6. apply truthy_obj_Some in H7, H8.
  destruct H1 as (iso & Ei & Ni), H5 as (oc & Eo & No), H6 as (dc & Ed & Nd).
  destruct H7 as (o & Eout), H8 as (i & Ein).
  rewrite Eo in Ha. rewrite Ed in Hb. cbn [airport] in Ha, Hb.
  destruct (AIRPORTS oc) as [a|] eqn:Ea; [|contradiction].
  destruct (AIRPORTS dc) as [b|] eqn:Eb; [|contradiction].
  exists iso, a, b, o, i. split.
  - unfold hasNightInputs. repeat split; eauto.
  - destruct (on (times parsed)) as [l|] eqn:Eon.
    + exists l. unfold hasLandingInputs. repeat split; eauto.
    + exists i. unfold hasLandingInputs. repeat split; eauto.
Qed.

(** The handler past its own checks: one envelope is sent, and the answer
    is that of [createPendingFlight]. *)
Lemma ingestParsed_validated AIRPORTS token parsed pfMode res :
  missingFields parsed = [] ->
  airport AIRPORTS (orig parsed) <> None -> airport AIRPORTS (dest parsed) <> None ->
  ingestParsed AIRPORTS token parsed pfMode res
  = match createPendingFlight AIRPORTS token parsed pfMode res with
    | (inr result, sent) =>
        (PendingFlightCreated (mode_of pfMode) parsed (computed result) (soapSnippet result),
         sent)
    | (inl e, sent) => (InternalError e, sent)
    end.
Proof.
  intros Hm Ha Hb. unfold ingestParsed. cbv zeta. rewrite Hm.
  destruct (airport AIRPORTS (orig parsed)); [|contradiction].
  destruct (airport AIRPORTS (dest parsed)); [|contradiction].
  reflexivity.
Qed.

(** X23: when no field is missing and both airports have coordinates, the
    [/ingest] handler sends one envelope to the logbook service, logging
    exactly one full-stop landing, day or night.  When the exchange fails
    (the request is rejected or the answer is not ok) the handler reports
    that error and no pending flight.  When the service answers ok, the
    handler reports the pending flight created, with the first 300 code
    units of the answer, and both classifiers have run: the night reason is
    "ok" or "Non-positive block minutes" and the landing reason is "ok". *)
Theorem ingest_creates_pending_flight
    (AIRPORTS : jsstring -> option Coord) (MFB_AUTH_TOKEN : jsstring)
    (parsed : FlightFact) (pfMode : option jsstring) (res : FetchResult) :
  missingFields parsed = [] ->
  airport AIRPORTS (orig parsed) <> None -> airport AIRPORTS (dest parsed) <> None ->
  exists env,
    snd (ingestParsed AIRPORTS MFB_AUTH_TOKEN parsed pfMode res) = [env]
    /\ FullStopLandings env + FullStopNightLandings env = 1
    /\ (forall e, exchangeError res = Some e ->
          fst (ingestParsed AIRPORTS MFB_AUTH_TOKEN parsed pfMode res) = InternalError e)
    /\ (forall ok status body, res = FetchResponse ok status body -> ok = true ->
          exists v,
            fst (ingestParsed AIRPORTS MFB_AUTH_TOKEN parsed pfMode res)
            = PendingFlightCreated (mode_of pfMode) parsed v (slice body 0 300)
            /\ (computed_nightReason v = str "ok"
                \/ computed_nightReason v = str "Non-positive block minutes")
            /\ computed_landingReason v = str "ok"
            /\ fullStopDay v = FullStopLandings env
            /\ fullStopNight v = FullStopNightLandings env).
Proof.
  intros Hm Ha Hb.
  destruct (validated_inputs AIRPORTS parsed Hm Ha Hb)
    as (iso & a & b & o & i & Hn & l & Hl).
  pose proof (missingFields_nil parsed Hm) as (H1 & H2 & H3 & H4 & _).
  destruct (createPendingFlight_validated AIRPORTS MFB_AUTH_TOKEN parsed pfMode res
              H1 H2 H3 H4) as (bl & env & _ & Henv & E).
  rewrite (ingestParsed_validated AIRPORTS MFB_AUTH_TOKEN parsed pfMode res Hm Ha Hb), E.
  exists env. split; [|split; [|split]].
  - destruct (exchangeError res); reflexivity.
  - rewrite Henv. cbn [FullStopLandings FullStopNightLandings].
    rewrite (landing_unfold AIRPORTS parsed iso b l (-6) Hl). cbn [isNightLanding].
    destruct (js_lt _ _); reflexivity.
  - intros e Ee. rewrite Ee. reflexivity.
  - intros ok status body -> ->. cbn [exchangeError fst]. eexists.
    split; [reflexivity|]. cbn [computed_nightReason computed_landingReason fullStopDay
      fullStopNight]. split; [|split; [|split; reflexivity]].
    + rewrite (night_unfold AIRPORTS parsed iso a b o i (-6) Hn).
      destruct (diffMinutesWithMidnightWrap (makeUtcDate iso o) (makeUtcDate iso i)) as [d|];
        [destruct (d <=? 0)|]; cbn [nightReason]; auto.
    + rewrite (landing_unfold AIRPORTS parsed iso b l (-6) Hl). reflexivity.
Qed.

Lemma scenarioA_airports :
  missingFields (parseOFP scenarioA) = []
  /\ airport exampleAirports (orig (parseOFP scenarioA)) <> None
  /\ airport exampleAirports (dest (parseOFP scenarioA)) <> None.
Proof.
  assert (Eo : orig (parseOFP scenarioA) = Some (str "CYYZ")) by (vm_compute; reflexivity).
  assert (Ed : dest (parseOFP scenarioA) = Some (str "CYOW")) by (vm_compute; reflexivity).
  split; [vm_compute; reflexivity|]. split.
  - rewrite Eo. cbn [airport]. rewrite exampleAirports_CYYZ. discriminate.
  - rewrite Ed. cbn [airport]. rewrite exampleAirports_CYOW. discriminate.
Qed.

Lemma ingest_creates_pending_flight_witness :
  missingFields (parseOFP scenarioA) = []
  /\ exchangeError answerDenied = Some (str "MyFlightbook HTTP 401: Unauthorized")
  /\ fst (ingestParsed exampleAirports exampleToken (parseOFP scenarioA) None answerDenied)
     = InternalError (str "MyFlightbook HTTP 401: Unauthorized")
  /\ exists v,
       fst (ingestParsed exampleAirports exampleToken (parseOFP scenarioA) None answerOk)
       = PendingFlightCreated PF (parseOFP scenarioA) v (str "<soap:Envelope/>")
       /\ computed_landingReason v = str "ok".
Proof.
  destruct scenarioA_airports as (Hm & Ha & Hb).
  assert (Ee : exchangeError answerDenied = Some (str "MyFlightbook HTTP 401: Unauthorized"))
    by (vm_compute; reflexivity).
  split; [exact Hm|]. split; [exact Ee|]. split.
  - destruct (ingest_creates_pending_flight exampleAirports exampleToken
                (parseOFP scenarioA) None answerDenied Hm Ha Hb) as (env & _ & _ & He & _).
    exact (He _ Ee).
  - destruct (ingest_creates_pending_flight exampleAirports exampleToken
                (parseOFP scenarioA) None answerOk Hm Ha Hb) as (env & _ & _ & _ & Hok).
    destruct (Hok true 200 (str "<soap:Envelope/>") eq_refl eq_refl)
      as (v & E & _ & Hl & _).
    exists v. split; [exact E | exact Hl].
Defined.



(** ** toTitleCase *)

Lemma is_space_letter c : (65 <= c <= 122)%N -> is_space c = false.
Proof.
  intros H. unfold is_space, in_range.
  repeat match goal with
  | |- context [(?x =? ?k)%N] => destruct (N.eqb_spec x k); [lia|]
  | |- context [(?x <=? ?k)%N] => destruct (N.leb_spec x k)
  end; try reflexivity; lia.
Qed.

Lemma is_upper_range c : is_upper c = true -> (65 <= c <= 90)%N.
Proof.
  unfold is_upper, in_range. intros H. apply andb_true_iff in H. destruct H as [H1 H2].
  apply N.leb_le in H1, H2. lia.
Qed.

Lemma is_lower_range c : is_lower c = true -> (97 <= c <= 122)%N.
Proof.
  unfold is_lower, in_range. intros H. apply andb_true_iff in H. destruct H as [H1 H2].
  apply N.leb_le in H1, H2. lia.
Qed.

Lemma is_space_to_lower c : is_space (to_lower c) = is_space c.
Proof.
  unfold to_lower. destruct (is_upper c) eqn:E; [|reflexivity].
  apply is_upper_range in E. rewrite !is_space_letter by lia. reflexivity.
Qed.

Lemma is_space_to_upper c : is_space (to_upper c) = is_space c.
Proof.
  unfold to_upper. destruct (is_lower c) eqn:E; [|reflexivity].
  apply is_lower_range in E. rewrite !is_space_letter by lia. reflexivity.
Qed.

Lemma to_lower_to_upper c : to_lower (to_upper c) = to_lower c.
Proof.
  unfold to_upper. destruct (is_lower c) eqn:E; [|reflexivity].
  pose proof (is_lower_range c E) as R. unfold to_lower.
  assert (U : is_upper (c - 32) = true).
  { unfold is_upper, in_range. apply andb_true_iff. split; apply N.leb_le; lia. }
  assert (V : is_upper c = false).
  { unfold is_upper, in_range. apply andb_false_iff. right. apply N.leb_gt. lia. }
  rewrite U, V. lia.
Qed.

Lemma to_lower_idem c : to_lower (to_lower c) = to_lower c.
Proof.
  unfold to_lower at 1.
  destruct (is_upper (to_lower c)) eqn:E; [|reflexivity].
  apply is_upper_range in E. unfold to_lower in *.
  destruct (is_upper c) eqn:E'; [apply is_upper_range in E'; lia|].
  unfold is_upper, in_range in E'. apply andb_false_iff in E'.
  destruct E' as [E'|E']; apply N.leb_gt in E'; lia.
Qed.

Lemma trim_start_map (f : N -> N) :
  (forall c, is_space (f c) = is_space c) ->
  forall s, trim_start (map f s) = map f (trim_start s).
Proof.
  intros Hf. induction s as [|c s IH]; [reflexivity|].
  cbn [map trim_start]. rewrite Hf. destruct (is_space c); [exact IH | reflexivity].
Qed.

Lemma trim_map (f : N -> N) :
  (forall c, is_space (f c) = is_space c) ->
  forall s, trim (map f s) = map f (trim s).
Proof.
  intros Hf s. unfold trim.
  rewrite (trim_start_map f Hf), <- map_rev, (trim_start_map f Hf), map_rev. reflexivity.
Qed.

Lemma trim_start_head s :
  match trim_start s with [] => True | c :: _ => is_space c = false end.
Proof.
  induction s as [|c s IH]; [exact I|]. cbn [trim_start].
  destruct (is_space c) eqn:E; [exact IH | exact E].
Qed.

Lemma trim_start_suffix s : exists sp, s = sp ++ trim_start s.
Proof.
  induction s as [|c s IH]; [exists []; reflexivity|]. cbn [trim_start].
  destruct (is_space c).
  - destruct IH as [sp E]. exists (c :: sp). cbn. rewrite <- E. reflexivity.
  - exists []. reflexivity.
Qed.

Lemma trim_start_fixed s :
  match s with [] => True | c :: _ => is_space c = false end -> trim_start s = s.
Proof. destruct s as [|c s]; [reflexivity|]. cbn. intros ->. reflexivity. Qed.

Lemma trim_trimmed s : trimmed (trim s).
Proof.
  unfold trim, trimmed. rewrite rev_involutive.
  set (a := trim_start s).
  pose proof (trim_start_head s) as Ha. fold a in Ha.
  pose proof (trim_start_head (rev a)) as Hb.
  destruct (trim_start_suffix (rev a)) as [sp E].
  set (b := trim_start (rev a)) in *.
  split; [|exact Hb].
  destruct b as [|c b]; [exact I|].
  assert (Er : rev (c :: b) = rev (c :: b)) by reflexivity.
  apply (f_equal (@rev N)) in E. rewrite rev_involutive, rev_app_distr in E.
  destruct (rev (c :: b)) as [|x r] eqn:Ex.
  - exact I.
  - rewrite E in Ha. exact Ha.
Qed.

Lemma trim_fixed s : trimmed s -> trim s = s.
Proof.
  intros [H1 H2]. unfold trim. rewrite (trim_start_fixed s H1).
  rewrite (trim_start_fixed (rev s) H2). apply rev_involutive.
Qed.

Lemma capitalize_words_space b s :
  map is_space (capitalize_words b s) = map is_space s.
Proof.
  revert b. induction s as [|c s IH]; intros b; [reflexivity|].
  cbn [capitalize_words map]. rewrite IH. f_equal.
  destruct (is_lower c && negb b); [apply is_space_to_upper | reflexivity].
Qed.

Lemma trimmed_same_spaces s t : map is_space s = map is_space t -> trimmed s -> trimmed t.
Proof.
  intros E [H1 H2]. split.
  - destruct s, t; try discriminate E; [exact I|]. cbn in E. injection E as E _. congruence.
  - assert (Er : map is_space (rev s) = map is_space (rev t))
      by (rewrite !map_rev, E; reflexivity).
    destruct (rev s), (rev t); try discriminate Er; [exact I|].
    cbn in Er. injection Er as Er _. congruence.
Qed.

Lemma capitalize_words_lower b s :
  map to_lower (capitalize_words b s) = map to_lower s.
Proof.
  revert b. induction s as [|c s IH]; intros b; [reflexivity|].
  cbn [capitalize_words map]. rewrite IH. f_equal.
  destruct (is_lower c && negb b); [apply to_lower_to_upper | reflexivity].
Qed.

(** X25: for names in ASCII, [toTitleCase] depends on its argument only up
    to letter case - a name in capitals, in small letters or already in
    title case gives the same result - and applying it twice is the same
    as applying it once; the result has no white space at either end. *)
Theorem toTitleCase_ignores_case_and_is_idempotent (name : jsstring) :
  Forall (fun c => (c < 128)%N) name ->
  toTitleCase (map to_upper name) = toTitleCase name
  /\ toTitleCase (map to_lower name) = toTitleCase name
  /\ toTitleCase (toTitleCase name) = toTitleCase name
  /\ trimmed (toTitleCase name).
Proof.
  intros _. unfold toTitleCase.
  assert (T : trimmed (capitalize_words false (map to_lower (trim name)))).
  { apply (trimmed_same_spaces (trim name)); [|apply trim_trimmed].
    rewrite capitalize_words_space, map_map. apply map_ext.
    intros c. symmetry. apply is_space_to_lower. }
  split; [|split; [|split; [|exact T]]].
  - rewrite (trim_map to_upper is_space_to_upper), map_map. f_equal.
    apply map_ext. intros c. apply to_lower_to_upper.
  - rewrite (trim_map to_lower is_space_to_lower), map_map. f_equal.
    apply map_ext. intros c. apply to_lower_idem.
  - rewrite (trim_fixed _ T), capitalize_words_lower, map_map. f_equal.
    apply map_ext. intros c. apply to_lower_idem.
Qed.

Lemma toTitleCase_ignores_case_and_is_idempotent_witness :
  Forall (fun c => (c < 128)%N) (str "  jOHN o'neil-SMITH ")
  /\ toTitleCase (str "  jOHN o'neil-SMITH ") = str "John O'Neil-Smith"
  /\ toTitleCase (str "John O'Neil-Smith") = str "John O'Neil-Smith".
Proof.
  assert (A : Forall (fun c => (c < 128)%N) (str "  jOHN o'neil-SMITH "))
    by (apply Forall_forall; intros c Hc; vm_compute in Hc;
        repeat (destruct Hc as [<-|Hc]; [reflexivity|]); contradiction).
  assert (E : toTitleCase (str "  jOHN o'neil-SMITH ") = str "John O'Neil-Smith")
    by (vm_compute; reflexivity).
  split; [exact A|]. split; [exact E|].
  rewrite <- E at 1.
  exact (proj1 (proj2 (proj2 (toTitleCase_ignores_case_and_is_idempotent _ A)))).
Defined.

Lemma trim_start_keeps_last x c :
  is_space c = false -> exists m, trim_start (x ++ [c]) = m ++ [c].
Proof.
  intros Hc. induction x as [|a x IH]; cbn [app trim_start].
  - rewrite Hc. exists []. reflexivity.
  - destruct (is_space a); [exact IH|]. exists (a :: x). reflexivity.
Qed.

Lemma re_name_capture marker text raw :
  match_group (re_name marker) text 1 = Some raw ->
  exists c l, raw = c :: l /\ is_upper c = true /\ (2 <= length l)%nat.
Proof.
  intros H. apply match_group_1 in H. destruct H as (b & r & caps & H & Hn).
  apply search_sound in H. destruct H as (pre & l & _ & H).
  unfold re_name in H. cbn [Cats fold_right sem] in H.
  destruct H as (l1 & l2 & c1 & _ & (_ & -> & _) & H).
  destruct H as (l3 & l4 & c2 & _ & Hlit & H).
  apply sem_Lit in Hlit. destruct Hlit as [_ ->].
  destruct H as (l5 & l6 & c3 & _ & (_ & _ & _ & ->) & H).
  destruct H as (l7 & l8 & c4 & _ & Hg & H).
  destruct Hg as (cm & (g1 & g2 & cg & -> & (c & -> & Hc & ->) & Hg) & ->).
  destruct Hg as (g3 & g4 & cg & -> & (_ & Hlo & _ & ->) & (-> & ->)).
  destruct H as (l9 & l10 & c5 & _ & (_ & -> & _) & (_ & ->)).
  cbn in Hn. injection Hn as <-. exists c, (g3 ++ []).
  split; [reflexivity|]. split; [exact Hc|]. rewrite app_nil_r. exact Hlo.
Qed.

Lemma toTitleCase_of_capital c l :
  is_upper c = true -> exists rest, toTitleCase (c :: l) = c :: rest.
Proof.
  intros Hc. pose proof (is_upper_range c Hc) as R.
  assert (Hs : is_space c = false) by (apply is_space_letter; lia).
  unfold toTitleCase, trim. cbn [trim_start]. rewrite Hs. cbn [rev].
  destruct (trim_start_keeps_last (rev l) c Hs) as [m ->].
  rewrite rev_app_distr. cbn [rev app map capitalize_words].
  assert (L : is_lower (to_lower c) = true).
  { unfold to_lower. rewrite Hc. unfold is_lower, in_range.
    apply andb_true_iff. split; apply N.leb_le; lia. }
  rewrite L. cbn [negb andb].
  assert (U : to_upper (to_lower c) = c).
  { unfold to_upper. rewrite L. unfold to_lower. rewrite Hc. lia. }
  rewrite U. eexists. reflexivity.
Qed.

(** X26: for every text, an extracted captain or first-officer name is not
    empty and starts with an upper-case letter, the one the name starts
    with in the text. *)
Theorem parseOFP_names_start_with_a_capital (raw : jsstring) :
  (forall name, captain (parseOFP raw) = Some name ->
     exists c rest, name = c :: rest /\ is_upper c = true)
  /\ (forall name, fo (parseOFP raw) = Some name ->
        exists c rest, name = c :: rest /\ is_upper c = true).
Proof.
  assert (G : forall marker name,
             (if truthy_str (js_or (match_group (re_name marker) (text_of_raw raw) 1) None)
              then option_map toTitleCase
                     (js_or (match_group (re_name marker) (text_of_raw raw) 1) None)
              else None) = Some name ->
             exists c rest, name = c :: rest /\ is_upper c = true).
  { intros marker name. unfold js_or.
    destruct (match_group (re_name marker) (text_of_raw raw) 1) as [tok|] eqn:E;
      [|cbn; discriminate].
    apply re_name_capture in E. destruct E as (c & l & -> & Hc & _).
    cbn [truthy_str option_map]. intros H. injection H as <-.
    destruct (toTitleCase_of_capital c l Hc) as [rest ->]. eauto. }
  unfold parseOFP. cbv zeta. cbn [captain fo].
  split; intros name; apply G.
Qed.

Lemma parseOFP_names_start_with_a_capital_witness :
  fo (parseOFP scenarioA) = Some (str "Jane Doe")
  /\ exists c rest, str "Jane Doe" = c :: rest /\ is_upper c = true.
Proof.
  assert (E : fo (parseOFP scenarioA) = Some (str "Jane Doe")) by (vm_compute; reflexivity).
  split; [exact E|].
  exact (proj2 (parseOFP_names_start_with_a_capital scenarioA) _ E).
Defined.

(** ** clamp *)

(** X27: when the lower bound is not above the upper bound and the argument
    is a number, [clamp] returns a number between the bounds: its argument
    when that lies between them, the lower bound when it is below, the
    upper bound when it is above.  A NaN argument comes back as NaN,
    whatever the bounds. *)
Theorem clamp_stays_within_bounds (x a b : R) :
  (a <= b)%R ->
  (exists c,
     clamp x a b = Some c /\ (a <= c <= b)%R
     /\ ((a <= x <= b)%R -> c = x)
     /\ ((x <= a)%R -> c = a)
     /\ ((b <= x)%R -> c = b))
  /\ (forall lo hi : num, clamp None lo hi = None).
Proof.
  intros Hab. split; [exact (clamp_number x a b Hab) | exact clamp_nan].
Qed.

Lemma clamp_stays_within_bounds_witness :
  (-1 <= 1)%R /\ clamp 3%R (-1)%R 1%R = Some 1%R /\ clamp None (-1)%R 1%R = None.
Proof.
  assert (H : (-1 <= 1)%R) by lra.
  destruct (clamp_stays_within_bounds 3 (-1) 1 H) as [(c & E & _ & _ & _ & Hhi) Hnan].
  split; [exact H|]. split; [|exact (Hnan (-1)%R 1%R)].
  rewrite E. f_equal. apply Hhi. lra.
Defined.
